(** * Travel-request workflow: models, serializer and views

    A shallow embedding of [requests/models.py], [requests/permissions.py],
    [requests/serializers.py] and the views of [requests/views.py]: the
    request views, the employee directory and the logins.  The properties of
    the request life cycle follow, then those of the rest.

    Conventions.
    - A calendar date is its day ordinal, an integer; Python compares dates
      by that order.
    - A table is the list of its rows; a foreign key holds the primary key of
      the row it points to, [None] for SQL NULL.
    - The one-to-one link from a profile to its [User] cannot be null and is
      deleted in cascade, so the [User] row is stored inside the profile.
    - A view is a function of the store; it yields the store it leaves behind
      and what the caller receives.
    - A text is the string of its UTF-8 bytes; its characters are counted
      and its white space is stripped as Python does.
    - What Django supplies and the repository does not define (the
      authentication backend, the key of a new token, the validators of the
      [User] serializer) is a variable of a section. *)

From Stdlib Require Import List String Ascii ZArith Bool Arith Lia DecimalString.
From Stdlib Require Import Permutation Sorted.
Import ListNotations.
Open Scope string_scope.

Definition date := Z.

(** ** Python helpers *)

(** [x in xs] on strings. *)
Definition str_in (x : string) (xs : list string) : bool :=
  existsb (String.eqb x) xs.

(** [str(n)] for a primary key. *)
Definition str_of_nat (n : nat) : string :=
  NilEmpty.string_of_uint (Nat.to_uint n).

Definition newline : string := String (ascii_of_nat 10) "".

(** [s.startswith(c)] and [s.lstrip(c)] for a one-character [c]. *)
Definition startswith (c : ascii) (s : string) : bool :=
  match s with
  | String a _ => Ascii.eqb a c
  | EmptyString => false
  end.

Fixpoint lstrip (c : ascii) (s : string) : string :=
  match s with
  | String a rest => if Ascii.eqb a c then lstrip c rest else s
  | EmptyString => EmptyString
  end.

(** The characters of a text.  A text is the string of its UTF-8 bytes: a
    character is a leading byte with the continuation bytes that follow
    it. *)
Definition is_continuation (a : ascii) : bool :=
  let n := nat_of_ascii a in
  (128 <=? n)%nat && (n <? 192)%nat.

Fixpoint chars_from (s : string) : string * list string :=
  match s with
  | String a rest =>
      let (continuation, cs) := chars_from rest in
      if is_continuation a then (String a continuation, cs)
      else (EmptyString, String a continuation :: cs)
  | EmptyString => (EmptyString, [])
  end.

Definition chars (s : string) : list string :=
  let (stray, cs) := chars_from s in
  match stray with
  | EmptyString => cs
  | _ => stray :: cs
  end.

(** [len(s)] *)
Definition len (s : string) : nat := List.length (chars s).

Definition utf8 (bytes : list nat) : string :=
  string_of_list_ascii (map ascii_of_nat bytes).

(** The characters that [str.isspace] holds for: U+0009 to U+000D, U+001C to
    U+0020, U+0085, U+00A0, U+1680, U+2000 to U+200A, U+2028, U+2029,
    U+202F, U+205F and U+3000. *)
Definition whitespace : list string :=
  Eval cbv in
    map utf8
        [ [9]; [10]; [11]; [12]; [13]; [28]; [29]; [30]; [31]; [32];
          [194; 133]; [194; 160]; [225; 154; 128];
          [226; 128; 128]; [226; 128; 129]; [226; 128; 130]; [226; 128; 131];
          [226; 128; 132]; [226; 128; 133]; [226; 128; 134]; [226; 128; 135];
          [226; 128; 136]; [226; 128; 137]; [226; 128; 138];
          [226; 128; 168]; [226; 128; 169]; [226; 128; 175];
          [226; 129; 159]; [227; 128; 128] ].

Definition is_space (c : string) : bool := str_in c whitespace.

Fixpoint lstrip_space (cs : list string) : list string :=
  match cs with
  | c :: rest => if is_space c then lstrip_space rest else cs
  | [] => []
  end.

(** [s.strip()] *)
Definition strip (s : string) : string :=
  String.concat "" (rev (lstrip_space (rev (lstrip_space (chars s))))).

Definition lower_ascii (a : ascii) : ascii :=
  let n := nat_of_ascii a in
  if ((65 <=? n)%nat && (n <=? 90)%nat) then ascii_of_nat (n + 32) else a.

Fixpoint lower (s : string) : string :=
  match s with
  | String a rest => String (lower_ascii a) (lower rest)
  | EmptyString => EmptyString
  end.

Fixpoint contains (needle hay : string) : bool :=
  String.prefix needle hay ||
  match hay with
  | String _ rest => contains needle rest
  | EmptyString => false
  end.

(** The [__icontains] lookup: substring match that ignores letter case. *)
Definition icontains (hay needle : string) : bool :=
  contains (lower needle) (lower hay).

(** ** models.py *)

Module User.
Record t := {
  id : nat;
  username : string;
  first_name : string;
  last_name : string;
  email : string;
  is_superuser : bool
}.
End User.

Module Admin.
Record t := {
  id : nat;
  user : User.t
}.
End Admin.

Module Employee.
Record t := {
  id : nat;
  user : User.t;
  is_manager : bool;
  manager : option nat;
  employee_status : string;
  date_created : date
}.
End Employee.

Module Request.
Record t := {
  id : nat;
  employee : option nat;
  manager : option nat;
  purpose_of_travel : string;
  mode_of_travel : string;
  from_date : date;
  to_date : date;
  from_where : string;
  to_where : string;
  lodging : bool;
  lodging_info : option string;
  additional_request : option string;
  additional_info : option string;
  message_from_manager : option string;
  message_from_admin : option string;
  date_of_request : date;
  date_of_approval : option date;
  date_of_rejection : option date;
  date_of_revert : option date;
  resubmission_request : bool;
  is_resubmitted : bool;
  status_of_request : string
}.

(** [instance.resubmission_request = v] *)
Definition set_resubmission_request (v : bool) (r : t) : t :=
  {| id := id r; employee := employee r; manager := manager r;
     purpose_of_travel := purpose_of_travel r;
     mode_of_travel := mode_of_travel r;
     from_date := from_date r; to_date := to_date r;
     from_where := from_where r; to_where := to_where r;
     lodging := lodging r; lodging_info := lodging_info r;
     additional_request := additional_request r;
     additional_info := additional_info r;
     message_from_manager := message_from_manager r;
     message_from_admin := message_from_admin r;
     date_of_request := date_of_request r;
     date_of_approval := date_of_approval r;
     date_of_rejection := date_of_rejection r;
     date_of_revert := date_of_revert r;
     resubmission_request := v;
     is_resubmitted := is_resubmitted r;
     status_of_request := status_of_request r |}.

(** [instance.is_resubmitted = v] *)
Definition set_is_resubmitted (v : bool) (r : t) : t :=
  {| id := id r; employee := employee r; manager := manager r;
     purpose_of_travel := purpose_of_travel r;
     mode_of_travel := mode_of_travel r;
     from_date := from_date r; to_date := to_date r;
     from_where := from_where r; to_where := to_where r;
     lodging := lodging r; lodging_info := lodging_info r;
     additional_request := additional_request r;
     additional_info := additional_info r;
     message_from_manager := message_from_manager r;
     message_from_admin := message_from_admin r;
     date_of_request := date_of_request r;
     date_of_approval := date_of_approval r;
     date_of_rejection := date_of_rejection r;
     date_of_revert := date_of_revert r;
     resubmission_request := resubmission_request r;
     is_resubmitted := v;
     status_of_request := status_of_request r |}.

Definition MODE_CHOICES : list string :=
  ["flight"; "train"; "own vehicle"; "ship"].

Definition STATUS_CHOICES : list string :=
  ["to_submit"; "submitted"; "rejected"; "reverted"; "approved"; "closed"].
End Request.

(** ** The store: the tables, the clock and the mail that was sent *)

Record Mail := {
  subject : string;
  message : string;
  from_email : string;
  recipient_list : list string
}.

Record Store := {
  admins : list Admin.t;
  employees : list Employee.t;
  requests : list Request.t;
  next_request_id : nat;
  today : date;
  outbox : list Mail
}.

Definition set_requests (rows : list Request.t) (s : Store) : Store :=
  {| admins := admins s; employees := employees s; requests := rows;
     next_request_id := next_request_id s; today := today s;
     outbox := outbox s |}.

(** [Request.objects.get(pk=request_id)] *)
Definition Request_get (request_id : nat) (s : Store) : option Request.t :=
  find (fun r => Request.id r =? request_id)%nat (requests s).

(** [Employee.objects.get(pk=employee_id)], also the resolution of a foreign
    key to [Employee]. *)
Definition Employee_get (employee_id : nat) (s : Store) : option Employee.t :=
  find (fun e => Employee.id e =? employee_id)%nat (employees s).

(** [request.user]: an authenticated [User], or [None] for the anonymous
    user, who has no profile. *)
Definition Principal := option User.t.

(** [Employee.objects.get(user=request.user)] *)
Definition Employee_get_by_user (u : Principal) (s : Store) : option Employee.t :=
  match u with
  | Some u => find (fun e => User.id (Employee.user e) =? User.id u)%nat (employees s)
  | None => None
  end.

(** [Admin.objects.get(user=request.user)] *)
Definition Admin_get_by_user (u : Principal) (s : Store) : option Admin.t :=
  match u with
  | Some u => find (fun a => User.id (Admin.user a) =? User.id u)%nat (admins s)
  | None => None
  end.

(** [instance.save()] on a row that has a primary key: the row is replaced. *)
Definition Request_save (r : Request.t) (s : Store) : Store :=
  set_requests
    (map (fun row => if (Request.id row =? Request.id r)%nat then r else row)
         (requests s)) s.

(** [instance.delete()] *)
Definition Request_delete (r : Request.t) (s : Store) : Store :=
  set_requests
    (filter (fun row => negb (Request.id row =? Request.id r)%nat)
            (requests s)) s.

(** [send_mail(subject, message, from_email, recipient_list)]: the mail is
    handed to the mail backend, which takes it.  An error of the backend is
    outside the model; the views call [send_mail] after they have saved, and
    no property below is about an outcome that such an error would give. *)
Definition send_mail (m : Mail) (s : Store) : Store :=
  {| admins := admins s; employees := employees s; requests := requests s;
     next_request_id := next_request_id s; today := today s;
     outbox := (outbox s ++ [m])%list |}.

(** ** Request payloads

    [request.data] and the [data] handed to a serializer are Python dicts.
    A value is modelled after the column that reads it: [VDate d] is a
    literal (or a [date] object) that a date column reads as [d], [VBool b]
    one that a boolean column reads as [b]; any other string is [VStr].
    A string that a date or boolean column cannot read is a [VStr] there.
    [VRef n] is the number [n], which a reference reads as a primary key. *)

Inductive Value :=
| VNone
| VStr (s : string)
| VBool (b : bool)
| VDate (d : date)
| VRef (pk : nat).

Definition Dict := list (string * Value).

(** [d.get(k)], with [None] for a missing key. *)
Fixpoint lookup (d : Dict) (k : string) : option Value :=
  match d with
  | [] => None
  | (k', v) :: rest => if k' =? k then Some v else lookup rest k
  end.

Definition get (d : Dict) (k : string) : Value :=
  match lookup d k with
  | Some v => v
  | None => VNone
  end.

(** [{**a, **b}]: the keys of [b] win. *)
Definition merge (a b : Dict) : Dict := (b ++ a)%list.

(** Python truth value. *)
Definition is_true (v : Value) : bool :=
  match v with
  | VNone => false
  | VStr s => negb (s =? "")
  | VBool b => b
  | VDate _ => true
  | VRef n => negb (n =? 0)%nat
  end.

(** [a >= b], used on dates only. *)
Definition value_ge (a b : Value) : bool :=
  match a, b with
  | VDate x, VDate y => (y <=? x)%Z
  | _, _ => false
  end.

(** [a == b] *)
Definition value_eqb (a b : Value) : bool :=
  match a, b with
  | VNone, VNone => true
  | VStr x, VStr y => x =? y
  | VBool x, VBool y => Bool.eqb x y
  | VDate x, VDate y => (x =? y)%Z
  | VRef x, VRef y => (x =? y)%nat
  | _, _ => false
  end.

(** [a == "literal"] *)
Definition is_str (v : Value) (s : string) : bool := value_eqb v (VStr s).

(** [str(v)] inside an f-string; strings, numbers and [None] reach it
    here. *)
Definition str_of_value (v : Value) : string :=
  match v with
  | VStr s => s
  | VNone => "None"
  | VBool true => "True"
  | VBool false => "False"
  | VDate _ => "<date>"
  | VRef pk => str_of_nat pk
  end.

(** ** serializers.py *)

Definition ValidationError := list (string * string).

Module TravelSerializer.

(** The serializer fields that [ModelSerializer] derives from the columns
    of [Request] ([fields = '__all__']). *)
Inductive Kind :=
| CharField (max_length : nat) (allow_blank allow_null : bool)
| ChoiceField (choices : list string)
| DateField (allow_null : bool)
| BooleanField
| Related.

Record Field := {
  name : string;
  kind : Kind;
  required : bool;
  read_only : bool
}.

Definition field (n : string) (k : Kind) (req ro : bool) : Field :=
  {| name := n; kind := k; required := req; read_only := ro |}.

Definition fields : list Field :=
  [ field "id" Related false true;
    field "employee" Related false true;
    field "manager" Related false true;
    field "purpose_of_travel" (CharField 100 false false) true false;
    field "mode_of_travel" (ChoiceField Request.MODE_CHOICES) true false;
    field "from_date" (DateField false) true false;
    field "to_date" (DateField false) true false;
    field "from_where" (CharField 100 false false) true false;
    field "to_where" (CharField 100 false false) true false;
    field "lodging" BooleanField false false;
    field "lodging_info" (CharField 100 true true) false false;
    field "additional_request" (CharField 500 true true) false false;
    field "additional_info" (CharField 500 true true) false false;
    field "message_from_manager" (CharField 300 true true) false false;
    field "message_from_admin" (CharField 300 true true) false false;
    field "date_of_request" (DateField false) false true;
    field "date_of_approval" (DateField true) false false;
    field "date_of_rejection" (DateField true) false false;
    field "date_of_revert" (DateField true) false false;
    field "resubmission_request" BooleanField false false;
    field "is_resubmitted" BooleanField false false;
    field "status_of_request" (ChoiceField Request.STATUS_CHOICES) false false ].

(** The text of a refused choice: the value sent, between double quotes. *)
Definition invalid_choice (v : Value) : string :=
  utf8 [34] ++ str_of_value v ++ utf8 [34] ++ " is not a valid choice.".

(** Validation of one value by its field.  A text field takes a string or a
    number, which it reads as [str(data)], and no boolean; a choice is looked
    up as [str(data)]; a boolean field takes the numbers 0 and 1 as well. *)
Definition clean (k : Kind) (v : Value) : string + Value :=
  match k with
  | CharField max_length allow_blank allow_null =>
      let text s :=
        let s' := strip s in
        if s' =? "" then
          if allow_blank then inr (VStr "")
          else inl "This field may not be blank."
        else if (len s' <=? max_length)%nat then inr (VStr s')
        else inl ("Ensure this field has no more than " ++ str_of_nat max_length
                  ++ " characters.") in
      match v with
      | VStr s => text s
      | VRef n => text (str_of_nat n)
      | VNone =>
          if allow_null then inr VNone else inl "This field may not be null."
      | _ => inl "Not a valid string."
      end
  | ChoiceField choices =>
      match v with
      | VStr s =>
          if str_in s choices then inr (VStr s) else inl (invalid_choice v)
      | VRef n =>
          if str_in (str_of_nat n) choices then inr (VStr (str_of_nat n))
          else inl (invalid_choice v)
      | VNone => inl "This field may not be null."
      | _ => inl (invalid_choice v)
      end
  | DateField allow_null =>
      match v with
      | VDate d => inr (VDate d)
      | VNone =>
          if allow_null then inr VNone else inl "This field may not be null."
      | _ =>
          inl "Date has wrong format. Use one of these formats instead: YYYY-MM-DD."
      end
  | BooleanField =>
      match v with
      | VBool b => inr (VBool b)
      | VRef 0 => inr (VBool false)
      | VRef 1 => inr (VBool true)
      | VNone => inl "This field may not be null."
      | _ => inl "Must be a valid boolean."
      end
  | Related => inl "Read-only."
  end.

Inductive FieldResult :=
| Skip
| Err (msg : string)
| Keep (v : Value).

Definition run_field (partial : bool) (data : Dict) (f : Field) : FieldResult :=
  if read_only f then Skip
  else
    match lookup data (name f) with
    | None =>
        if partial then Skip
        else if required f then Err "This field is required."
        else Skip
    | Some v =>
        match clean (kind f) v with
        | inl msg => Err msg
        | inr v' => Keep v'
        end
    end.

Fixpoint run_fields (partial : bool) (data : Dict) (fs : list Field)
  : ValidationError * Dict :=
  match fs with
  | [] => ([], [])
  | f :: rest =>
      let (errors, ret) := run_fields partial data rest in
      match run_field partial data f with
      | Skip => (errors, ret)
      | Err msg => ((name f, msg) :: errors, ret)
      | Keep v => (errors, (name f, v) :: ret)
      end
  end.

(** Field-level validation: the writable fields present in [data], cleaned;
    or the errors, one per offending field. *)
Definition to_internal_value (partial : bool) (data : Dict)
  : ValidationError + Dict :=
  match run_fields partial data fields with
  | ([], ret) => inr ret
  | (errors, _) => inl errors
  end.

(** [TravelSerializer.validate] *)
Definition validate (data : Dict) : ValidationError + Dict :=
  let from_date := get data "from_date" in
  let to_date := get data "to_date" in
  let lodging := get data "lodging" in
  let lodging_info := get data "lodging_info" in
  let employee := get data "employee" in
  let manager := get data "manager" in
  if is_true from_date && is_true to_date && value_ge from_date to_date then
    inl [("date_error", "From date must be earlier than To date.")]
  else if is_true lodging && negb (is_true lodging_info) then
    inl [("lodging_info",
          "Lodging details are required when lodging is requested.")]
  else if is_true employee && is_true manager && value_eqb employee manager then
    inl [("manager_error", "Employee cannot be their own manager.")]
  else inr data.

(** [is_valid()]: the validated data, or the errors. *)
Definition is_valid (partial : bool) (data : Dict) : ValidationError + Dict :=
  match to_internal_value partial data with
  | inl errors => inl errors
  | inr attrs => validate attrs
  end.

Definition str_attr (vd : Dict) (k : string) (old : string) : string :=
  match lookup vd k with
  | Some (VStr s) => s
  | _ => old
  end.

Definition opt_str_attr (vd : Dict) (k : string) (old : option string)
  : option string :=
  match lookup vd k with
  | Some (VStr s) => Some s
  | Some VNone => None
  | _ => old
  end.

Definition date_attr (vd : Dict) (k : string) (old : date) : date :=
  match lookup vd k with
  | Some (VDate d) => d
  | _ => old
  end.

Definition opt_date_attr (vd : Dict) (k : string) (old : option date)
  : option date :=
  match lookup vd k with
  | Some (VDate d) => Some d
  | Some VNone => None
  | _ => old
  end.

Definition bool_attr (vd : Dict) (k : string) (old : bool) : bool :=
  match lookup vd k with
  | Some (VBool b) => b
  | _ => old
  end.

Definition ref_attr (vd : Dict) (k : string) (old : option nat) : option nat :=
  match lookup vd k with
  | Some (VRef pk) => Some pk
  | Some VNone => None
  | _ => old
  end.

(** [for attr, value in validated_data.items(): setattr(instance, attr, value)]:
    every attribute named in [vd] takes its value, the others stay.  The
    primary key and [date_of_request] ([auto_now_add], not editable) are
    never assigned. *)
Definition assign (instance : Request.t) (vd : Dict) : Request.t :=
  {| Request.id := Request.id instance;
     Request.employee := ref_attr vd "employee" (Request.employee instance);
     Request.manager := ref_attr vd "manager" (Request.manager instance);
     Request.purpose_of_travel :=
       str_attr vd "purpose_of_travel" (Request.purpose_of_travel instance);
     Request.mode_of_travel :=
       str_attr vd "mode_of_travel" (Request.mode_of_travel instance);
     Request.from_date := date_attr vd "from_date" (Request.from_date instance);
     Request.to_date := date_attr vd "to_date" (Request.to_date instance);
     Request.from_where := str_attr vd "from_where" (Request.from_where instance);
     Request.to_where := str_attr vd "to_where" (Request.to_where instance);
     Request.lodging := bool_attr vd "lodging" (Request.lodging instance);
     Request.lodging_info :=
       opt_str_attr vd "lodging_info" (Request.lodging_info instance);
     Request.additional_request :=
       opt_str_attr vd "additional_request" (Request.additional_request instance);
     Request.additional_info :=
       opt_str_attr vd "additional_info" (Request.additional_info instance);
     Request.message_from_manager :=
       opt_str_attr vd "message_from_manager"
                    (Request.message_from_manager instance);
     Request.message_from_admin :=
       opt_str_attr vd "message_from_admin" (Request.message_from_admin instance);
     Request.date_of_request := Request.date_of_request instance;
     Request.date_of_approval :=
       opt_date_attr vd "date_of_approval" (Request.date_of_approval instance);
     Request.date_of_rejection :=
       opt_date_attr vd "date_of_rejection" (Request.date_of_rejection instance);
     Request.date_of_revert :=
       opt_date_attr vd "date_of_revert" (Request.date_of_revert instance);
     Request.resubmission_request :=
       bool_attr vd "resubmission_request" (Request.resubmission_request instance);
     Request.is_resubmitted :=
       bool_attr vd "is_resubmitted" (Request.is_resubmitted instance);
     Request.status_of_request :=
       str_attr vd "status_of_request" (Request.status_of_request instance) |}.

(** A new row before its attributes are assigned: the column defaults of
    [models.py], the next primary key, and [date_of_request] stamped with
    the day of the insert. *)
Definition fresh (s : Store) : Request.t :=
  {| Request.id := next_request_id s;
     Request.employee := None;
     Request.manager := None;
     Request.purpose_of_travel := "";
     Request.mode_of_travel := "";
     Request.from_date := 0%Z;
     Request.to_date := 0%Z;
     Request.from_where := "";
     Request.to_where := "";
     Request.lodging := false;
     Request.lodging_info := None;
     Request.additional_request := None;
     Request.additional_info := None;
     Request.message_from_manager := None;
     Request.message_from_admin := None;
     Request.date_of_request := today s;
     Request.date_of_approval := None;
     Request.date_of_rejection := None;
     Request.date_of_revert := None;
     Request.resubmission_request := false;
     Request.is_resubmitted := false;
     Request.status_of_request := "to_submit" |}.

(** [save] with keyword arguments, on a serializer built with an instance:
    [update]. *)
Definition save_update (instance : Request.t) (validated_data kwargs : Dict)
           (s : Store) : Request.t * Store :=
  let r := assign instance (merge validated_data kwargs) in
  (r, Request_save r s).

(** [save] with keyword arguments, on a serializer built without an
    instance: [create]. *)
Definition save_create (validated_data kwargs : Dict) (s : Store)
  : Request.t * Store :=
  let r := assign (fresh s) (merge validated_data kwargs) in
  (r,
   {| admins := admins s; employees := employees s;
      requests := (requests s ++ [r])%list;
      next_request_id := S (next_request_id s); today := today s;
      outbox := outbox s |}).

End TravelSerializer.

(** ** What a view hands back *)

Definition HTTP_200_OK : nat := 200.
Definition HTTP_400_BAD_REQUEST : nat := 400.
Definition HTTP_404_NOT_FOUND : nat := 404.

(** The payload of a [Response]. *)
Inductive Body :=
| JMessage (key text : string)
| JAction (text : string) (action : Value)
| JDeleted (text : string) (request_id : nat)
| JRequest (row : Request.t)
| JRequests (rows : list Request.t)
| JErrors (errors : ValidationError).

(** Exceptions of [rest_framework.exceptions]: the framework turns them into
    an error response. *)
Inductive APIException :=
| PermissionDenied (detail : string)
| AuthenticationFailed (detail : string)
| NotAuthenticated
| MethodNotAllowed.

(** Exceptions that no handler catches: the caller gets a server error. *)
Inductive PyError :=
| AttributeError (detail : string)
| DoesNotExist (detail : string)
| DjangoValidationError (detail : string)
| UnboundLocalError (detail : string)
| NoResponse.

Inductive Outcome :=
| Response (body : Body) (status : nat)
| Raised (exc : APIException)
| Unhandled (exc : PyError).

(** ** Views as store transformers with an early exit

    [inl o]: the view has returned or raised [o]; [inr a]: it goes on with
    [a]. *)

Definition View (A : Type) : Type := Store -> Store * (Outcome + A).

Definition pure {A} (a : A) : View A := fun s => (s, inr a).

Definition leave {A} (o : Outcome) : View A := fun s => (s, inl o).

Definition bind {A B} (m : View A) (k : A -> View B) : View B :=
  fun s =>
    match m s with
    | (s', inl o) => (s', inl o)
    | (s', inr a) => k a s'
    end.

Notation "x <- m ;; k" := (bind m (fun x => k))
  (at level 61, m at next level, right associativity).
Notation "' pat <- m ;; k" :=
  (bind m (fun x => match x with pat => k end))
  (at level 61, pat pattern, m at next level, right associativity).
Notation "m ;;; k" := (bind m (fun _ => k))
  (at level 61, right associativity).

(** Read the store. *)
Definition reads {A} (f : Store -> A) : View A := fun s => (s, inr (f s)).

(** Change the store. *)
Definition modify (f : Store -> Store) : View unit := fun s => (f s, inr tt).

(** [if cond: return/raise o] *)
Definition leave_if (cond : bool) (o : Outcome) : View unit :=
  if cond then leave o else pure tt.

(** [try: x = lookup except DoesNotExist: return/raise o] *)
Definition get_or {A} (q : Store -> option A) (o : Outcome) : View A :=
  fun s =>
    match q s with
    | Some a => (s, inr a)
    | None => (s, inl o)
    end.

(** [fk.user]: following a foreign key that may be null and reading an
    attribute of the row. *)
Definition deref (fk : option nat) : View Employee.t :=
  match fk with
  | None => leave (Unhandled (AttributeError "'NoneType' object has no attribute 'user'"))
  | Some pk =>
      get_or (Employee_get pk)
             (Unhandled (DoesNotExist "Employee matching query does not exist."))
  end.

Definition run (v : View Outcome) (s : Store) : Store * Outcome :=
  match v s with
  | (s', inl o) => (s', o)
  | (s', inr o) => (s', o)
  end.

(** ** The HTTP request *)

Inductive Method := GET | POST | PATCH | DELETE.

Definition method_eqb (a b : Method) : bool :=
  match a, b with
  | GET, GET | POST, POST | PATCH, PATCH | DELETE, DELETE => true
  | _, _ => false
  end.

(** A date given in the query string: one the date column can read, or any
    other text. *)
Inductive DateParam :=
| IsoDate (d : date)
| NotADate (raw : string).

Module Query.
(** [request.query_params]; a key that is absent is [None]. *)
Record t := {
  status : option string;
  sort_by : option string;
  start_date : option DateParam;
  end_date : option DateParam;
  search_name : option string;
  purpose_of_travel : option string
}.

Definition empty : t :=
  {| status := None; sort_by := None; start_date := None; end_date := None;
     search_name := None; purpose_of_travel := None |}.
End Query.

Record HttpRequest := {
  method : Method;
  user : Principal;
  data : Dict;
  query_params : Query.t
}.

(** Truth value of a query parameter: [None] and the empty string are falsy. *)
Definition given (v : option string) : option string :=
  match v with
  | Some s => if s =? "" then None else Some s
  | None => None
  end.

Definition given_date (v : option DateParam) : option DateParam :=
  match v with
  | Some (NotADate raw) => if raw =? "" then None else v
  | Some (IsoDate _) => v
  | None => None
  end.

(** ** permissions.py *)

Definition Permission := HttpRequest -> Store -> bool.

Definition is_authenticated (u : Principal) : bool :=
  match u with
  | Some _ => true
  | None => false
  end.

Definition IsAuthenticated : Permission :=
  fun request _ => is_authenticated (user request).

Definition IsAdmin : Permission :=
  fun request _ =>
    match user request with
    | Some u => User.is_superuser u
    | None => false
    end.

Definition IsManager : Permission :=
  fun request s =>
    if negb (is_authenticated (user request)) then false
    else
      match Employee_get_by_user (user request) s with
      | Some employee => Employee.is_manager employee
      | None => false
      end.

Definition IsEmployee : Permission :=
  fun request s =>
    if negb (is_authenticated (user request)) then false
    else
      match Employee_get_by_user (user request) s with
      | Some employee => negb (Employee.is_manager employee)
      | None => false
      end.

(** The decorators [@api_view(methods)] and [@permission_classes(classes)]:
    every permission class is checked, then the method; a refusal is
    [NotAuthenticated] for the anonymous user and [PermissionDenied]
    otherwise, and the view body does not run. *)
Definition api_view (methods : list Method) (permission_classes : list Permission)
           (view : HttpRequest -> View Outcome) (request : HttpRequest)
           (s : Store) : Store * Outcome :=
  if forallb (fun permission => permission request s) permission_classes then
    if existsb (method_eqb (method request)) methods then run (view request) s
    else (s, Raised MethodNotAllowed)
  else if is_authenticated (user request) then
    (s, Raised (PermissionDenied "You do not have permission to perform this action."))
  else (s, Raised NotAuthenticated).

(** ** Query sets

    A query set is the list of rows it selects; the views never change the
    store between building a query set and reading it. *)

Definition QuerySet := list Request.t.

(** [order_by(field)] and [order_by("-" + field)]: insertion of every row
    into the rows already ordered; rows with equal keys keep their order. *)
Fixpoint insert_by (before : date -> date -> bool) (key : Request.t -> date)
         (r : Request.t) (rows : QuerySet) : QuerySet :=
  match rows with
  | [] => [r]
  | x :: rest =>
      if before (key x) (key r) then x :: insert_by before key r rest
      else r :: rows
  end.

Definition order_by (descending : bool) (key : Request.t -> date)
           (rows : QuerySet) : QuerySet :=
  fold_right
    (insert_by (if descending then fun a b => Z.ltb b a else Z.ltb) key)
    [] rows.

(** [filter(date_of_request__gte=...)] and its siblings: a value that is not
    a date makes the ORM raise when the filter is built.  The text has the
    value between the quotation marks U+201C and U+201D. *)
Definition bad_date (raw : string) : Outcome :=
  Unhandled (DjangoValidationError
               (utf8 [226; 128; 156] ++ raw ++ utf8 [226; 128; 157]
                ++ " value has an invalid date format. It must be in YYYY-MM-DD format.")).

Definition prep_date (v : DateParam) : View date :=
  match v with
  | IsoDate d => pure d
  | NotADate raw => leave (bad_date raw)
  end.

Definition filter_date_range (start_date end_date : option DateParam)
           (rows : QuerySet) : View QuerySet :=
  match given_date start_date, given_date end_date with
  | Some a, Some b =>
      lo <- prep_date a ;;
      hi <- prep_date b ;;
      pure (filter (fun r => (lo <=? Request.date_of_request r)%Z
                             && (Request.date_of_request r <=? hi)%Z) rows)
  | Some a, None =>
      lo <- prep_date a ;;
      pure (filter (fun r => (lo <=? Request.date_of_request r)%Z) rows)
  | None, Some b =>
      hi <- prep_date b ;;
      pure (filter (fun r => (Request.date_of_request r <=? hi)%Z) rows)
  | None, None => pure rows
  end.

(** [Q(employee__user__first_name__icontains=name) |
     Q(employee__user__last_name__icontains=name)]; a row without employee
    has no name to match. *)
Definition name_matches (s : Store) (name : string) (r : Request.t) : bool :=
  match Request.employee r with
  | Some pk =>
      match Employee_get pk s with
      | Some e =>
          icontains (User.first_name (Employee.user e)) name
          || icontains (User.last_name (Employee.user e)) name
      | None => false
      end
  | None => false
  end.

Definition valid_sort_options : list string := ["date_of_request"; "from_date"].

Definition sort_key (clean_sort_option : string) : Request.t -> date :=
  if clean_sort_option =? "date_of_request" then Request.date_of_request
  else Request.from_date.

(** The filters and the ordering that the admin and the manager listings
    apply, in the order of the source. *)
Definition filter_and_sort (q : Query.t) (rows : QuerySet) : View QuerySet :=
  let status_filter := Query.status q in
  let sort_option := Query.sort_by q in
  let start_date := Query.start_date q in
  let end_date := Query.end_date q in
  let search_name := Query.search_name q in
  let rows :=
    match given status_filter with
    | Some st => filter (fun r => Request.status_of_request r =? st) rows
    | None => rows
    end in
  rows <- filter_date_range start_date end_date rows ;;
  s <- reads (fun s => s) ;;
  let rows :=
    match given search_name with
    | Some name => filter (name_matches s name) rows
    | None => rows
    end in
  let rows :=
    match given sort_option with
    | Some sort_option =>
        let descending := startswith "-" sort_option in
        let clean_sort_option := lstrip "-" sort_option in
        if str_in clean_sort_option valid_sort_options
        then order_by descending (sort_key clean_sort_option) rows
        else rows
    | None => rows
    end in
  pure rows.

(** [if not data.exists(): return 404] and the serialized rows otherwise. *)
Definition respond_rows (text : string) (rows : QuerySet) : View Outcome :=
  leave_if (match rows with [] => true | _ => false end)
           (Response (JMessage "message" text) HTTP_404_NOT_FOUND) ;;;
  pure (Response (JRequests rows) HTTP_200_OK).

(** ** views.py: admin *)

Definition listing_requests_admin : HttpRequest -> Store -> Store * Outcome :=
  api_view [GET] [IsAuthenticated; IsAdmin] (fun request =>
    if method_eqb (method request) GET then
      admin <- get_or (Admin_get_by_user (user request))
                      (Raised (PermissionDenied "Admin does not exist")) ;;
      data <- reads requests ;;
      data <- filter_and_sort (query_params request) data ;;
      respond_rows "No requests found" data
    else leave (Unhandled NoResponse)).

Definition view_request_employee (request : HttpRequest) (request_id : nat)
  : Store -> Store * Outcome :=
  api_view [GET] [IsAuthenticated] (fun request =>
    if method_eqb (method request) GET then
      selected_request <-
        get_or (Request_get request_id)
               (Response (JMessage "error" "Request not found") HTTP_404_NOT_FOUND) ;;
      pure (Response (JRequest selected_request) HTTP_200_OK)
    else leave (Unhandled NoResponse)) request.

Definition from_email_address : string := "umersaleh30570@gmail.com".

Definition close_request_admin (request : HttpRequest) (request_id : nat)
  : Store -> Store * Outcome :=
  api_view [POST] [IsAuthenticated; IsAdmin] (fun request =>
    if method_eqb (method request) POST then
      selected_request <-
        get_or (Request_get request_id)
               (Response (JMessage "error" "Request not found") HTTP_404_NOT_FOUND) ;;
      if Request.status_of_request selected_request =? "approved" then
        let action := get (data request) "action" in
        let note := get (data request) "note" in
        leave_if (negb (is_true action))
                 (Response (JMessage "message" "No action provided")
                           HTTP_404_NOT_FOUND) ;;;
        selected_status <-
          (if is_str action "close" then pure "closed"
           else leave (Response (JMessage "error" "Invalid action")
                                HTTP_400_BAD_REQUEST)) ;;
        let serialized :=
          TravelSerializer.is_valid true
            [("status_of_request", VStr selected_status);
             ("message_from_admin", note)] in
        let subject := "Request submitted: Closed after Approval" in
        let message :=
          "Note:" ++ str_of_value note ++ " " ++ newline
          ++ " Your request for travel has been closed. Thanks & Regards. - Admin" in
        employee <- deref (Request.employee selected_request) ;;
        let recipient_list := [User.email (Employee.user employee)] in
        match serialized with
        | inr validated_data =>
            modify (fun s => snd (TravelSerializer.save_update
                                    selected_request validated_data [] s)) ;;;
            modify (send_mail {| subject := subject; message := message;
                                 from_email := from_email_address;
                                 recipient_list := recipient_list |}) ;;;
            pure (Response (JAction "Request status updated" action) HTTP_200_OK)
        | inl errors => leave (Response (JErrors errors) HTTP_400_BAD_REQUEST)
        end
      else
        leave (Response (JMessage "error" "Request not approved yet!")
                        HTTP_400_BAD_REQUEST)
    else leave (Unhandled NoResponse)) request.

(** ** views.py: manager *)

Definition listing_requests_manager : HttpRequest -> Store -> Store * Outcome :=
  api_view [GET] [IsAuthenticated; IsManager] (fun request =>
    if method_eqb (method request) GET then
      manager <-
        get_or (Employee_get_by_user (user request))
               (Raised (AuthenticationFailed
                          "User does not have an associated Employee.")) ;;
      s <- reads (fun s => s) ;;
      let data :=
        filter (fun r =>
                  match Request.employee r with
                  | Some pk =>
                      match Employee_get pk s with
                      | Some e =>
                          match Employee.manager e with
                          | Some m => (m =? Employee.id manager)%nat
                          | None => false
                          end
                      | None => false
                      end
                  | None => false
                  end) (requests s) in
      data <- filter_and_sort (query_params request) data ;;
      respond_rows "No requests found" data
    else leave (Unhandled NoResponse)).

Definition value_in (v : Value) (options : list string) : bool :=
  existsb (is_str v) options.

Definition action_request_manager (request : HttpRequest) (request_id : nat)
  : Store -> Store * Outcome :=
  api_view [POST] [IsAuthenticated; IsManager] (fun request =>
    if method_eqb (method request) POST then
      selected_request <-
        get_or (Request_get request_id)
               (Response (JMessage "error" "Request not found") HTTP_404_NOT_FOUND) ;;
      let action := get (data request) "action" in
      let note := get (data request) "note" in
      if Request.status_of_request selected_request =? "submitted" then
        leave_if (negb (is_true action)
                  || negb (value_in action ["approve"; "reject"; "revert"]))
                 (Response (JMessage "message" "Invalid action") HTTP_404_NOT_FOUND) ;;;
        '(selected_status, date, selected_request) <-
          (if is_str action "approve" then
             pure ("approved", "date_of_approval", selected_request)
           else if is_str action "reject" then
             pure ("rejected", "date_of_rejection", selected_request)
           else if is_str action "revert" then
             pure ("reverted", "date_of_revert",
                   Request.set_resubmission_request true selected_request)
           else leave (Unhandled (UnboundLocalError "selected_status"))) ;;
        let subject := "Request " ++ selected_status in
        let message :=
          "Note:" ++ str_of_value note ++ " " ++ newline
          ++ " Your request for travel has been " ++ selected_status
          ++ ". Thanks & Regards. - Admin" in
        employee <- deref (Request.employee selected_request) ;;
        let recipient_list := [User.email (Employee.user employee)] in
        now <- reads today ;;
        let serialized :=
          TravelSerializer.is_valid true
            [("status_of_request", VStr selected_status);
             (date, VDate now);
             ("message_from_manager", note)] in
        match serialized with
        | inr validated_data =>
            modify (fun s => snd (TravelSerializer.save_update
                                    selected_request validated_data [] s)) ;;;
            modify (send_mail {| subject := subject; message := message;
                                 from_email := from_email_address;
                                 recipient_list := recipient_list |}) ;;;
            pure (Response (JAction "status updated" action) HTTP_200_OK)
        | inl errors => leave (Response (JErrors errors) HTTP_400_BAD_REQUEST)
        end
      else
        leave (Response (JMessage "error" "Cannot Proceed with the action!")
                        HTTP_400_BAD_REQUEST)
    else leave (Unhandled NoResponse)) request.

(** ** views.py: employee *)

(** [selected_request.employee != employee]: model instances are compared by
    primary key; a null reference differs from every employee. *)
Definition is_not (fk : option nat) (employee : Employee.t) : bool :=
  match fk with
  | Some pk => negb (pk =? Employee.id employee)%nat
  | None => true
  end.

Definition listing_requests_employee : HttpRequest -> Store -> Store * Outcome :=
  api_view [GET] [IsAuthenticated; IsEmployee] (fun request =>
    if method_eqb (method request) GET then
      employee <-
        get_or (Employee_get_by_user (user request))
               (Raised (AuthenticationFailed "Employee does not exist.")) ;;
      leave_if (Employee.is_manager employee)
               (Response (JMessage "message" "Manager cannot make requests.")
                         HTTP_404_NOT_FOUND) ;;;
      data <- reads (fun s =>
                filter (fun r => negb (is_not (Request.employee r) employee))
                       (requests s)) ;;
      let search_purpose := Query.purpose_of_travel (query_params request) in
      let data :=
        match given search_purpose with
        | Some purpose =>
            filter (fun r => icontains (Request.purpose_of_travel r) purpose) data
        | None => data
        end in
      respond_rows "No requests found." data
    else leave (Unhandled NoResponse)).

Definition edit_request_employee (request : HttpRequest) (request_id : nat)
  : Store -> Store * Outcome :=
  api_view [PATCH] [IsAuthenticated; IsEmployee] (fun request =>
    if method_eqb (method request) PATCH then
      selected_request <-
        get_or (Request_get request_id)
               (Response (JMessage "error" "Request not found") HTTP_404_NOT_FOUND) ;;
      employee <-
        get_or (Employee_get_by_user (user request))
               (Raised (AuthenticationFailed "Employee does not exist.")) ;;
      leave_if (is_not (Request.employee selected_request) employee)
               (Response (JMessage "error"
                            "You do not have permission to edit this request")
                         HTTP_400_BAD_REQUEST) ;;;
      match TravelSerializer.is_valid true (data request) with
      | inr validated_data =>
          saved <- (fun s =>
                      let (r, s') := TravelSerializer.save_update
                                       selected_request validated_data [] s in
                      (s', inr r)) ;;
          pure (Response (JRequest saved) HTTP_200_OK)
      | inl errors => leave (Response (JErrors errors) HTTP_404_NOT_FOUND)
      end
    else leave (Unhandled NoResponse)) request.

Definition action_request_employee (request : HttpRequest) (request_id : nat)
  : Store -> Store * Outcome :=
  api_view [POST; DELETE] [IsAuthenticated; IsEmployee] (fun request =>
    if method_eqb (method request) POST then
      selected_request <-
        get_or (Request_get request_id)
               (Response (JMessage "error" "Request not found") HTTP_404_NOT_FOUND) ;;
      employee <-
        get_or (Employee_get_by_user (user request))
               (Response (JMessage "error" "Employee does not exist  .")
                         HTTP_400_BAD_REQUEST) ;;
      leave_if (match Request.employee selected_request with
                | None => true
                | Some _ => false
                end)
               (Response (JMessage "error" "You do not have an employee owning this.")
                         HTTP_400_BAD_REQUEST) ;;;
      leave_if (is_not (Request.employee selected_request) employee)
               (Response (JMessage "error"
                            "You do not have permission to perform this action.")
                         HTTP_400_BAD_REQUEST) ;;;
      let action := get (data request) "action" in
      leave_if (negb (is_str action "submit"))
               (Response (JMessage "message" "Invalid action") HTTP_400_BAD_REQUEST) ;;;
      leave_if (negb (str_in (Request.status_of_request selected_request)
                             ["to_submit"; "reverted"]))
               (Response (JMessage "message" "Invalid action") HTTP_400_BAD_REQUEST) ;;;
      selected_request <-
        (if Request.status_of_request selected_request =? "reverted" then
           let selected_request :=
             Request.set_is_resubmitted true selected_request in
           modify (Request_save selected_request) ;;;
           pure selected_request
         else pure selected_request) ;;
      let selected_status := "submitted" in
      '(subject, message) <-
        (if Request.status_of_request selected_request =? "reverted" then
           pure ("Request " ++ selected_status ++ " from employee-"
                 ++ str_of_nat (Employee.id employee),
                 "I have " ++ selected_status
                 ++ " a request for travel. Please look into the details. Thanks & Regards. - Admin")
         else
           pure ("Request re" ++ selected_status ++ " from employee-"
                 ++ str_of_nat (Employee.id employee),
                 "I have re" ++ selected_status
                 ++ " a request for travel. Please look into the details. Thanks & Regards. - Admin")) ;;
      manager <- deref (Request.manager selected_request) ;;
      let recipient_list := [User.email (Employee.user manager)] in
      match TravelSerializer.is_valid true
              [("status_of_request", VStr selected_status)] with
      | inr validated_data =>
          modify (fun s => snd (TravelSerializer.save_update
                                  selected_request validated_data [] s)) ;;;
          modify (send_mail {| subject := subject; message := message;
                               from_email := from_email_address;
                               recipient_list := recipient_list |}) ;;;
          pure (Response (JAction "status updated" action) HTTP_200_OK)
      | inl errors => leave (Response (JErrors errors) HTTP_400_BAD_REQUEST)
      end
    else if method_eqb (method request) DELETE then
      selected_request <-
        get_or (Request_get request_id)
               (Response (JMessage "error" "Request not found") HTTP_404_NOT_FOUND) ;;
      employee <-
        get_or (Employee_get_by_user (user request))
               (Response (JMessage "error" "Employee does not exist.")
                         HTTP_400_BAD_REQUEST) ;;
      leave_if (match Request.employee selected_request with
                | None => true
                | Some _ => false
                end)
               (Response (JMessage "error" "You do not have an employee owning this.")
                         HTTP_400_BAD_REQUEST) ;;;
      leave_if (is_not (Request.employee selected_request) employee)
               (Response (JMessage "error"
                            "You do not have permission to perform this action.")
                         HTTP_400_BAD_REQUEST) ;;;
      modify (Request_delete selected_request) ;;;
      pure (Response (JDeleted "deleted request" request_id) HTTP_200_OK)
    else leave (Unhandled NoResponse)) request.

Definition emp_request_form : HttpRequest -> Store -> Store * Outcome :=
  api_view [POST] [IsAuthenticated; IsEmployee] (fun request =>
    if method_eqb (method request) POST then
      employee <-
        get_or (Employee_get_by_user (user request))
               (Raised (AuthenticationFailed "Employee does not exist.")) ;;
      let manager := Employee.manager employee in
      let data := data request in
      let serialized := TravelSerializer.is_valid false data in
      let subject :=
        "Request submitted from employee-" ++ str_of_nat (Employee.id employee) in
      let message :=
        "I have submitted a request for travel. Please look into the details. Thanks & Regards. - Admin" in
      manager_row <- deref manager ;;
      let recipient_list := [User.email (Employee.user manager_row)] in
      match serialized with
      | inr validated_data =>
          modify (fun s =>
                    snd (TravelSerializer.save_create validated_data
                           [("employee", VRef (Employee.id employee));
                            ("manager", VRef (Employee.id manager_row));
                            ("status_of_request", VStr "submitted")] s)) ;;;
          modify (send_mail {| subject := subject; message := message;
                               from_email := from_email_address;
                               recipient_list := recipient_list |}) ;;;
          pure (Response (JMessage "message" "Request Submitted") HTTP_200_OK)
      | inl errors => leave (Response (JErrors errors) HTTP_400_BAD_REQUEST)
      end
    else leave (Unhandled NoResponse)).

(** ** The life cycle, by action *)

Inductive Lifecycle := Approve | Reject | Revert | Submit | Close.

Definition action_name (a : Lifecycle) : string :=
  match a with
  | Approve => "approve"
  | Reject => "reject"
  | Revert => "revert"
  | Submit => "submit"
  | Close => "close"
  end.

(** The states an action may start from. *)
Definition source_states (a : Lifecycle) : list string :=
  match a with
  | Approve | Reject | Revert => ["submitted"]
  | Submit => ["to_submit"; "reverted"]
  | Close => ["approved"]
  end.

(** The endpoint that serves an action (urls.py). *)
Definition endpoint (a : Lifecycle)
  : HttpRequest -> nat -> Store -> Store * Outcome :=
  match a with
  | Approve | Reject | Revert => action_request_manager
  | Submit => action_request_employee
  | Close => close_request_admin
  end.

(** The permission classes on that endpoint. *)
Definition permissions_of (a : Lifecycle) : list Permission :=
  match a with
  | Approve | Reject | Revert => [IsAuthenticated; IsManager]
  | Submit => [IsAuthenticated; IsEmployee]
  | Close => [IsAuthenticated; IsAdmin]
  end.

Definition permitted (a : Lifecycle) (request : HttpRequest) (s : Store) : bool :=
  forallb (fun permission => permission request s) (permissions_of a).

(** A refusal of the request as it stands: status 400 with a message. *)
Definition is_refusal (o : Outcome) : bool :=
  match o with
  | Response (JMessage _ _) status => (status =? HTTP_400_BAD_REQUEST)%nat
  | _ => false
  end.

(** The status and the date column that a manager action writes. *)
Definition target (action : string) : option (string * string) :=
  if action =? "approve" then Some ("approved", "date_of_approval")
  else if action =? "reject" then Some ("rejected", "date_of_rejection")
  else if action =? "revert" then Some ("reverted", "date_of_revert")
  else None.

(** ** The listings, by scope *)

Inductive Listing := AdminListing | ManagerListing | EmployeeListing.

Definition listing (l : Listing) : HttpRequest -> Store -> Store * Outcome :=
  match l with
  | AdminListing => listing_requests_admin
  | ManagerListing => listing_requests_manager
  | EmployeeListing => listing_requests_employee
  end.

(** The rows of a successful listing; nothing otherwise. *)
Definition returned (o : Outcome) : list Request.t :=
  match o with
  | Response (JRequests rows) _ => rows
  | _ => []
  end.

(** The employee who made a request reports to [manager]. *)
Definition reports_to (s : Store) (manager : Employee.t) (r : Request.t) : bool :=
  match Request.employee r with
  | Some pk =>
      match Employee_get pk s with
      | Some e =>
          match Employee.manager e with
          | Some m => (m =? Employee.id manager)%nat
          | None => false
          end
      | None => false
      end
  | None => false
  end.

(** The request was made by [employee]. *)
Definition made_by (employee : Employee.t) (r : Request.t) : bool :=
  match Request.employee r with
  | Some pk => (pk =? Employee.id employee)%nat
  | None => false
  end.

(** The scope of a listing as the specification words it: everything for an
    admin, the requests of the employees who report to the calling manager,
    the calling employee's own requests. *)
Definition in_scope (l : Listing) (s : Store) (caller : Principal)
           (r : Request.t) : bool :=
  match l with
  | AdminListing => true
  | ManagerListing =>
      match Employee_get_by_user caller s with
      | Some manager => reports_to s manager r
      | None => false
      end
  | EmployeeListing =>
      match Employee_get_by_user caller s with
      | Some employee => made_by employee r
      | None => false
      end
  end.

(** The filters of a listing as the specification words them: each one
    optional; the date range inclusive and open on a side that is not given;
    the name matched against first or last name without regard to case; the
    purpose filter on the employee listing only. *)
Definition on_or_after (bound : option DateParam) (r : Request.t) : bool :=
  match given_date bound with
  | Some (IsoDate d) => (d <=? Request.date_of_request r)%Z
  | _ => true
  end.

Definition on_or_before (bound : option DateParam) (r : Request.t) : bool :=
  match given_date bound with
  | Some (IsoDate d) => (Request.date_of_request r <=? d)%Z
  | _ => true
  end.

Definition has_status (status : option string) (r : Request.t) : bool :=
  match given status with
  | Some st => Request.status_of_request r =? st
  | None => true
  end.

Definition has_name (s : Store) (name : option string) (r : Request.t) : bool :=
  match given name with
  | Some n => name_matches s n r
  | None => true
  end.

Definition has_purpose (purpose : option string) (r : Request.t) : bool :=
  match given purpose with
  | Some p => icontains (Request.purpose_of_travel r) p
  | None => true
  end.

Definition selected (l : Listing) (s : Store) (q : Query.t) (r : Request.t) : bool :=
  match l with
  | AdminListing | ManagerListing =>
      has_status (Query.status q) r
      && on_or_after (Query.start_date q) r
      && on_or_before (Query.end_date q) r
      && has_name s (Query.search_name q) r
  | EmployeeListing => has_purpose (Query.purpose_of_travel q) r
  end.

(** The rows a listing is asked for. *)
Definition hits (l : Listing) (request : HttpRequest) (s : Store) : list Request.t :=
  filter (fun r => in_scope l s (user request) r
                   && selected l s (query_params request) r)
         (requests s).

(** A date bound that is given can be read as a date. *)
Definition readable (bound : option DateParam) : bool :=
  match given_date bound with
  | Some (NotADate _) => false
  | _ => true
  end.

(** The caller holds the profile that the listing is for. *)
Definition entitled (l : Listing) (request : HttpRequest) (s : Store) : bool :=
  match l with
  | AdminListing =>
      IsAuthenticated request s && IsAdmin request s
      && match Admin_get_by_user (user request) s with
         | Some _ => true
         | None => false
         end
  | ManagerListing => IsAuthenticated request s && IsManager request s
  | EmployeeListing => IsAuthenticated request s && IsEmployee request s
  end.

Definition not_found_text (l : Listing) : string :=
  match l with
  | AdminListing | ManagerListing => "No requests found"
  | EmployeeListing => "No requests found."
  end.

(** ** Vocabulary of the properties *)

(** On the employee endpoint the caller made the request; the other
    endpoints ask for the role only. *)
Definition own (a : Lifecycle) (request : HttpRequest) (s : Store) (r : Request.t) : bool :=
  match a with
  | Submit =>
      match Employee_get_by_user (user request) s with
      | Some employee => made_by employee r
      | None => false
      end
  | _ => true
  end.

(** What an endpoint answers to an action that the status of the request
    does not allow. *)
Definition invalid_transition (a : Lifecycle) : Outcome :=
  match a with
  | Approve | Reject | Revert =>
      Response (JMessage "error" "Cannot Proceed with the action!") HTTP_400_BAD_REQUEST
  | Submit => Response (JMessage "message" "Invalid action") HTTP_400_BAD_REQUEST
  | Close => Response (JMessage "error" "Request not approved yet!") HTTP_400_BAD_REQUEST
  end.

(** The date column of a request, by name. *)
Definition stamp (date_field : string) (r : Request.t) : option date :=
  if date_field =? "date_of_approval" then Request.date_of_approval r
  else if date_field =? "date_of_rejection" then Request.date_of_rejection r
  else Request.date_of_revert r.

(** The mail that tells the employee of the manager's decision. *)
Definition decision_mail (status : string) (note : Value) (employee : Employee.t) : Mail :=
  {| subject := "Request " ++ status;
     message := "Note:" ++ str_of_value note ++ " " ++ newline
                ++ " Your request for travel has been " ++ status
                ++ ". Thanks & Regards. - Admin";
     from_email := from_email_address;
     recipient_list := [User.email (Employee.user employee)] |}.

(** The mail that tells the manager of a new request. *)
Definition request_mail (employee manager : Employee.t) : Mail :=
  {| subject := "Request submitted from employee-" ++ str_of_nat (Employee.id employee);
     message := "I have submitted a request for travel. Please look into the details. Thanks & Regards. - Admin";
     from_email := from_email_address;
     recipient_list := [User.email (Employee.user manager)] |}.

(** The date bounds that a listing reads can be read as dates. *)
Definition well_formed (l : Listing) (q : Query.t) : bool :=
  match l with
  | EmployeeListing => true
  | _ => readable (Query.start_date q) && readable (Query.end_date q)
  end.

(** ** A small company, for the examples *)

Module Sample.

Definition account (pk : nat) (name mail : string) (superuser : bool) : User.t :=
  {| User.id := pk; User.username := name; User.first_name := name;
     User.last_name := "Doe"; User.email := mail;
     User.is_superuser := superuser |}.

Definition alice := account 1 "alice" "alice@example.org" false.
Definition bob := account 2 "bob" "bob@example.org" false.
Definition carol := account 3 "carol" "carol@example.org" false.
Definition root := account 4 "root" "root@example.org" true.
Definition dave := account 5 "dave" "dave@example.org" false.
Definition eve := account 6 "eve" "eve@example.org" false.

Definition staff (pk : nat) (u : User.t) (is_manager : bool)
           (manager : option nat) : Employee.t :=
  {| Employee.id := pk; Employee.user := u; Employee.is_manager := is_manager;
     Employee.manager := manager; Employee.employee_status := "active";
     Employee.date_created := 1%Z |}.

(** Alice reports to Bob; Bob and Carol are managers; Dave has no manager;
    Eve was made her own manager. *)
Definition alice_e := staff 11 alice false (Some 12).
Definition bob_e := staff 12 bob true None.
Definition carol_e := staff 13 carol true None.
Definition dave_e := staff 15 dave false None.
Definition eve_e := staff 16 eve false (Some 16).

Definition trip (pk : nat) (employee manager : option nat)
           (from_date to_date : date) (lodging : bool)
           (lodging_info : option string) (status : string) : Request.t :=
  {| Request.id := pk; Request.employee := employee; Request.manager := manager;
     Request.purpose_of_travel := "Conference";
     Request.mode_of_travel := "train";
     Request.from_date := from_date; Request.to_date := to_date;
     Request.from_where := "Lyon"; Request.to_where := "Paris";
     Request.lodging := lodging; Request.lodging_info := lodging_info;
     Request.additional_request := None; Request.additional_info := None;
     Request.message_from_manager := None; Request.message_from_admin := None;
     Request.date_of_request := 100%Z;
     Request.date_of_approval := None; Request.date_of_rejection := None;
     Request.date_of_revert := None;
     Request.resubmission_request := (status =? "reverted");
     Request.is_resubmitted := false;
     Request.status_of_request := status |}.

(** Requests 1 to 3 are Alice's, addressed to Bob; request 4 was approved
    and has lost its employee (set to null when the employee was deleted). *)
Definition store : Store :=
  {| admins := [ {| Admin.id := 1; Admin.user := root |} ];
     employees := [alice_e; bob_e; carol_e; dave_e; eve_e];
     requests :=
       [ trip 1 (Some 11) (Some 12) 110%Z 112%Z false None "submitted";
         trip 2 (Some 11) (Some 12) 120%Z 125%Z true (Some "Hotel") "reverted";
         trip 3 (Some 11) (Some 12) 130%Z 131%Z false None "to_submit";
         trip 4 None (Some 12) 140%Z 141%Z false None "approved" ];
     next_request_id := 5;
     today := 105%Z;
     outbox := [] |}.

Definition http (m : Method) (u : User.t) (body : Dict) : HttpRequest :=
  {| method := m; user := Some u; data := body; query_params := Query.empty |}.

Definition query (u : User.t) (q : Query.t) : HttpRequest :=
  {| method := GET; user := Some u; data := []; query_params := q |}.

(** Scenario 1 of the specification: 2024-01-10 to 2024-01-12 as day
    ordinals, no lodging. *)
Definition form : Dict :=
  [ ("purpose_of_travel", VStr "Customer visit");
    ("mode_of_travel", VStr "flight");
    ("from_date", VDate 738895%Z);
    ("to_date", VDate 738897%Z);
    ("from_where", VStr "Lyon");
    ("to_where", VStr "Oslo");
    ("lodging", VBool false) ].

End Sample.

(** * The employee directory and the logins *)

(** ** models.py: employees and users, saved and deleted *)

Definition EMPLOYEE_STATUS_CHOICES : list string :=
  ["active"; "inactive"; "terminated"].

(** [employee.manager = manager] *)
Definition Employee_set_manager (manager : option nat) (e : Employee.t)
  : Employee.t :=
  {| Employee.id := Employee.id e; Employee.user := Employee.user e;
     Employee.is_manager := Employee.is_manager e;
     Employee.manager := manager;
     Employee.employee_status := Employee.employee_status e;
     Employee.date_created := Employee.date_created e |}.

(** [on_delete=models.SET_NULL] on a foreign key to [Employee]: a reference
    to the deleted row becomes null. *)
Definition set_null (deleted : nat) (fk : option nat) : option nat :=
  match fk with
  | Some pk => if (pk =? deleted)%nat then None else fk
  | None => None
  end.

Definition Request_set_null (deleted : nat) (r : Request.t) : Request.t :=
  {| Request.id := Request.id r;
     Request.employee := set_null deleted (Request.employee r);
     Request.manager := set_null deleted (Request.manager r);
     Request.purpose_of_travel := Request.purpose_of_travel r;
     Request.mode_of_travel := Request.mode_of_travel r;
     Request.from_date := Request.from_date r;
     Request.to_date := Request.to_date r;
     Request.from_where := Request.from_where r;
     Request.to_where := Request.to_where r;
     Request.lodging := Request.lodging r;
     Request.lodging_info := Request.lodging_info r;
     Request.additional_request := Request.additional_request r;
     Request.additional_info := Request.additional_info r;
     Request.message_from_manager := Request.message_from_manager r;
     Request.message_from_admin := Request.message_from_admin r;
     Request.date_of_request := Request.date_of_request r;
     Request.date_of_approval := Request.date_of_approval r;
     Request.date_of_rejection := Request.date_of_rejection r;
     Request.date_of_revert := Request.date_of_revert r;
     Request.resubmission_request := Request.resubmission_request r;
     Request.is_resubmitted := Request.is_resubmitted r;
     Request.status_of_request := Request.status_of_request r |}.

(** [employee.delete()]: the row goes; [Employee.manager], [Request.employee]
    and [Request.manager] that pointed to it are set to null; no request is
    deleted. *)
Definition Employee_delete (e : Employee.t) (s : Store) : Store :=
  {| admins := admins s;
     employees :=
       map (fun x => Employee_set_manager
                       (set_null (Employee.id e) (Employee.manager x)) x)
           (filter (fun x => negb (Employee.id x =? Employee.id e)%nat)
                   (employees s));
     requests := map (Request_set_null (Employee.id e)) (requests s);
     next_request_id := next_request_id s; today := today s;
     outbox := outbox s |}.

(** [user.delete()]: the profiles of the user go with it
    ([on_delete=models.CASCADE]), an [Employee] profile by the rules above. *)
Definition User_delete (u : User.t) (s : Store) : Store :=
  let s' :=
    fold_left (fun acc e => Employee_delete e acc)
              (filter (fun e => (User.id (Employee.user e) =? User.id u)%nat)
                      (employees s)) s in
  {| admins :=
       filter (fun a => negb (User.id (Admin.user a) =? User.id u)%nat) (admins s');
     employees := employees s'; requests := requests s';
     next_request_id := next_request_id s'; today := today s';
     outbox := outbox s' |}.

(** [instance.save()] on an employee that has a primary key. *)
Definition Employee_save (e : Employee.t) (s : Store) : Store :=
  {| admins := admins s;
     employees :=
       map (fun row => if (Employee.id row =? Employee.id e)%nat then e else row)
           (employees s);
     requests := requests s;
     next_request_id := next_request_id s; today := today s;
     outbox := outbox s |}.

(** [instance.save()] on a user: the row is stored inside its profiles. *)
Definition User_save (u : User.t) (s : Store) : Store :=
  {| admins :=
       map (fun a => if (User.id (Admin.user a) =? User.id u)%nat
                     then {| Admin.id := Admin.id a; Admin.user := u |} else a)
           (admins s);
     employees :=
       map (fun e => if (User.id (Employee.user e) =? User.id u)%nat
                     then {| Employee.id := Employee.id e; Employee.user := u;
                             Employee.is_manager := Employee.is_manager e;
                             Employee.manager := Employee.manager e;
                             Employee.employee_status := Employee.employee_status e;
                             Employee.date_created := Employee.date_created e |}
                     else e)
           (employees s);
     requests := requests s;
     next_request_id := next_request_id s; today := today s;
     outbox := outbox s |}.

(** ** serializers.py: EmployeeSerializer *)

Module EmployeeSerializer.

(** The fields that a key of [employee_data] can name.  The serializer also
    has [id] (read-only), the nested [user] and the related [manager]; no key
    of [employee_data] names them, and a partial update skips a field that
    is not named. *)
Definition fields : list TravelSerializer.Field :=
  [ TravelSerializer.field "is_manager" TravelSerializer.BooleanField false false;
    TravelSerializer.field "employee_status"
      (TravelSerializer.ChoiceField EMPLOYEE_STATUS_CHOICES) false false;
    TravelSerializer.field "date_created" (TravelSerializer.DateField false)
      true false ].

(** [is_valid()] of a partial update. *)
Definition is_valid (data : Dict) : ValidationError + Dict :=
  match TravelSerializer.run_fields true data fields with
  | ([], ret) => inr ret
  | (errors, _) => inl errors
  end.

(** [update]: every attribute named in the validated data is assigned. *)
Definition assign (instance : Employee.t) (vd : Dict) : Employee.t :=
  {| Employee.id := Employee.id instance;
     Employee.user := Employee.user instance;
     Employee.is_manager :=
       TravelSerializer.bool_attr vd "is_manager" (Employee.is_manager instance);
     Employee.manager := Employee.manager instance;
     Employee.employee_status :=
       TravelSerializer.str_attr vd "employee_status"
                                 (Employee.employee_status instance);
     Employee.date_created :=
       TravelSerializer.date_attr vd "date_created" (Employee.date_created instance) |}.

End EmployeeSerializer.

(** ** What a directory view hands back *)

Inductive DirectoryBody :=
| DEmployee (row : Employee.t)
| DEmployees (rows : list Employee.t)
| DMessage (text : string)
| DRemoved (text : string) (employee_id : nat)
| DDetails (employee_id : nat) (employee_name manager_name : string)
| DToken (key : string)
| DText (text : string).

(** A response of the kind the request views give, a response with a
    directory payload, or an exception that nothing catches. *)
Inductive Reply :=
| Plain (o : Outcome)
| Directory (body : DirectoryBody) (status : nat)
| Uncaught (exception : string).

Definition Steps (A : Type) : Type := Store -> Store * (Reply + A).

Definition go_on {A} (a : A) : Steps A := fun s => (s, inr a).

Definition reply {A} (r : Reply) : Steps A := fun s => (s, inl r).

Definition and_then {A B} (m : Steps A) (k : A -> Steps B) : Steps B :=
  fun s =>
    match m s with
    | (s', inl r) => (s', inl r)
    | (s', inr a) => k a s'
    end.

Notation "x <~ m ;; k" := (and_then m (fun x => k))
  (at level 61, m at next level, right associativity).
Notation "' pat <~ m ;; k" :=
  (and_then m (fun x => match x with pat => k end))
  (at level 61, pat pattern, m at next level, right associativity).

Definition write (f : Store -> Store) : Steps unit := fun s => (f s, inr tt).

Definition look {A} (f : Store -> A) : Steps A := fun s => (s, inr (f s)).

Definition found_or {A} (q : Store -> option A) (r : Reply) : Steps A :=
  fun s =>
    match q s with
    | Some a => (s, inr a)
    | None => (s, inl r)
    end.

Definition finish (v : Steps Reply) (s : Store) : Store * Reply :=
  match v s with
  | (s', inl r) => (s', r)
  | (s', inr r) => (s', r)
  end.

(** The decorators, for a view with a directory payload. *)
Definition api_view_directory (methods : list Method)
           (permission_classes : list Permission)
           (view : HttpRequest -> Steps Reply) (request : HttpRequest)
           (s : Store) : Store * Reply :=
  if forallb (fun permission => permission request s) permission_classes then
    if existsb (method_eqb (method request)) methods then finish (view request) s
    else (s, Plain (Raised MethodNotAllowed))
  else if is_authenticated (user request) then
    (s, Plain (Raised (PermissionDenied
                         "You do not have permission to perform this action.")))
  else (s, Plain (Raised NotAuthenticated)).

(** ** views.py: the employee directory *)

(** [f"{first_name} {last_name}".strip() or username] *)
Definition display_name (u : User.t) : string :=
  let full := strip (User.first_name u ++ " " ++ User.last_name u) in
  if full =? "" then User.username u else full.

Definition get_logged_in_employee_details : HttpRequest -> Store -> Store * Reply :=
  api_view_directory [GET] [IsAuthenticated] (fun request =>
    employee <~ found_or (Employee_get_by_user (user request))
                         (Plain (Response (JMessage "error" "Employee details not found")
                                          HTTP_404_NOT_FOUND)) ;;
    let employee_name := display_name (Employee.user employee) in
    manager_name <~
      match Employee.manager employee with
      | Some pk =>
          manager <~ found_or (Employee_get pk)
                              (Plain (Response (JMessage "error"
                                                  "Employee details not found")
                                               HTTP_404_NOT_FOUND)) ;;
          go_on (display_name (Employee.user manager))
      | None => go_on "No Manager"
      end ;;
    go_on (Directory (DDetails (Employee.id employee) employee_name manager_name)
                     HTTP_200_OK)).

(** [Q(user__first_name__icontains=name) | Q(user__last_name__icontains=name)] *)
Definition employee_name_matches (name : string) (e : Employee.t) : bool :=
  icontains (User.first_name (Employee.user e)) name
  || icontains (User.last_name (Employee.user e)) name.

Definition listing_employees_admin : HttpRequest -> Store -> Store * Reply :=
  api_view_directory [GET] [IsAuthenticated; IsAdmin] (fun request =>
    if method_eqb (method request) GET then
      let search_name := Query.search_name (query_params request) in
      data <~ look employees ;;
      let data :=
        match given search_name with
        | Some name => filter (employee_name_matches name) data
        | None => data
        end in
      go_on (Directory (DEmployees data) HTTP_200_OK)
    else reply (Uncaught "AssertionError")).

(** The way [Employee.objects.get(pk=value)] reads a payload value, after
    the test [if value:].  A key, sent as a number or as its digits, is a
    [VRef]; a text that is no number makes the lookup raise [ValueError]. *)
Inductive PkValue :=
| NoPk
| Pk (pk : nat)
| NotAPk.

Definition read_pk (v : Value) : PkValue :=
  match v with
  | VNone => NoPk
  | VRef 0 => NoPk
  | VRef pk => Pk pk
  | VBool false => NoPk
  | VBool true => Pk 1
  | VStr s => if s =? "" then NoPk else NotAPk
  | VDate _ => NotAPk
  end.

Definition employee_fields : list string :=
  ["is_manager"; "employee_status"; "date_created"; "manager_id"].

Definition user_fields : list string :=
  ["username"; "first_name"; "last_name"; "email"; "is_active"; "is_staff"].

(** [{key: data[key] for key in data if key in keys}] *)
Definition pick (keys : list string) (data : Dict) : Dict :=
  filter (fun kv => str_in (fst kv) keys) data.

(** [d[k] = v] *)
Fixpoint assoc_set (k : string) (v : Value) (d : Dict) : Dict :=
  match d with
  | [] => [(k, v)]
  | (k', v') :: rest =>
      if k' =? k then (k, v) :: rest else (k', v') :: assoc_set k v rest
  end.

Definition is_empty (d : Dict) : bool :=
  match d with
  | [] => true
  | _ => false
  end.

Section DirectoryAdmin.

(** [UserSerializer(selected_user, data=user_data, partial=True)]: its
    [is_valid()] and the user that [save()] stores.  The fields and their
    validators are those of Django's [User] model. *)
Variable UserSerializer : Store -> User.t -> Dict -> ValidationError + User.t.

Definition view_employee_admin (request : HttpRequest) (employee_id : nat)
  : Store -> Store * Reply :=
  api_view_directory [GET; PATCH; DELETE] [IsAuthenticated; IsAdmin] (fun request =>
    selected_employee <~
      found_or (Employee_get employee_id)
               (Plain (Response (JMessage "error" "Employee not found")
                                HTTP_404_NOT_FOUND)) ;;
    let selected_user := Employee.user selected_employee in
    if method_eqb (method request) GET then
      go_on (Directory (DEmployee selected_employee) HTTP_200_OK)
    else if method_eqb (method request) PATCH then
      let data := data request in
      let employee_data := pick employee_fields data in
      let user_data := pick user_fields data in
      '(selected_employee, employee_data) <~
        match lookup data "manager_id" with
        | Some manager_id =>
            match read_pk manager_id with
            | Pk pk =>
                manager <~
                  found_or (Employee_get pk)
                           (Plain (Response (JMessage "error" "Manager not found")
                                            HTTP_400_BAD_REQUEST)) ;;
                go_on (Employee_set_manager (Some (Employee.id manager))
                                            selected_employee,
                       employee_data)
            | NoPk =>
                go_on (selected_employee, assoc_set "manager_id" VNone employee_data)
            | NotAPk => reply (Uncaught "ValueError")
            end
        | None => go_on (selected_employee, employee_data)
        end ;;
      _ <~
        (if negb (is_empty employee_data) then
           match EmployeeSerializer.is_valid employee_data with
           | inr validated_data =>
               write (Employee_save
                        (EmployeeSerializer.assign selected_employee validated_data))
           | inl errors =>
               reply (Plain (Response (JErrors errors) HTTP_400_BAD_REQUEST))
           end
         else go_on tt) ;;
      _ <~
        (if negb (is_empty user_data) then
           s <~ look (fun s => s) ;;
           match UserSerializer s selected_user user_data with
           | inr saved => write (User_save saved)
           | inl errors =>
               reply (Plain (Response (JErrors errors) HTTP_400_BAD_REQUEST))
           end
         else go_on tt) ;;
      go_on (Directory (DMessage "Employee data updated successfully") HTTP_200_OK)
    else if method_eqb (method request) DELETE then
      let user := Employee.user selected_employee in
      _ <~ write (Employee_delete selected_employee) ;;
      _ <~ write (User_delete user) ;;
      go_on (Directory (DRemoved "Removed an Employee" employee_id) HTTP_200_OK)
    else reply (Uncaught "AssertionError")) request.

End DirectoryAdmin.

(** ** views.py: the logins

    The login views have no permission class.  They read the store and write
    the token table of [rest_framework.authtoken], which is threaded beside
    the store.  What Django supplies is a variable of the section. *)

(** The token table of [rest_framework.authtoken]: user id and key. *)
Definition Tokens := list (nat * string).

Definition bad_request (key text : string) : Reply :=
  Plain (Response (JMessage key text) HTTP_400_BAD_REQUEST).

Section Logins.

(** [django.contrib.auth.authenticate]: the user that the credentials
    belong to, if they are right. *)
Variable authenticate : Value -> Value -> option User.t.

(** The key given to a new token. *)
Variable generate_key : Tokens -> string.

(** [Token.objects.get_or_create(user=user)] *)
Definition Token_get_or_create (u : User.t) (tokens : Tokens) : string * Tokens :=
  match find (fun t => (fst t =? User.id u)%nat) tokens with
  | Some t => (snd t, tokens)
  | None =>
      let key := generate_key tokens in
      (key, (tokens ++ [(User.id u, key)])%list)
  end.

Definition employee_login (request : HttpRequest) (s : Store) (tokens : Tokens)
  : Tokens * Reply :=
  if negb (method_eqb (method request) POST) then
    (tokens, Plain (Raised MethodNotAllowed))
  else
    let username := get (data request) "username" in
    let password := get (data request) "password" in
    if negb (is_true username && is_true password) then
      (tokens, bad_request "message" "Please enter both the fields")
    else
      match authenticate username password with
      | None => (tokens, Directory (DText "User Does Not Exist") HTTP_404_NOT_FOUND)
      | Some user =>
          match Employee_get_by_user (Some user) s with
          | Some employee =>
              if negb (Employee.is_manager employee)
                 && negb (User.is_superuser user) then
                let (key, tokens') := Token_get_or_create user tokens in
                (tokens', Directory (DToken key) HTTP_200_OK)
              else
                (tokens, bad_request "message" "Please login from Manager/Admin Portal")
          | None =>
              (tokens, bad_request "error" "You don't have an employee record.")
          end
      end.

Definition manager_login (request : HttpRequest) (s : Store) (tokens : Tokens)
  : Tokens * Reply :=
  if negb (method_eqb (method request) POST) then
    (tokens, Plain (Raised MethodNotAllowed))
  else
    let username := get (data request) "username" in
    let password := get (data request) "password" in
    if negb (is_true username && is_true password) then
      (tokens, bad_request "message" "Please enter both the fields")
    else
      match authenticate username password with
      | None =>
          (tokens, Plain (Response (JMessage "error" "User Does Not Exist")
                                   HTTP_404_NOT_FOUND))
      | Some user =>
          match Employee_get_by_user (Some user) s with
          | Some employee =>
              if Employee.is_manager employee then
                let (key, tokens') := Token_get_or_create user tokens in
                (tokens', Directory (DToken key) HTTP_200_OK)
              else
                (tokens, bad_request "message" "Please login from Employee/Admin Portal")
          | None =>
              (tokens, bad_request "error"
                         "This user is not associated with an employee record.")
          end
      end.

Definition admin_login (request : HttpRequest) (s : Store) (tokens : Tokens)
  : Tokens * Reply :=
  if negb (method_eqb (method request) POST) then
    (tokens, Plain (Raised MethodNotAllowed))
  else
    let username := get (data request) "username" in
    let password := get (data request) "password" in
    if negb (is_true username && is_true password) then
      (tokens, bad_request "message" "Please enter both the fields")
    else
      match authenticate username password with
      | None =>
          (tokens, Plain (Response (JMessage "error" "User Does Not Exist")
                                   HTTP_404_NOT_FOUND))
      | Some user =>
          if User.is_superuser user then
            let (key, tokens') := Token_get_or_create user tokens in
            (tokens', Directory (DToken key) HTTP_200_OK)
          else
            (tokens, bad_request "message" "Please login from Manager/Employee Portal")
      end.

(** The key of a reply that carries a token. *)
Definition token_of (r : Reply) : option string :=
  match r with
  | Directory (DToken key) _ => Some key
  | _ => None
  end.

(** The three login views, by portal. *)
Inductive Portal := EmployeePortal | ManagerPortal | AdminPortal.

Definition login (p : Portal) : HttpRequest -> Store -> Tokens -> Tokens * Reply :=
  match p with
  | EmployeePortal => employee_login
  | ManagerPortal => manager_login
  | AdminPortal => admin_login
  end.

End Logins.

(** The role that a portal asks of the authenticated user. *)
Definition admitted (p : Portal) (user : User.t) (s : Store) : Prop :=
  match p with
  | EmployeePortal =>
      exists employee, Employee_get_by_user (Some user) s = Some employee
                       /\ Employee.is_manager employee = false
                       /\ User.is_superuser user = false
  | ManagerPortal =>
      exists employee, Employee_get_by_user (Some user) s = Some employee
                       /\ Employee.is_manager employee = true
  | AdminPortal => User.is_superuser user = true
  end.

(** ** Vocabulary of the further properties *)

(** The two rules of [TravelSerializer.validate], on a stored request. *)
Definition dates_in_order (r : Request.t) : Prop :=
  (Request.from_date r < Request.to_date r)%Z.

Definition lodging_is_described (r : Request.t) : Prop :=
  Request.lodging r = true ->
  exists info, Request.lodging_info r = Some info /\ info <> "".

(** The mail of [close_request_admin]. *)
Definition closing_mail (note : Value) (employee : Employee.t) : Mail :=
  {| subject := "Request submitted: Closed after Approval";
     message := "Note:" ++ str_of_value note ++ " " ++ newline
                ++ " Your request for travel has been closed. Thanks & Regards. - Admin";
     from_email := from_email_address;
     recipient_list := [User.email (Employee.user employee)] |}.

(** The text that a nullable text column holds for a validated value. *)
Definition text_of (v : Value) : option string :=
  match v with
  | VStr t => Some t
  | _ => None
  end.

(** The refusal of a permission class to an authenticated caller. *)
Definition forbidden : Outcome :=
  Raised (PermissionDenied "You do not have permission to perform this action.").

Definition succeeded (o : Outcome) : bool :=
  match o with
  | Response _ status => (status =? HTTP_200_OK)%nat
  | _ => false
  end.

(** What an action endpoint may touch: the rows of the requests, none added
    or removed, and the outbox, which grows by one mail exactly when the
    action succeeds. *)
Definition writes_requests_and_mail_only (s : Store) (result : Store * Outcome)
  : Prop :=
  admins (fst result) = admins s
  /\ employees (fst result) = employees s
  /\ next_request_id (fst result) = next_request_id s
  /\ map Request.id (requests (fst result)) = map Request.id (requests s)
  /\ exists mails,
      outbox (fst result) = (outbox s ++ mails)%list
      /\ List.length mails = if succeeded (snd result) then 1 else 0.

(** An answer that declines: a response with another status than success,
    or a refusal by the decorators.  An exception that escapes the view is
    no answer of the view. *)
Definition declined (o : Outcome) : bool :=
  match o with
  | Response _ status => negb (status =? HTTP_200_OK)%nat
  | Raised _ => true
  | Unhandled _ => false
  end.

Definition declines_without_writing (s : Store) (result : Store * Outcome)
  : Prop :=
  declined (snd result) = true -> fst result = s.

(** The request with another [sort_by] parameter. *)
Definition with_sort_by (sort_by : option string) (request : HttpRequest)
  : HttpRequest :=
  {| method := method request; user := user request; data := data request;
     query_params :=
       {| Query.status := Query.status (query_params request);
          Query.sort_by := sort_by;
          Query.start_date := Query.start_date (query_params request);
          Query.end_date := Query.end_date (query_params request);
          Query.search_name := Query.search_name (query_params request);
          Query.purpose_of_travel :=
            Query.purpose_of_travel (query_params request) |} |}.

(** Two neighbours of a listing sorted by [key]. *)
Definition ordered (descending : bool) (key : Request.t -> date)
           (x y : Request.t) : Prop :=
  if descending then (key y <= key x)%Z else (key x <= key y)%Z.

(** A reply that is an exception and no response. *)
Definition crashed (r : Reply) : bool :=
  match r with
  | Uncaught _ => true
  | Plain (Unhandled _) => true
  | _ => false
  end.

(** A request with its two references erased: everything else it holds. *)
Definition without_parties (r : Request.t) : Request.t :=
  TravelSerializer.assign r [("employee", VNone); ("manager", VNone)].

(** Nothing in the store refers to the employee [pk]. *)
Definition unreferenced (pk : nat) (s : Store) : Prop :=
  (forall r, In r (requests s) ->
             Request.employee r <> Some pk /\ Request.manager r <> Some pk)
  /\ (forall e, In e (employees s) -> Employee.manager e <> Some pk).

(** The reply of a PATCH that went through. *)
Definition updated : Reply :=
  Directory (DMessage "Employee data updated successfully") HTTP_200_OK.

(** ** More of the small company, for the examples *)

Module Demo.

(** The sample store with two more requests of Alice: request 5 is approved;
    request 6 was reverted and has lost its manager. *)
Definition store : Store :=
  {| admins := admins Sample.store;
     employees := employees Sample.store;
     requests :=
       (requests Sample.store
        ++ [ Sample.trip 5 (Some 11) (Some 12) 150%Z 152%Z false None "approved";
             Sample.trip 6 (Some 11) None 160%Z 161%Z false None "reverted" ])%list;
     next_request_id := 7;
     today := today Sample.store;
     outbox := [] |}.

Definition anonymous (m : Method) (body : Dict) : HttpRequest :=
  {| method := m; user := None; data := body; query_params := Query.empty |}.

Definition credentials (name : string) : Dict :=
  [("username", VStr name); ("password", VStr "secret")].

(** An authentication backend for the examples: the accounts of the sample,
    all with the same password. *)
Definition authenticate (username password : Value) : option User.t :=
  if is_str password "secret" then
    find (fun u => is_str username (User.username u))
         [Sample.alice; Sample.bob; Sample.carol; Sample.root; Sample.dave;
          Sample.eve]
  else None.

Definition generate_key (tokens : Tokens) : string :=
  "key" ++ str_of_nat (List.length tokens).

(** A user serializer for the examples: it refuses a blank username and
    stores nothing. *)
Definition UserSerializer (_ : Store) (u : User.t) (data : Dict)
  : ValidationError + User.t :=
  if is_str (get data "username") "" then
    inl [("username", "This field may not be blank.")]
  else inr u.

End Demo.

(** * Properties *)

(** ** The store and the views *)

(** Enter a decorated view whose method is known. *)
Ltac enter H :=
  unfold api_view; rewrite H; cbn [existsb method_eqb negb orb].

(** Running a view that starts with a bind. *)
Lemma run_bind {A} (m : View A) (k : A -> View Outcome) s :
  run (bind m k) s
  = match m s with
    | (s', inl o) => (s', o)
    | (s', inr a) => run (k a) s'
    end.
Proof. unfold run, bind. now destruct (m s) as [s' [o|a]]. Qed.

(** A row found by primary key carries that key. *)
Lemma Request_get_id request_id s r :
  Request_get request_id s = Some r -> Request.id r = request_id.
Proof.
  unfold Request_get. intros H. apply find_some in H as [_ H].
  now apply Nat.eqb_eq.
Qed.

Lemma Employee_get_id pk s e :
  Employee_get pk s = Some e -> Employee.id e = pk.
Proof.
  unfold Employee_get. intros H. apply find_some in H as [_ H].
  now apply Nat.eqb_eq.
Qed.

(** Only an authenticated user has a profile. *)
Lemma profile_is_authenticated u s e :
  Employee_get_by_user u s = Some e -> is_authenticated u = true.
Proof. destruct u; [reflexivity | discriminate]. Qed.

(** A saved row is the one read back under its key. *)
Lemma Request_get_save request_id s r r' :
  Request_get request_id s = Some r ->
  Request.id r' = request_id ->
  Request_get request_id (Request_save r' s) = Some r'.
Proof.
  unfold Request_get, Request_save, set_requests. cbn [requests].
  intros Hget Hid. subst request_id.
  induction (requests s) as [|x rows IH]; [discriminate|].
  cbn [find map] in *.
  destruct (Request.id x =? Request.id r')%nat eqn:Hx.
  - now rewrite Nat.eqb_refl.
  - rewrite Hx. now apply IH.
Qed.

(** The role permissions imply a profile. *)
Lemma manager_has_profile request s :
  IsManager request s = true ->
  exists e, Employee_get_by_user (user request) s = Some e.
Proof.
  unfold IsManager. destruct (negb _); [discriminate|].
  destruct (Employee_get_by_user _ _); [eauto | discriminate].
Qed.

Lemma employee_has_profile request s :
  IsEmployee request s = true ->
  exists e, Employee_get_by_user (user request) s = Some e
            /\ Employee.is_manager e = false.
Proof.
  unfold IsEmployee. destruct (negb _); [discriminate|].
  destruct (Employee_get_by_user _ _) as [e|]; [|discriminate].
  intros H. exists e. split; [reflexivity|]. now apply negb_true_iff.
Qed.

(** The filter of the employee listing selects the rows made by the caller. *)
Lemma own_rows employee rows :
  filter (fun r => negb (is_not (Request.employee r) employee)) rows
  = filter (made_by employee) rows.
Proof.
  apply filter_ext. intros r. unfold is_not, made_by.
  destruct (Request.employee r); [apply negb_involutive | reflexivity].
Qed.

(** The three manager actions. *)
Lemma target_cases action status date_field :
  target action = Some (status, date_field) ->
  (action = "approve" /\ status = "approved" /\ date_field = "date_of_approval")
  \/ (action = "reject" /\ status = "rejected" /\ date_field = "date_of_rejection")
  \/ (action = "revert" /\ status = "reverted" /\ date_field = "date_of_revert").
Proof.
  unfold target.
  destruct (String.eqb_spec action "approve") as [->|_];
    [intros [= <- <-]; auto|].
  destruct (String.eqb_spec action "reject") as [->|_];
    [intros [= <- <-]; auto|].
  destruct (String.eqb_spec action "revert") as [->|_];
    [intros [= <- <-]; auto 6|discriminate].
Qed.

(** ** Who may act on a submitted request (C1) *)

(** C1.  The manager endpoint does not keep the rule of the claim: it never
    compares the caller with the manager of the request.  Request 1 is
    submitted and addressed to Bob.  Carol, another manager, approves it:
    she is not refused, the response is a success and the request is
    approved.  The endpoints of the employees do compare the caller with the
    employee of the request ([is_not]), and the listing of the managers
    keeps to the requests of the caller's own reports; the check is missing
    here. *)
Lemma peer_manager_approves_request :
  let approve :=
    Sample.http POST Sample.carol
                [("action", VStr "approve"); ("note", VStr "ok")] in
  let result := action_request_manager approve 1 Sample.store in
  option_map Request.status_of_request (Request_get 1 Sample.store)
    = Some "submitted"
  /\ option_map Request.manager (Request_get 1 Sample.store)
     = Some (Some (Employee.id Sample.bob_e))
  /\ Employee_get_by_user (user approve) Sample.store = Some Sample.carol_e
  /\ Employee.is_manager Sample.carol_e = true
  /\ Employee.id Sample.carol_e <> Employee.id Sample.bob_e
  /\ (forall exc, snd result <> Raised exc)
  /\ snd result = Response (JAction "status updated" (VStr "approve")) HTTP_200_OK
  /\ option_map Request.status_of_request (Request_get 1 (fst result))
     = Some "approved"
  /\ fst result <> Sample.store.
Proof.
  vm_compute. repeat split; try discriminate.
Qed.

(** How far the missing check reaches: the sample is no exception.
    Let the caller be any employee whose profile says [is_manager], the
    request be submitted with its employee on record, the action be one of
    approve, reject and revert, and the note pass the validation of
    [message_from_manager].  Then the action succeeds, whether or not the
    caller is the manager the request is addressed to: the request takes the
    target status, the date column of the action is stamped with today, the
    manager reference is left as it was, and the employee is sent the
    decision. *)
Theorem manager_action_checks_role_only
        (request : HttpRequest) (request_id : nat) (s : Store)
        (caller employee : Employee.t) (r : Request.t) (pk : nat)
        (action status date_field : string) (note : Value) :
  method request = POST ->
  Employee_get_by_user (user request) s = Some caller ->
  Employee.is_manager caller = true ->
  Request_get request_id s = Some r ->
  Request.status_of_request r = "submitted" ->
  Request.employee r = Some pk ->
  Employee_get pk s = Some employee ->
  get (data request) "action" = VStr action ->
  target action = Some (status, date_field) ->
  TravelSerializer.clean (TravelSerializer.CharField 300 true true)
                         (get (data request) "note") = inr note ->
  let result := action_request_manager request request_id s in
  exists r',
    snd result = Response (JAction "status updated" (VStr action)) HTTP_200_OK
    /\ Request_get request_id (fst result) = Some r'
    /\ Request.status_of_request r' = status
    /\ stamp date_field r' = Some (today s)
    /\ Request.manager r' = Request.manager r
    /\ outbox (fst result)
       = (outbox s ++ [decision_mail status (get (data request) "note") employee])%list.
Proof.
  intros Hm Hc Hrole Hget Hst Hemp Hrow Hact Htarget Hnote result.
  subst result.
  unfold action_request_manager. enter Hm.
  unfold IsAuthenticated, IsManager. cbn [forallb].
  rewrite (profile_is_authenticated _ _ _ Hc), Hc, Hrole. cbn [negb andb].
  unfold run, bind, get_or. cbn [method_eqb]. rewrite Hget, Hst, Hact.
  cbn [String.eqb Ascii.eqb Bool.eqb].
  destruct (target_cases _ _ _ Htarget) as [(-> & -> & ->)|[(-> & -> & ->)|(-> & -> & ->)]].
  all: cbn [leave_if value_in existsb is_str value_eqb is_true String.eqb Ascii.eqb Bool.eqb negb orb andb pure leave Request.set_resubmission_request Request.employee].
  all: unfold deref, get_or, reads; rewrite Hemp, Hrow.
  all: destruct (get (data request) "note") as [|txt| | |n] eqn:Hn; try discriminate.
  all: unfold TravelSerializer.is_valid, TravelSerializer.to_internal_value.
  all: cbn in Hnote |- *.
  all: try match type of Hnote with
           | context [strip ?t =? ""] =>
               destruct (strip t =? "") eqn:Hblank;
               [|destruct (len (strip t) <=? 300)%nat eqn:Hlen;
                 [|discriminate]]
           end.
  all: cbn.
  all: eexists; split; [reflexivity|]; split;
    [ match goal with
      | |- find _ (map (fun row => if _ then ?saved else row) _) = _ =>
          exact (Request_get_save request_id s r saved Hget
                                  (Request_get_id _ _ _ Hget))
      end
    | repeat split ].
Qed.

(** The same on the sample store: Carol rejects request 1, which is
    addressed to Bob. *)
Lemma manager_action_checks_role_only_witness :
  let request :=
    Sample.http POST Sample.carol
                [("action", VStr "reject"); ("note", VStr "over budget")] in
  let result := action_request_manager request 1 Sample.store in
  (Employee_get_by_user (user request) Sample.store = Some Sample.carol_e
   /\ Employee.is_manager Sample.carol_e = true
   /\ option_map Request.manager (Request_get 1 Sample.store) = Some (Some 12))
  /\ exists r',
      snd result = Response (JAction "status updated" (VStr "reject")) HTTP_200_OK
      /\ Request_get 1 (fst result) = Some r'
      /\ Request.status_of_request r' = "rejected"
      /\ stamp "date_of_rejection" r' = Some (today Sample.store)
      /\ Request.manager r'
         = Request.manager (Sample.trip 1 (Some 11) (Some 12) 110%Z 112%Z false None
                                        "submitted")
      /\ outbox (fst result)
         = (outbox Sample.store
            ++ [decision_mail "rejected"
                  (get (data request) "note") Sample.alice_e])%list.
Proof.
  split; [repeat split|].
  apply (manager_action_checks_role_only
           (Sample.http POST Sample.carol
                        [("action", VStr "reject"); ("note", VStr "over budget")])
           1 Sample.store Sample.carol_e Sample.alice_e
           (Sample.trip 1 (Some 11) (Some 12) 110%Z 112%Z false None "submitted")
           11 "reject" "rejected" "date_of_rejection" (VStr "over budget"));
    reflexivity.
Defined.

(** ** Actions out of their source state (C2) *)

(** C2.  An action attempted out of its source state is refused and changes
    nothing.  Let a request reach the endpoint of a life-cycle action, pass
    its permission classes and name a request whose status is not a source
    state of the action.  Then the store is left exactly as it was (status,
    dates and flags of every request included, and no mail is sent) and the
    answer is a 400 response with a message; when the caller is the matching
    actor it is the endpoint's invalid-transition message. *)
Theorem out_of_state_action_is_refused
        (a : Lifecycle) (request : HttpRequest) (request_id : nat)
        (s : Store) (r : Request.t) :
  method request = POST ->
  permitted a request s = true ->
  Request_get request_id s = Some r ->
  get (data request) "action" = VStr (action_name a) ->
  str_in (Request.status_of_request r) (source_states a) = false ->
  fst (endpoint a request request_id s) = s
  /\ is_refusal (snd (endpoint a request request_id s)) = true
  /\ (own a request s r = true ->
      snd (endpoint a request request_id s) = invalid_transition a).
Proof.
  intros Hm Hp Hget Hact Hst.
  unfold permitted in Hp.
  destruct a; cbn [endpoint permissions_of source_states own invalid_transition] in *.
  1-3: unfold action_request_manager; enter Hm; rewrite Hp;
       unfold run, bind, get_or; rewrite Hget;
       cbn [str_in existsb] in Hst; rewrite orb_false_r in Hst; rewrite Hst;
       cbn; auto.
  - unfold action_request_employee; enter Hm; rewrite Hp.
    cbn [forallb] in Hp. apply andb_prop in Hp as [_ Hp].
    apply andb_prop in Hp as [Hp _].
    destruct (employee_has_profile _ _ Hp) as (e & He & _).
    unfold run, bind, get_or. cbn [method_eqb]. rewrite Hget, He.
    unfold made_by, leave_if, is_not.
    destruct (Request.employee r) as [pk|]; cbn; [|repeat split; discriminate].
    destruct (pk =? Employee.id e)%nat; cbn; [|repeat split; discriminate].
    rewrite Hact. cbn.
    cbn [str_in existsb] in Hst. rewrite Hst. cbn. auto.
  - unfold close_request_admin; enter Hm; rewrite Hp;
       unfold run, bind, get_or; rewrite Hget;
       cbn [str_in existsb] in Hst; rewrite orb_false_r in Hst; rewrite Hst;
       cbn; auto.
Qed.

(** C2 on the sample store: Alice submits request 1, which is submitted
    already. *)
Lemma out_of_state_action_is_refused_witness :
  let request := Sample.http POST Sample.alice [("action", VStr "submit")] in
  (permitted Submit request Sample.store = true
   /\ option_map Request.status_of_request (Request_get 1 Sample.store)
      = Some "submitted"
   /\ str_in "submitted" (source_states Submit) = false)
  /\ fst (endpoint Submit request 1 Sample.store) = Sample.store
  /\ is_refusal (snd (endpoint Submit request 1 Sample.store)) = true
  /\ snd (endpoint Submit request 1 Sample.store) = invalid_transition Submit.
Proof.
  split; [repeat split|].
  destruct (out_of_state_action_is_refused
              Submit (Sample.http POST Sample.alice [("action", VStr "submit")])
              1 Sample.store
              (Sample.trip 1 (Some 11) (Some 12) 110%Z 112%Z false None "submitted")
              eq_refl eq_refl eq_refl eq_refl eq_refl) as (H1 & H2 & H3).
  split; [exact H1 | split; [exact H2 | exact (H3 eq_refl)]].
Defined.

(** ** Employee and manager of a request (C3) *)

(** C3.  The request form does not keep a request's employee apart from its
    manager.  Eve, whose manager reference is her own row, posts the form of
    scenario 1, in which she even names herself as employee and manager: the
    form is accepted and the stored request 5 has employee = manager = Eve.
    The check of [validate] on [employee] and [manager] never fires, because
    both fields are read-only and never part of the validated data. *)
Theorem self_managed_employee_files_request_to_self :
  let body := (("employee", VRef 16) :: ("manager", VRef 16) :: Sample.form)%list in
  let result := emp_request_form (Sample.http POST Sample.eve body) Sample.store in
  TravelSerializer.validate body
    = inl [("manager_error", "Employee cannot be their own manager.")]
  /\ snd result = Response (JMessage "message" "Request Submitted") HTTP_200_OK
  /\ option_map Request.employee (Request_get 5 (fst result)) = Some (Some 16)
  /\ option_map Request.manager (Request_get 5 (fst result)) = Some (Some 16).
Proof. vm_compute. repeat split. Qed.

(** ** Date order and lodging details under partial edits (C4, C5) *)

(** C4.  A partial edit that carries only [to_date] is not checked against
    the stored [from_date]: Alice moves the end of request 1 (from day 110 to
    day 112) to day 5 and the edit is saved, leaving from_date > to_date.
    The same dates sent together are refused. *)
Theorem partial_edit_breaks_date_order :
  let result :=
    edit_request_employee (Sample.http PATCH Sample.alice [("to_date", VDate 5%Z)])
                          1 Sample.store in
  (exists saved, snd result = Response (JRequest saved) HTTP_200_OK)
  /\ option_map Request.from_date (Request_get 1 (fst result)) = Some 110%Z
  /\ option_map Request.to_date (Request_get 1 (fst result)) = Some 5%Z
  /\ snd (edit_request_employee
            (Sample.http PATCH Sample.alice
                         [("from_date", VDate 110%Z); ("to_date", VDate 5%Z)])
            1 Sample.store)
     = Response (JErrors [("date_error", "From date must be earlier than To date.")])
                HTTP_404_NOT_FOUND.
Proof. vm_compute. repeat split. eexists. reflexivity. Qed.

(** C5.  A partial edit that carries only [lodging_info] is not checked
    against the stored [lodging]: Alice blanks the lodging details of
    request 2, whose [lodging] is true, and the edit is saved; sending null
    removes them.  The same value sent together with [lodging] is refused. *)
Theorem partial_edit_empties_lodging_info :
  let blank :=
    edit_request_employee (Sample.http PATCH Sample.alice [("lodging_info", VStr "")])
                          2 Sample.store in
  let null :=
    edit_request_employee (Sample.http PATCH Sample.alice [("lodging_info", VNone)])
                          2 Sample.store in
  (exists saved, snd blank = Response (JRequest saved) HTTP_200_OK)
  /\ option_map Request.lodging (Request_get 2 (fst blank)) = Some true
  /\ option_map Request.lodging_info (Request_get 2 (fst blank)) = Some (Some "")
  /\ (exists saved, snd null = Response (JRequest saved) HTTP_200_OK)
  /\ option_map Request.lodging (Request_get 2 (fst null)) = Some true
  /\ option_map Request.lodging_info (Request_get 2 (fst null)) = Some None
  /\ snd (edit_request_employee
            (Sample.http PATCH Sample.alice
                         [("lodging", VBool true); ("lodging_info", VStr "")])
            2 Sample.store)
     = Response (JErrors [("lodging_info",
                           "Lodging details are required when lodging is requested.")])
                HTTP_404_NOT_FOUND.
Proof. vm_compute. repeat split; eexists; reflexivity. Qed.

(** ** Resubmission (C6) *)

(** C6.  The two notification texts are attached to the wrong cases.  Alice
    submits request 2 from [reverted]: the request becomes [submitted] with
    [is_resubmitted] true and [resubmission_request] still true, but Bob is
    sent the text of a first submission.  She submits request 3 from
    [to_submit]: Bob is sent the text of a resubmission. *)
Theorem resubmission_texts_are_swapped :
  let submit := Sample.http POST Sample.alice [("action", VStr "submit")] in
  let again := action_request_employee submit 2 Sample.store in
  let first := action_request_employee submit 3 Sample.store in
  snd again = Response (JAction "status updated" (VStr "submit")) HTTP_200_OK
  /\ option_map Request.status_of_request (Request_get 2 (fst again))
     = Some "submitted"
  /\ option_map Request.is_resubmitted (Request_get 2 (fst again)) = Some true
  /\ option_map Request.resubmission_request (Request_get 2 (fst again)) = Some true
  /\ map subject (outbox (fst again)) = ["Request submitted from employee-11"]
  /\ map recipient_list (outbox (fst again)) = [["bob@example.org"]]
  /\ option_map Request.is_resubmitted (Request_get 3 (fst first)) = Some false
  /\ map subject (outbox (fst first)) = ["Request resubmitted from employee-11"]
  /\ map message (outbox (fst first))
     = ["I have resubmitted a request for travel. Please look into the details. Thanks & Regards. - Admin"].
Proof. vm_compute. repeat split. Qed.

(** ** The request form (C7) *)

(** C7.  A valid request form, posted by an employee whose manager is on
    record, is answered with a success and stores one new request: its
    employee is the caller, its manager is the caller's manager, its status
    is [submitted] whatever the form says, its [date_of_request] is the day
    of the insert, and one mail goes to the manager's address. *)
Theorem request_form_stores_submitted_request
        (request : HttpRequest) (s : Store) (employee manager : Employee.t)
        (m : nat) (validated_data : Dict) :
  method request = POST ->
  Employee_get_by_user (user request) s = Some employee ->
  Employee.is_manager employee = false ->
  Employee.manager employee = Some m ->
  Employee_get m s = Some manager ->
  TravelSerializer.is_valid false (data request) = inr validated_data ->
  exists r,
    snd (emp_request_form request s)
      = Response (JMessage "message" "Request Submitted") HTTP_200_OK
    /\ requests (fst (emp_request_form request s)) = (requests s ++ [r])%list
    /\ Request.employee r = Some (Employee.id employee)
    /\ Request.manager r = Employee.manager employee
    /\ Request.status_of_request r = "submitted"
    /\ Request.date_of_request r = today s
    /\ outbox (fst (emp_request_form request s))
       = (outbox s ++ [request_mail employee manager])%list.
Proof.
  intros Hm He Hrole Hmgr Hrow Hvalid.
  unfold emp_request_form. enter Hm.
  unfold IsAuthenticated, IsEmployee. cbn [forallb].
  rewrite (profile_is_authenticated _ _ _ He), He, Hrole. cbn [negb andb].
  unfold run, bind, get_or. cbn [method_eqb]. rewrite He, Hmgr.
  unfold deref, get_or. rewrite Hrow, Hvalid. cbn.
  eexists. repeat split.
  now rewrite (Employee_get_id _ _ _ Hrow).
Qed.

(** C7 on the sample store: scenario 1, Alice files a request and Bob is
    told. *)
Lemma request_form_stores_submitted_request_witness :
  let request := Sample.http POST Sample.alice Sample.form in
  (Employee_get_by_user (user request) Sample.store = Some Sample.alice_e
   /\ Employee.manager Sample.alice_e = Some 12
   /\ Employee_get 12 Sample.store = Some Sample.bob_e)
  /\ exists r,
      snd (emp_request_form request Sample.store)
        = Response (JMessage "message" "Request Submitted") HTTP_200_OK
      /\ requests (fst (emp_request_form request Sample.store))
         = (requests Sample.store ++ [r])%list
      /\ Request.employee r = Some (Employee.id Sample.alice_e)
      /\ Request.manager r = Employee.manager Sample.alice_e
      /\ Request.status_of_request r = "submitted"
      /\ Request.date_of_request r = today Sample.store
      /\ outbox (fst (emp_request_form request Sample.store))
         = (outbox Sample.store ++ [request_mail Sample.alice_e Sample.bob_e])%list.
Proof.
  split; [repeat split|].
  apply (request_form_stores_submitted_request
           (Sample.http POST Sample.alice Sample.form) Sample.store
           Sample.alice_e Sample.bob_e 12
           [("purpose_of_travel", VStr "Customer visit");
            ("mode_of_travel", VStr "flight");
            ("from_date", VDate 738895%Z);
            ("to_date", VDate 738897%Z);
            ("from_where", VStr "Lyon");
            ("to_where", VStr "Oslo");
            ("lodging", VBool false)]);
    reflexivity.
Defined.

(** ** Exceptions that escape the views (C8) *)

(** C8.  Two inputs on which an exception leaves the view unhandled.  Dave
    has no manager and posts a valid request form: reading the manager's
    mail address raises [AttributeError], nothing is stored and no response
    is built.  The admin closes request 4, approved, whose employee
    reference is null: the same exception. *)
Theorem null_reference_escapes_the_view :
  emp_request_form (Sample.http POST Sample.dave Sample.form) Sample.store
  = (Sample.store,
     Unhandled (AttributeError "'NoneType' object has no attribute 'user'"))
  /\ close_request_admin
       (Sample.http POST Sample.root
                    [("action", VStr "close"); ("note", VStr "trip completed")])
       4 Sample.store
     = (Sample.store,
        Unhandled (AttributeError "'NoneType' object has no attribute 'user'")).
Proof. vm_compute. split; reflexivity. Qed.

(** ** Listings (C9, C10) *)

(** Ordering rearranges the rows and nothing else. *)
Lemma insert_by_perm before key r rows :
  Permutation (insert_by before key r rows) (r :: rows).
Proof.
  induction rows as [|x rows IH]; cbn [insert_by]; [reflexivity|].
  destruct (before (key x) (key r)); [|reflexivity].
  rewrite IH. apply perm_swap.
Qed.

Lemma order_by_perm descending key rows :
  Permutation (order_by descending key rows) rows.
Proof.
  unfold order_by. induction rows as [|x rows IH]; cbn [fold_right]; [reflexivity|].
  rewrite insert_by_perm. now constructor.
Qed.

(** Filters compose, and a filter that is not asked for keeps every row. *)
Lemma filter_true {A} (l : list A) : filter (fun _ => true) l = l.
Proof. induction l as [|x l IH]; cbn; [reflexivity | now rewrite IH]. Qed.

Lemma filter_twice {A} (f g : A -> bool) (l : list A) :
  filter g (filter f l) = filter (fun x => f x && g x) l.
Proof.
  induction l as [|x l IH]; cbn; [reflexivity|].
  destruct (f x); cbn; [destruct (g x)|]; now rewrite IH.
Qed.

(** Each optional filter of the source is the filter by the predicate of
    that name. *)
Lemma by_status status rows :
  match given status with
  | Some st => filter (fun r => Request.status_of_request r =? st) rows
  | None => rows
  end = filter (has_status status) rows.
Proof.
  unfold has_status. destruct (given status); [reflexivity|].
  now rewrite filter_true.
Qed.

Lemma by_name s name rows :
  match given name with
  | Some n => filter (name_matches s n) rows
  | None => rows
  end = filter (has_name s name) rows.
Proof.
  unfold has_name. destruct (given name); [reflexivity|].
  now rewrite filter_true.
Qed.

Lemma by_purpose purpose rows :
  match given purpose with
  | Some p => filter (fun r => icontains (Request.purpose_of_travel r) p) rows
  | None => rows
  end = filter (has_purpose purpose) rows.
Proof.
  unfold has_purpose. destruct (given purpose); [reflexivity|].
  now rewrite filter_true.
Qed.

Lemma by_date_range start_date end_date rows s :
  readable start_date = true ->
  readable end_date = true ->
  filter_date_range start_date end_date rows s
  = (s, inr (filter (fun r => on_or_after start_date r && on_or_before end_date r)
                    rows)).
Proof.
  unfold readable, filter_date_range, on_or_after, on_or_before.
  destruct (given_date start_date) as [[lo|]|], (given_date end_date) as [[hi|]|];
    try discriminate; intros _ _; unfold bind, prep_date, pure;
    f_equal; f_equal; cbn [andb];
    try reflexivity; try (now rewrite filter_true).
  apply filter_ext. intros r. now rewrite andb_true_r.
Qed.

(** Whatever the date bounds, the date filter only removes rows, or
    raises. *)
Lemma by_date_range_incl start_date end_date rows s :
  match filter_date_range start_date end_date rows s with
  | (s', inr rows') => s' = s /\ incl rows' rows
  | (s', inl o) => s' = s /\ returned o = []
  end.
Proof.
  unfold filter_date_range.
  destruct (given_date start_date) as [[lo|raw]|],
           (given_date end_date) as [[hi|raw']|];
    unfold bind, prep_date, pure, leave, bad_date; cbn [returned];
    split; try reflexivity; try apply incl_filter; apply incl_refl.
Qed.

Lemma by_sort sort_option rows :
  Permutation
    match given sort_option with
    | Some sort_option =>
        if str_in (lstrip "-" sort_option) valid_sort_options
        then order_by (startswith "-" sort_option)
                      (sort_key (lstrip "-" sort_option)) rows
        else rows
    | None => rows
    end rows.
Proof.
  destruct (given sort_option); [|reflexivity].
  destruct (str_in _ _); [apply order_by_perm | reflexivity].
Qed.

(** With readable bounds the filters of the source select the rows that
    satisfy all four predicates, in some order. *)
Lemma filter_and_sort_selects q rows s :
  readable (Query.start_date q) = true ->
  readable (Query.end_date q) = true ->
  exists rows',
    filter_and_sort q rows s = (s, inr rows')
    /\ Permutation rows' (filter (selected AdminListing s q) rows).
Proof.
  intros Hlo Hhi. unfold filter_and_sort, bind.
  rewrite by_status, (by_date_range _ _ _ _ Hlo Hhi). cbn [reads].
  rewrite by_name. eexists. split; [reflexivity|].
  rewrite by_sort. rewrite !filter_twice.
  erewrite filter_ext; [reflexivity|]. intros r. cbn [selected].
  now rewrite !andb_assoc.
Qed.

(** In every case the filters return rows they were given, or nothing. *)
Lemma filter_and_sort_incl q rows s :
  match filter_and_sort q rows s with
  | (s', inr rows') => s' = s /\ incl rows' rows
  | (s', inl o) => s' = s /\ returned o = []
  end.
Proof.
  unfold filter_and_sort, bind. rewrite by_status.
  pose proof (by_date_range_incl (Query.start_date q) (Query.end_date q)
                (filter (has_status (Query.status q)) rows) s) as H.
  destruct (filter_date_range _ _ _ s) as [s' [o|dated]]; [exact H|].
  destruct H as [-> Hd]. cbn [reads]. rewrite by_name. split; [reflexivity|].
  intros r Hr.
  apply (Permutation_in _ (by_sort (Query.sort_by q) _)) in Hr.
  apply filter_In in Hr as [Hr _]. apply Hd in Hr.
  now apply filter_In in Hr as [Hr _].
Qed.

(** The rows that [respond_rows] returns. *)
Lemma respond_rows_returned text rows s :
  fst (run (respond_rows text rows) s) = s
  /\ returned (snd (run (respond_rows text rows) s)) = rows.
Proof. destruct rows; split; reflexivity. Qed.

(** The rows asked for, as the scope filter followed by the selection. *)
Lemma hits_admin request s :
  hits AdminListing request s
  = filter (selected AdminListing s (query_params request)) (requests s).
Proof. reflexivity. Qed.

Lemma hits_manager request s manager :
  Employee_get_by_user (user request) s = Some manager ->
  hits ManagerListing request s
  = filter (selected AdminListing s (query_params request))
           (filter (reports_to s manager) (requests s)).
Proof.
  intros H. unfold hits. cbn [in_scope]. rewrite H. now rewrite filter_twice.
Qed.

Lemma hits_employee request s employee :
  Employee_get_by_user (user request) s = Some employee ->
  hits EmployeeListing request s
  = filter (has_purpose (Query.purpose_of_travel (query_params request)))
           (filter (made_by employee) (requests s)).
Proof.
  intros H. unfold hits. cbn [in_scope]. rewrite H. now rewrite filter_twice.
Qed.

(** The answer of [respond_rows] on rows that are the wanted ones in some
    order. *)
Lemma found_or_not text rows wanted s :
  Permutation rows wanted ->
  (wanted = [] ->
   run (respond_rows text rows) s
   = (s, Response (JMessage "message" text) HTTP_404_NOT_FOUND))
  /\ (wanted <> [] ->
      exists rows',
        run (respond_rows text rows) s = (s, Response (JRequests rows') HTTP_200_OK)
        /\ Permutation rows' wanted).
Proof.
  intros Hperm. split.
  - intros ->. apply Permutation_sym, Permutation_nil in Hperm. now subst rows.
  - intros Hsome. exists rows. split; [|exact Hperm].
    destruct rows; [|reflexivity].
    apply Permutation_nil in Hperm. contradiction.
Qed.

(** C9.  A listing answers not-found exactly when nothing matches.  Let the
    caller hold the profile the listing is for and the date bounds, where
    given, be dates.  If no request in the caller's scope passes the filters,
    the answer is the 404 message and no list; otherwise it is a success
    that carries the matching requests, each once, in the order asked for. *)
Theorem listing_is_not_found_exactly_when_nothing_matches
        (l : Listing) (request : HttpRequest) (s : Store) :
  method request = GET ->
  entitled l request s = true ->
  well_formed l (query_params request) = true ->
  (hits l request s = [] ->
   listing l request s
   = (s, Response (JMessage "message" (not_found_text l)) HTTP_404_NOT_FOUND))
  /\ (hits l request s <> [] ->
      exists rows,
        listing l request s = (s, Response (JRequests rows) HTTP_200_OK)
        /\ Permutation rows (hits l request s)).
Proof.
  intros Hm Hent Hwf.
  destruct l; cbn [listing entitled well_formed not_found_text] in *.
  - (* admin *)
    apply andb_prop in Hent as [Hclasses Hadmin].
    apply andb_prop in Hclasses as [Hg1 Hg2].
    apply andb_prop in Hwf as [Hlo Hhi].
    destruct (Admin_get_by_user (user request) s) as [admin|] eqn:Ha; [|discriminate].
    destruct (filter_and_sort_selects (query_params request) (requests s) s Hlo Hhi)
      as (rows & Hrun & Hperm).
    rewrite hits_admin.
    assert (listing_requests_admin request s
            = run (respond_rows "No requests found" rows) s) as ->;
      [|now apply found_or_not].
    unfold listing_requests_admin. enter Hm. cbn [forallb]. rewrite Hg1, Hg2.
    cbn [andb method_eqb]. rewrite run_bind. unfold get_or at 1. rewrite Ha.
    rewrite run_bind. unfold reads at 1. rewrite run_bind. now rewrite Hrun.
  - (* manager *)
    apply andb_prop in Hwf as [Hlo Hhi].
    apply andb_prop in Hent as [Hg1 Hrole].
    destruct (manager_has_profile _ _ Hrole) as [manager Hp].
    destruct (filter_and_sort_selects (query_params request)
                (filter (reports_to s manager) (requests s)) s Hlo Hhi)
      as (rows & Hrun & Hperm).
    rewrite (hits_manager _ _ _ Hp).
    assert (listing_requests_manager request s
            = run (respond_rows "No requests found" rows) s) as ->;
      [|now apply found_or_not].
    unfold listing_requests_manager. enter Hm. cbn [forallb]. rewrite Hg1, Hrole.
    cbn [andb method_eqb]. rewrite run_bind. unfold get_or at 1. rewrite Hp.
    rewrite run_bind. unfold reads at 1. rewrite run_bind.
    change (filter _ (requests s)) with (filter (reports_to s manager) (requests s)).
    now rewrite Hrun.
  - (* employee *)
    apply andb_prop in Hent as [Hg1 Hrole].
    destruct (employee_has_profile _ _ Hrole) as (employee & Hp & Hno).
    rewrite (hits_employee _ _ _ Hp).
    assert (listing_requests_employee request s
            = run (respond_rows "No requests found."
                     (filter (has_purpose (Query.purpose_of_travel (query_params request)))
                             (filter (made_by employee) (requests s)))) s) as ->;
      [|now apply found_or_not].
    unfold listing_requests_employee. enter Hm. cbn [forallb]. rewrite Hg1, Hrole.
    cbn [andb method_eqb]. rewrite run_bind. unfold get_or at 1. rewrite Hp.
    rewrite run_bind, Hno. unfold leave_if at 1, pure at 1.
    rewrite run_bind. unfold reads at 1.
    now rewrite own_rows, by_purpose.
Qed.

(** C9 on the sample store: Bob asks for the reverted requests of his team,
    latest departure first, and gets request 2; the admin asks for closed
    requests and gets the not-found message. *)
Lemma listing_is_not_found_exactly_when_nothing_matches_witness :
  let reverted :=
    Sample.query Sample.bob
      {| Query.status := Some "reverted"; Query.sort_by := Some "-from_date";
         Query.start_date := Some (IsoDate 1%Z); Query.end_date := None;
         Query.search_name := Some "ALI"; Query.purpose_of_travel := None |} in
  let closed :=
    Sample.query Sample.root
      {| Query.status := Some "closed"; Query.sort_by := None;
         Query.start_date := None; Query.end_date := None;
         Query.search_name := None; Query.purpose_of_travel := None |} in
  (entitled ManagerListing reverted Sample.store = true
   /\ entitled AdminListing closed Sample.store = true
   /\ hits AdminListing closed Sample.store = [])
  /\ (exists rows,
        listing ManagerListing reverted Sample.store
        = (Sample.store, Response (JRequests rows) HTTP_200_OK)
        /\ Permutation rows (hits ManagerListing reverted Sample.store))
  /\ listing AdminListing closed Sample.store
     = (Sample.store,
        Response (JMessage "message" "No requests found") HTTP_404_NOT_FOUND).
Proof.
  split; [repeat split|]. split.
  - apply (proj2 (listing_is_not_found_exactly_when_nothing_matches
                    ManagerListing
                    (Sample.query Sample.bob
                       {| Query.status := Some "reverted";
                          Query.sort_by := Some "-from_date";
                          Query.start_date := Some (IsoDate 1%Z);
                          Query.end_date := None;
                          Query.search_name := Some "ALI";
                          Query.purpose_of_travel := None |})
                    Sample.store eq_refl eq_refl eq_refl)).
    vm_compute. discriminate.
  - apply (proj1 (listing_is_not_found_exactly_when_nothing_matches
                    AdminListing
                    (Sample.query Sample.root
                       {| Query.status := Some "closed"; Query.sort_by := None;
                          Query.start_date := None; Query.end_date := None;
                          Query.search_name := None;
                          Query.purpose_of_travel := None |})
                    Sample.store eq_refl eq_refl eq_refl)).
    reflexivity.
Defined.

(** C10.  A listing never leaves the scope of its caller.  Whatever the
    request (caller, filters, ordering, even one that is refused or raises),
    every request that the manager listing returns is in the store and was
    made by an employee whose manager is the caller; every request that the
    employee listing returns is in the store and was made by the caller. *)
Theorem listing_stays_in_scope
        (l : Listing) (request : HttpRequest) (s : Store) (r : Request.t) :
  In r (returned (snd (listing l request s))) ->
  In r (requests s) /\ in_scope l s (user request) r = true.
Proof.
  destruct l; cbn [listing in_scope].
  - unfold listing_requests_admin, api_view.
    destruct (forallb _ _); [|destruct (is_authenticated _); contradiction].
    destruct (existsb _ _); [|contradiction].
    destruct (method_eqb _ _); [|contradiction].
    rewrite run_bind. unfold get_or at 1.
    destruct (Admin_get_by_user _ _); [|contradiction].
    rewrite run_bind. unfold reads at 1. rewrite run_bind.
    pose proof (filter_and_sort_incl (query_params request) (requests s) s) as H.
    destruct (filter_and_sort _ _ s) as [s' [o|rows]]; destruct H as [-> H].
    + cbn [snd]. rewrite H. contradiction.
    + destruct (respond_rows_returned "No requests found" rows s) as [_ ->].
      intros Hr. split; [now apply H | reflexivity].
  - unfold listing_requests_manager, api_view.
    destruct (forallb _ _); [|destruct (is_authenticated _); contradiction].
    destruct (existsb _ _); [|contradiction].
    destruct (method_eqb _ _); [|contradiction].
    rewrite run_bind. unfold get_or at 1.
    destruct (Employee_get_by_user _ _) as [manager|]; [|contradiction].
    rewrite run_bind. unfold reads at 1. rewrite run_bind.
    change (filter _ (requests s)) with (filter (reports_to s manager) (requests s)).
    pose proof (filter_and_sort_incl (query_params request)
                  (filter (reports_to s manager) (requests s)) s) as H.
    destruct (filter_and_sort _ _ s) as [s' [o|rows]]; destruct H as [-> H].
    + cbn [snd]. rewrite H. contradiction.
    + destruct (respond_rows_returned "No requests found" rows s) as [_ ->].
      intros Hr. apply H, filter_In in Hr. exact Hr.
  - unfold listing_requests_employee, api_view.
    destruct (forallb _ _); [|destruct (is_authenticated _); contradiction].
    destruct (existsb _ _); [|contradiction].
    destruct (method_eqb _ _); [|contradiction].
    rewrite run_bind. unfold get_or at 1.
    destruct (Employee_get_by_user _ _) as [employee|]; [|contradiction].
    rewrite run_bind. unfold leave_if at 1.
    destruct (Employee.is_manager employee); [contradiction|].
    unfold pure at 1. rewrite run_bind. unfold reads at 1.
    rewrite own_rows, by_purpose.
    destruct (respond_rows_returned "No requests found."
                (filter (has_purpose (Query.purpose_of_travel (query_params request)))
                        (filter (made_by employee) (requests s))) s) as [_ ->].
    intros Hr. apply filter_In in Hr as [Hr _]. apply filter_In in Hr. exact Hr.
Qed.

(** C10 on the sample store: request 2 is returned to Bob, to whom Alice
    reports. *)
Lemma listing_stays_in_scope_witness :
  let request :=
    Sample.query Sample.bob
      {| Query.status := Some "reverted"; Query.sort_by := Some "from_date";
         Query.start_date := None; Query.end_date := Some (IsoDate 100%Z);
         Query.search_name := None; Query.purpose_of_travel := None |} in
  let row := Sample.trip 2 (Some 11) (Some 12) 120%Z 125%Z true (Some "Hotel") "reverted" in
  In row (returned (snd (listing ManagerListing request Sample.store)))
  /\ In row (requests Sample.store)
  /\ in_scope ManagerListing Sample.store (user request) row = true.
Proof.
  split; [left; reflexivity|].
  apply (listing_stays_in_scope
           ManagerListing
           (Sample.query Sample.bob
              {| Query.status := Some "reverted"; Query.sort_by := Some "from_date";
                 Query.start_date := None; Query.end_date := Some (IsoDate 100%Z);
                 Query.search_name := None; Query.purpose_of_travel := None |})
           Sample.store
           (Sample.trip 2 (Some 11) (Some 12) 120%Z 125%Z true (Some "Hotel") "reverted")).
  left; reflexivity.
Defined.

(** * Further properties

    What the code shows beyond the claims: the field rules that a stored
    request meets, what each endpoint writes and leaves alone, the
    permissions seen from the caller, the order of a listing, the logins and
    the employee directory. *)

Import TravelSerializer.

(** ** What the serializer lets through *)

(** A key of the validated data was sent, names a writable field and holds
    the value that the field made of what was sent. *)
Lemma run_fields_origin partial data fs k v :
  lookup (snd (run_fields partial data fs)) k = Some v ->
  exists f raw,
    In f fs /\ name f = k /\ read_only f = false
    /\ lookup data k = Some raw /\ clean (kind f) raw = inr v.
Proof.
  induction fs as [|f fs IH]; cbn [run_fields]; [discriminate|].
  destruct (run_fields partial data fs) as [errors ret] eqn:Hrest.
  cbn [snd] in IH.
  assert (Hlater : lookup ret k = Some v ->
                   exists f0 raw,
                     In f0 (f :: fs) /\ name f0 = k /\ read_only f0 = false
                     /\ lookup data k = Some raw /\ clean (kind f0) raw = inr v).
  { intros H. destruct (IH H) as (f0 & raw & Hin & Hrest'). exists f0, raw.
    split; [now right | exact Hrest']. }
  unfold run_field.
  destruct (read_only f) eqn:Hro; [exact Hlater|].
  destruct (lookup data (name f)) as [raw|] eqn:Hraw.
  - destruct (clean (kind f) raw) as [msg|v'] eqn:Hclean; [exact Hlater|].
    cbn [snd lookup]. destruct (String.eqb_spec (name f) k) as [Hk|Hk].
    + intros [= <-]. exists f, raw. subst k. repeat split; auto. now left.
    + exact Hlater.
  - destruct partial; [exact Hlater|]. destruct (required f); exact Hlater.
Qed.

(** Without errors, no field has failed. *)
Lemma run_fields_clean partial data fs f :
  fst (run_fields partial data fs) = [] ->
  In f fs ->
  forall msg, run_field partial data f <> Err msg.
Proof.
  induction fs as [|g fs IH]; [contradiction|].
  cbn [run_fields]. destruct (run_fields partial data fs) as [errors ret].
  cbn [fst] in IH. intros Hnone [->|Hin] msg.
  - destruct (run_field partial data f); [discriminate | | discriminate].
    cbn in Hnone. discriminate.
  - apply IH; [|exact Hin].
    destruct (run_field partial data g); cbn in Hnone; [assumption | discriminate | assumption].
Qed.

(** A field that kept a value has it in the validated data. *)
Lemma run_fields_kept partial data fs f v :
  NoDup (map name fs) ->
  In f fs ->
  run_field partial data f = Keep v ->
  lookup (snd (run_fields partial data fs)) (name f) = Some v.
Proof.
  induction fs as [|g fs IH]; [contradiction|].
  cbn [map]. intros Hnd Hin Hkeep. inversion Hnd as [|? ? Hfresh Hnd']; subst.
  cbn [run_fields]. destruct (run_fields partial data fs) as [errors ret] eqn:Hrest.
  cbn [snd] in IH.
  destruct Hin as [->|Hin].
  - rewrite Hkeep. cbn [snd lookup]. now rewrite String.eqb_refl.
  - assert (Hne : name g <> name f).
    { intros Heq. apply Hfresh. rewrite Heq. now apply in_map. }
    apply String.eqb_neq in Hne.
    destruct (run_field partial data g); cbn [snd lookup]; try rewrite Hne; auto.
Qed.

Lemma fields_distinct : NoDup (map name fields).
Proof.
  cbn. repeat (constructor; [cbn; intuition discriminate|]). constructor.
Qed.

Lemma to_internal_value_inr partial data vd :
  to_internal_value partial data = inr vd ->
  fst (run_fields partial data fields) = []
  /\ snd (run_fields partial data fields) = vd.
Proof.
  unfold to_internal_value.
  destruct (run_fields partial data fields) as [[|e errors] ret]; [|discriminate].
  now intros [= <-].
Qed.

Lemma validate_inr attrs vd :
  validate attrs = inr vd ->
  vd = attrs
  /\ is_true (get attrs "from_date") && is_true (get attrs "to_date")
     && value_ge (get attrs "from_date") (get attrs "to_date") = false
  /\ is_true (get attrs "lodging") && negb (is_true (get attrs "lodging_info")) = false.
Proof.
  unfold validate.
  destruct (_ && _ && value_ge _ _); [discriminate|].
  destruct (is_true (get attrs "lodging") && _); [discriminate|].
  destruct (_ && _ && value_eqb _ _); [discriminate|].
  now intros [= <-].
Qed.

Lemma is_valid_inr partial data vd :
  is_valid partial data = inr vd ->
  fst (run_fields partial data fields) = []
  /\ snd (run_fields partial data fields) = vd.
Proof.
  unfold is_valid.
  destruct (to_internal_value partial data) as [errors|attrs] eqn:Hfields;
    [discriminate|].
  intros Hv. apply validate_inr in Hv as (-> & _).
  now apply to_internal_value_inr.
Qed.

Lemma valid_keys_origin partial data vd :
  is_valid partial data = inr vd ->
  forall k v,
    lookup vd k = Some v ->
    exists f raw,
      In f fields /\ name f = k /\ read_only f = false
      /\ lookup data k = Some raw /\ clean (kind f) raw = inr v.
Proof.
  intros Hvalid k v Hk. apply is_valid_inr in Hvalid as [_ Hret].
  apply (run_fields_origin partial data fields). now rewrite Hret.
Qed.

Lemma valid_dates_ordered partial data vd :
  is_valid partial data = inr vd ->
  forall a b,
    lookup vd "from_date" = Some (VDate a) ->
    lookup vd "to_date" = Some (VDate b) -> (a < b)%Z.
Proof.
  unfold is_valid.
  destruct (to_internal_value partial data) as [errors|attrs]; [discriminate|].
  intros Hv a b Ha Hb. apply validate_inr in Hv as (-> & Hdates & _).
  unfold get in Hdates. rewrite Ha, Hb in Hdates.
  cbn [is_true value_ge andb] in Hdates. now apply Z.leb_gt in Hdates.
Qed.

Lemma valid_lodging_described partial data vd :
  is_valid partial data = inr vd ->
  lookup vd "lodging" = Some (VBool true) ->
  exists info, lookup vd "lodging_info" = Some (VStr info) /\ info <> "".
Proof.
  intros Hvalid Hl. pose proof (valid_keys_origin _ _ _ Hvalid) as Horigin.
  revert Hvalid. unfold is_valid.
  destruct (to_internal_value partial data) as [errors|attrs]; [discriminate|].
  intros Hv. apply validate_inr in Hv as (-> & _ & Hlodging).
  unfold get in Hlodging. rewrite Hl in Hlodging.
  cbn [is_true andb] in Hlodging. apply negb_false_iff in Hlodging.
  destruct (lookup attrs "lodging_info") as [v|] eqn:Hi; [|discriminate].
  destruct (Horigin _ _ Hi) as (f & raw & Hf & Hname & _ & _ & Hclean).
  assert (kind f = CharField 100 true true) as Hkind.
  { cbn in Hf. repeat (destruct Hf as [<-|Hf]; try discriminate Hname;
                       try reflexivity). contradiction. }
  rewrite Hkind in Hclean.
  assert (Hshape : v = VNone \/ exists info, v = VStr info).
  { destruct raw as [|txt| | |n]; cbn in Hclean; try discriminate.
    - injection Hclean as <-. now left.
    - destruct (strip txt =? ""); [injection Hclean as <-; eauto|].
      destruct (len (strip txt) <=? 100)%nat; [|discriminate].
      injection Hclean as <-. eauto.
    - destruct (strip (str_of_nat n) =? ""); [injection Hclean as <-; eauto|].
      destruct (len (strip (str_of_nat n)) <=? 100)%nat; [|discriminate].
      injection Hclean as <-. eauto. }
  destruct Hshape as [->|[info ->]]; [discriminate|].
  exists info. split; [reflexivity|]. cbn in Hlodging.
  now apply negb_true_iff, String.eqb_neq in Hlodging.
Qed.

(** X1.  What [is_valid] lets through, for a full payload and for a partial
    one: a start date and an end date that are both in the validated data
    are in order; lodging that is asked for in the validated data comes with
    a lodging text that is not empty; and every key of the validated data
    was sent, names a writable field of the model, and holds what that field
    made of the value sent. *)
Theorem validated_data_is_checked (partial : bool) (data vd : Dict) :
  is_valid partial data = inr vd ->
  (forall a b,
      lookup vd "from_date" = Some (VDate a) ->
      lookup vd "to_date" = Some (VDate b) -> (a < b)%Z)
  /\ (lookup vd "lodging" = Some (VBool true) ->
      exists info, lookup vd "lodging_info" = Some (VStr info) /\ info <> "")
  /\ (forall k v,
         lookup vd k = Some v ->
         exists f raw,
           In f fields /\ name f = k /\ read_only f = false
           /\ lookup data k = Some raw /\ clean (kind f) raw = inr v).
Proof.
  intros Hvalid. split; [|split].
  - exact (valid_dates_ordered _ _ _ Hvalid).
  - exact (valid_lodging_described _ _ _ Hvalid).
  - exact (valid_keys_origin _ _ _ Hvalid).
Qed.

(** X1 on a payload that asks for lodging, sent as a partial update. *)
Lemma validated_data_is_checked_witness :
  let data :=
    [("from_date", VDate 10%Z); ("to_date", VDate 12%Z);
     ("lodging", VBool true); ("lodging_info", VStr " Hotel ")] in
  exists vd,
    is_valid true data = inr vd
    /\ (forall a b,
          lookup vd "from_date" = Some (VDate a) ->
          lookup vd "to_date" = Some (VDate b) -> (a < b)%Z)
    /\ (lookup vd "lodging" = Some (VBool true) ->
        exists info, lookup vd "lodging_info" = Some (VStr info) /\ info <> "")
    /\ (forall k v,
           lookup vd k = Some v ->
           exists f raw,
             In f fields /\ name f = k /\ read_only f = false
             /\ lookup data k = Some raw /\ clean (kind f) raw = inr v).
Proof.
  eexists. split; [reflexivity|].
  apply (validated_data_is_checked
           true
           [("from_date", VDate 10%Z); ("to_date", VDate 12%Z);
            ("lodging", VBool true); ("lodging_info", VStr " Hotel ")]).
  reflexivity.
Defined.

(** ** The request form *)

(** A required field of a full payload is in the validated data. *)
Lemma required_field_kept data vd f :
  is_valid false data = inr vd ->
  In f fields -> required f = true -> read_only f = false ->
  exists raw v,
    lookup data (name f) = Some raw /\ clean (kind f) raw = inr v
    /\ lookup vd (name f) = Some v.
Proof.
  intros Hvalid Hin Hreq Hro.
  apply is_valid_inr in Hvalid as [Hnone Hret].
  pose proof (run_fields_clean false data fields f Hnone Hin) as Hok.
  pose proof (run_fields_kept false data fields f) as Hkept.
  unfold run_field in Hok, Hkept. rewrite Hro in Hok, Hkept.
  destruct (lookup data (name f)) as [raw|] eqn:Hraw.
  - destruct (clean (kind f) raw) as [msg|v] eqn:Hclean; [now elim (Hok msg)|].
    exists raw, v. split; [reflexivity|]. split; [exact Hclean|].
    rewrite <- Hret.
    apply Hkept; [exact fields_distinct | exact Hin | reflexivity].
  - rewrite Hreq in Hok. now elim (Hok "This field is required.").
Qed.

Lemma clean_date allow_null raw v :
  clean (DateField allow_null) raw = inr v ->
  v = raw /\ (raw = VNone \/ exists d, raw = VDate d).
Proof.
  destruct raw; cbn; try discriminate.
  - destruct allow_null; [|discriminate]. intros [= <-]. auto.
  - intros [= <-]. eauto.
Qed.

Lemma clean_required_date raw v :
  clean (DateField false) raw = inr v -> exists d, raw = VDate d /\ v = VDate d.
Proof. destruct raw; cbn; try discriminate. intros [= <-]. eauto. Qed.

Lemma clean_bool raw v :
  clean BooleanField raw = inr v -> exists b, v = VBool b.
Proof.
  destruct raw as [| | | |[|[|n]]]; cbn; try discriminate; intros [= <-]; eauto.
Qed.

Lemma clean_choice choices raw v :
  clean (ChoiceField choices) raw = inr v ->
  exists c, v = VStr c /\ str_in c choices = true.
Proof.
  destruct raw as [|c| | |n]; cbn; try discriminate.
  - destruct (str_in c choices) eqn:Hc; [|discriminate]. intros [= <-]. eauto.
  - destruct (str_in (str_of_nat n) choices) eqn:Hc; [|discriminate].
    intros [= <-]. eauto.
Qed.

Lemma str_in_In x xs : str_in x xs = true -> In x xs.
Proof.
  unfold str_in. intros H. apply existsb_exists in H as (y & Hy & Heq).
  apply String.eqb_eq in Heq. now subst.
Qed.

(** What a successful request form has done. *)
Lemma request_form_success request s :
  snd (emp_request_form request s)
  = Response (JMessage "message" "Request Submitted") HTTP_200_OK ->
  exists employee manager vd,
    is_valid false (data request) = inr vd
    /\ requests (fst (emp_request_form request s))
       = (requests s
          ++ [assign (fresh s)
                (merge vd [("employee", VRef (Employee.id employee));
                           ("manager", VRef (Employee.id manager));
                           ("status_of_request", VStr "submitted")])])%list.
Proof.
  unfold emp_request_form, api_view.
  destruct (forallb _ _); [|destruct (is_authenticated _); cbn [snd]; discriminate].
  destruct (existsb _ _); [|cbn [snd]; discriminate].
  destruct (method_eqb _ _); [|cbn [snd]; discriminate].
  unfold run, bind, get_or, deref, leave, pure, modify.
  destruct (Employee_get_by_user _ _) as [employee|]; [|cbn [snd]; discriminate].
  destruct (Employee.manager employee) as [m|]; [|cbn [snd]; discriminate].
  unfold get_or. destruct (Employee_get m s) as [manager|]; [|cbn [snd]; discriminate].
  destruct (is_valid false (data request)) as [errors|vd] eqn:Hvalid; [discriminate|].
  intros _. exists employee, manager, vd. split; reflexivity.
Qed.

(** X2.  A request that the form stores meets the rules of its fields: it
    starts before it ends, lodging that is asked for is described by a text
    that is not empty, and the mode of travel is one of the choices of the
    model. *)
Theorem request_form_upholds_field_rules (request : HttpRequest) (s : Store) :
  snd (emp_request_form request s)
  = Response (JMessage "message" "Request Submitted") HTTP_200_OK ->
  exists r,
    requests (fst (emp_request_form request s)) = (requests s ++ [r])%list
    /\ (Request.from_date r < Request.to_date r)%Z
    /\ (Request.lodging r = true ->
        exists info, Request.lodging_info r = Some info /\ info <> "")
    /\ In (Request.mode_of_travel r) Request.MODE_CHOICES.
Proof.
  intros Hok.
  destruct (request_form_success _ _ Hok) as (employee & manager & vd & Hvalid & ->).
  eexists. split; [reflexivity|].
  pose proof (valid_dates_ordered _ _ _ Hvalid) as Hdates.
  pose proof (valid_lodging_described _ _ _ Hvalid) as Hlodging.
  pose proof (valid_keys_origin _ _ _ Hvalid) as Horigin.
  destruct (required_field_kept _ _ (field "from_date" (DateField false) true false) Hvalid)
    as (raw1 & v1 & _ & Hc1 & Hv1); [cbn; tauto | reflexivity | reflexivity |].
  destruct (required_field_kept _ _ (field "to_date" (DateField false) true false) Hvalid)
    as (raw2 & v2 & _ & Hc2 & Hv2); [cbn; tauto | reflexivity | reflexivity |].
  destruct (required_field_kept _ _
              (field "mode_of_travel" (ChoiceField Request.MODE_CHOICES) true false) Hvalid)
    as (raw3 & v3 & _ & Hc3 & Hv3); [cbn; tauto | reflexivity | reflexivity |].
  cbn [name kind field] in *.
  apply clean_required_date in Hc1 as (a & -> & ->).
  apply clean_required_date in Hc2 as (b & -> & ->).
  apply clean_choice in Hc3 as (c & -> & Hc3).
  cbn. unfold date_attr, bool_attr, opt_str_attr, str_attr.
  cbn [lookup String.eqb Ascii.eqb Bool.eqb].
  rewrite Hv1, Hv2, Hv3.
  split; [now apply Hdates|]. split; [|exact (str_in_In _ _ Hc3)].
  destruct (lookup vd "lodging") as [v|] eqn:Hl; [|discriminate].
  destruct (Horigin _ _ Hl) as (f & raw & Hf & Hname & _ & _ & Hclean).
  assert (kind f = BooleanField) as Hkind.
  { cbn in Hf. repeat (destruct Hf as [<-|Hf]; try discriminate Hname;
                       try reflexivity). contradiction. }
  rewrite Hkind in Hclean. apply clean_bool in Hclean as [flag ->].
  intros ->. destruct (Hlodging eq_refl) as (info & -> & Hinfo). eauto.
Qed.

(** X2 on the sample store: Alice files the form of scenario 1. *)
Lemma request_form_upholds_field_rules_witness :
  let request := Sample.http POST Sample.alice Sample.form in
  snd (emp_request_form request Sample.store)
  = Response (JMessage "message" "Request Submitted") HTTP_200_OK
  /\ exists r,
      requests (fst (emp_request_form request Sample.store))
      = (requests Sample.store ++ [r])%list
      /\ (Request.from_date r < Request.to_date r)%Z
      /\ (Request.lodging r = true ->
          exists info, Request.lodging_info r = Some info /\ info <> "")
      /\ In (Request.mode_of_travel r) Request.MODE_CHOICES.
Proof.
  split; [reflexivity|].
  apply (request_form_upholds_field_rules
           (Sample.http POST Sample.alice Sample.form) Sample.store).
  reflexivity.
Defined.

(** ** Editing a request *)

(** Saving a row leaves the others as they were. *)
Lemma Request_get_save_other request_id s r' :
  request_id <> Request.id r' ->
  Request_get request_id (Request_save r' s) = Request_get request_id s.
Proof.
  unfold Request_get, Request_save, set_requests. cbn [requests].
  intros Hne. induction (requests s) as [|x rows IH]; [reflexivity|].
  cbn [find map].
  destruct (Request.id x =? Request.id r')%nat eqn:Hx.
  - apply Nat.eqb_eq in Hx.
    destruct (Nat.eqb_spec (Request.id r') request_id) as [He|_];
      [now elim Hne|].
    rewrite Hx. destruct (Nat.eqb_spec (Request.id r') request_id) as [He|_];
      [now elim Hne | exact IH].
  - destruct (Request.id x =? request_id)%nat; [reflexivity | exact IH].
Qed.

(** Keys of read-only fields never reach the validated data. *)
Lemma read_only_dropped partial data vd k :
  is_valid partial data = inr vd ->
  In k ["id"; "employee"; "manager"; "date_of_request"] ->
  lookup vd k = None.
Proof.
  intros Hvalid Hk.
  pose proof (valid_keys_origin _ _ _ Hvalid) as Horigin.
  destruct (lookup vd k) as [v|] eqn:Hv; [|reflexivity].
  destruct (Horigin _ _ Hv) as (f & raw & Hf & Hname & Hro & _).
  exfalso. cbn in Hf, Hk.
  repeat (destruct Hf as [<-|Hf];
          [cbn in Hname, Hro; try discriminate Hro; subst k;
           repeat (destruct Hk as [Hk|Hk]; try discriminate Hk); contradiction|]).
  contradiction.
Qed.

(** The two ways an edit can end. *)
Lemma edit_cases request request_id s :
  (fst (edit_request_employee request request_id s) = s
   /\ forall row, snd (edit_request_employee request request_id s)
                  <> Response (JRequest row) HTTP_200_OK)
  \/ exists r employee vd,
      Request_get request_id s = Some r
      /\ Employee_get_by_user (user request) s = Some employee
      /\ is_not (Request.employee r) employee = false
      /\ is_valid true (data request) = inr vd
      /\ edit_request_employee request request_id s
         = (Request_save (assign r vd) s,
            Response (JRequest (assign r vd)) HTTP_200_OK).
Proof.
  unfold edit_request_employee, api_view.
  destruct (forallb _ _);
    [|left; destruct (is_authenticated _); split; [reflexivity|discriminate|reflexivity|discriminate]].
  destruct (existsb _ _); [|left; split; [reflexivity|discriminate]].
  destruct (method_eqb _ _); [|left; split; [reflexivity|discriminate]].
  unfold run, bind, get_or, leave_if, leave, pure.
  destruct (Request_get request_id s) as [r|]; [|left; split; [reflexivity|discriminate]].
  destruct (Employee_get_by_user _ _) as [employee|];
    [|left; split; [reflexivity|discriminate]].
  destruct (is_not (Request.employee r) employee) eqn:Hown;
    [left; split; [reflexivity|discriminate]|].
  destruct (is_valid true (data request)) as [errors|vd] eqn:Hvalid;
    [left; split; [reflexivity|discriminate]|].
  right. exists r, employee, vd. repeat split; auto.
Qed.

(** X3.  An edit never moves a request: whatever is sent, by whomever, the
    request keeps its employee, its manager and its date of request, every
    other request stays as it was, and neither the employees nor the outbox
    change. *)
Theorem edit_keeps_the_parties
        (request : HttpRequest) (request_id : nat) (s : Store) (r : Request.t) :
  Request_get request_id s = Some r ->
  let s' := fst (edit_request_employee request request_id s) in
  (exists r',
      Request_get request_id s' = Some r'
      /\ Request.employee r' = Request.employee r
      /\ Request.manager r' = Request.manager r
      /\ Request.date_of_request r' = Request.date_of_request r)
  /\ (forall other, other <> request_id ->
                    Request_get other s' = Request_get other s)
  /\ employees s' = employees s
  /\ outbox s' = outbox s.
Proof.
  intros Hget s'. subst s'.
  destruct (edit_cases request request_id s)
    as [[-> _]|(r0 & employee & vd & Hget0 & _ & _ & Hvalid & ->)].
  - split; [exists r; auto|]. auto.
  - rewrite Hget in Hget0. injection Hget0 as <-. cbn [fst].
    split; [|split; [|split; reflexivity]].
    + exists (assign r vd). split.
      * apply Request_get_save with (r := r); [exact Hget|].
        exact (Request_get_id _ _ _ Hget).
      * cbn. unfold ref_attr.
        rewrite (read_only_dropped _ _ _ "employee" Hvalid) by (cbn; tauto).
        rewrite (read_only_dropped _ _ _ "manager" Hvalid) by (cbn; tauto).
        auto.
    + intros other Hother. apply Request_get_save_other. cbn.
      rewrite (Request_get_id _ _ _ Hget). exact Hother.
Qed.

(** X3 on the sample store: Alice sends another employee and another
    manager for request 1. *)
Lemma edit_keeps_the_parties_witness :
  let request :=
    Sample.http PATCH Sample.alice
                [("employee", VRef 13); ("manager", VRef 13);
                 ("purpose_of_travel", VStr "Trade fair")] in
  let r := Sample.trip 1 (Some 11) (Some 12) 110%Z 112%Z false None "submitted" in
  let s' := fst (edit_request_employee request 1 Sample.store) in
  Request_get 1 Sample.store = Some r
  /\ (exists r',
         Request_get 1 s' = Some r'
         /\ Request.employee r' = Request.employee r
         /\ Request.manager r' = Request.manager r
         /\ Request.date_of_request r' = Request.date_of_request r)
  /\ (forall other, other <> 1 -> Request_get other s' = Request_get other Sample.store)
  /\ employees s' = employees Sample.store
  /\ outbox s' = outbox Sample.store.
Proof.
  split; [reflexivity|].
  apply (edit_keeps_the_parties
           (Sample.http PATCH Sample.alice
                        [("employee", VRef 13); ("manager", VRef 13);
                         ("purpose_of_travel", VStr "Trade fair")])
           1 Sample.store
           (Sample.trip 1 (Some 11) (Some 12) 110%Z 112%Z false None "submitted")).
  reflexivity.
Defined.

(** X4.  The edit endpoint takes the status like any other field: the owner
    of a request who sends a status of the model has it stored, whatever the
    status was, and neither a date of approval nor a message of the manager
    is written with it. *)
Theorem edit_writes_any_status
        (request : HttpRequest) (request_id : nat) (s : Store)
        (employee : Employee.t) (r : Request.t) (status : string) :
  method request = PATCH ->
  Employee_get_by_user (user request) s = Some employee ->
  Employee.is_manager employee = false ->
  Request_get request_id s = Some r ->
  Request.employee r = Some (Employee.id employee) ->
  data request = [("status_of_request", VStr status)] ->
  In status Request.STATUS_CHOICES ->
  exists r',
    snd (edit_request_employee request request_id s)
    = Response (JRequest r') HTTP_200_OK
    /\ Request_get request_id (fst (edit_request_employee request request_id s))
       = Some r'
    /\ Request.status_of_request r' = status
    /\ Request.date_of_approval r' = Request.date_of_approval r
    /\ Request.message_from_manager r' = Request.message_from_manager r.
Proof.
  intros Hm He Hrole Hget Hown Hdata Hstatus.
  unfold edit_request_employee. enter Hm.
  unfold IsAuthenticated, IsEmployee. cbn [forallb].
  rewrite (profile_is_authenticated _ _ _ He), He, Hrole. cbn [negb andb].
  unfold run, bind, get_or, leave_if, leave, pure. rewrite Hget, He.
  unfold is_not. rewrite Hown, Nat.eqb_refl. cbn [negb]. rewrite Hdata.
  assert (is_valid true [("status_of_request", VStr status)]
          = inr [("status_of_request", VStr status)]) as ->.
  { cbn in Hstatus.
    repeat (destruct Hstatus as [<-|Hstatus]; [reflexivity|]). contradiction. }
  cbn [fst snd save_update]. eexists. split; [reflexivity|]. split.
  - apply Request_get_save with (r := r); [exact Hget|].
    exact (Request_get_id _ _ _ Hget).
  - cbn. auto.
Qed.

(** X4 on the sample store: Alice approves her own request 3, which she has
    not submitted yet. *)
Lemma edit_writes_any_status_witness :
  let request :=
    Sample.http PATCH Sample.alice [("status_of_request", VStr "approved")] in
  let r := Sample.trip 3 (Some 11) (Some 12) 130%Z 131%Z false None "to_submit" in
  (Employee_get_by_user (user request) Sample.store = Some Sample.alice_e
   /\ Request_get 3 Sample.store = Some r
   /\ In "approved" Request.STATUS_CHOICES)
  /\ exists r',
      snd (edit_request_employee request 3 Sample.store)
      = Response (JRequest r') HTTP_200_OK
      /\ Request_get 3 (fst (edit_request_employee request 3 Sample.store))
         = Some r'
      /\ Request.status_of_request r' = "approved"
      /\ Request.date_of_approval r' = Request.date_of_approval r
      /\ Request.message_from_manager r' = Request.message_from_manager r.
Proof.
  split; [repeat split; cbn; tauto|].
  apply (edit_writes_any_status
           (Sample.http PATCH Sample.alice [("status_of_request", VStr "approved")])
           3 Sample.store Sample.alice_e
           (Sample.trip 3 (Some 11) (Some 12) 130%Z 131%Z false None "to_submit")
           "approved");
    try reflexivity.
  cbn. tauto.
Defined.

(** A field that was sent is in the validated data. *)
Lemma sent_field_kept partial data vd f raw :
  is_valid partial data = inr vd ->
  In f fields -> read_only f = false ->
  lookup data (name f) = Some raw ->
  exists v, clean (kind f) raw = inr v /\ lookup vd (name f) = Some v.
Proof.
  intros Hvalid Hin Hro Hraw.
  apply is_valid_inr in Hvalid as [Hnone Hret].
  pose proof (run_fields_clean partial data fields f Hnone Hin) as Hok.
  pose proof (run_fields_kept partial data fields f) as Hkept.
  unfold run_field in Hok, Hkept. rewrite Hro, Hraw in Hok, Hkept.
  destruct (clean (kind f) raw) as [msg|v] eqn:Hclean; [now elim (Hok msg)|].
  exists v. split; [reflexivity|]. rewrite <- Hret.
  apply Hkept; [exact fields_distinct | exact Hin | reflexivity].
Qed.

(** A key that was not sent is not in the validated data. *)
Lemma absent_field_dropped partial data vd k :
  is_valid partial data = inr vd ->
  lookup data k = None -> lookup vd k = None.
Proof.
  intros Hvalid Hk.
  pose proof (valid_keys_origin _ _ _ Hvalid) as Horigin.
  destruct (lookup vd k) as [v|] eqn:Hv; [|reflexivity].
  destruct (Horigin _ _ Hv) as (f & raw & _ & _ & _ & Hraw & _). congruence.
Qed.

(** X5.  An edit that went through keeps a rule of the serializer when the
    fields of the rule are sent together, or when none of them is sent and
    the request met the rule before: so for the order of the dates, with
    both dates sent or neither, and for the lodging text, with the lodging
    flag sent or with neither the flag nor the text sent. *)
Theorem edit_keeps_rules_of_fields_sent_together
        (request : HttpRequest) (request_id : nat) (s : Store)
        (r saved : Request.t) :
  Request_get request_id s = Some r ->
  snd (edit_request_employee request request_id s)
  = Response (JRequest saved) HTTP_200_OK ->
  let sent k := lookup (data request) k in
  ((sent "from_date" <> None /\ sent "to_date" <> None)
   \/ (sent "from_date" = None /\ sent "to_date" = None /\ dates_in_order r) ->
   dates_in_order saved)
  /\ (sent "lodging" <> None
      \/ (sent "lodging" = None /\ sent "lodging_info" = None
          /\ lodging_is_described r) ->
      lodging_is_described saved).
Proof.
  intros Hget Hok sent. subst sent.
  destruct (edit_cases request request_id s)
    as [[_ Hno]|(r0 & employee & vd & Hget0 & _ & _ & Hvalid & Hrun)];
    [now elim (Hno saved)|].
  rewrite Hget in Hget0. injection Hget0 as <-.
  rewrite Hrun in Hok. cbn [snd] in Hok. injection Hok as <-.
  pose proof (valid_dates_ordered _ _ _ Hvalid) as Hdates.
  pose proof (valid_lodging_described _ _ _ Hvalid) as Hlodging.
  unfold dates_in_order, lodging_is_described.
  cbn [assign Request.from_date Request.to_date Request.lodging Request.lodging_info].
  unfold date_attr, bool_attr, opt_str_attr.
  split.
  - intros [[Hfrom Hto]|(Hfrom & Hto & Hbefore)].
    + destruct (lookup (data request) "from_date") as [raw1|] eqn:H1; [|congruence].
      destruct (lookup (data request) "to_date") as [raw2|] eqn:H2; [|congruence].
      destruct (sent_field_kept _ _ _ (field "from_date" (DateField false) true false) raw1 Hvalid)
        as (v1 & Hc1 & Hv1); [cbn; tauto | reflexivity | exact H1 |].
      destruct (sent_field_kept _ _ _ (field "to_date" (DateField false) true false) raw2 Hvalid)
        as (v2 & Hc2 & Hv2); [cbn; tauto | reflexivity | exact H2 |].
      cbn [name kind field] in *.
      apply clean_required_date in Hc1 as (a & -> & ->).
      apply clean_required_date in Hc2 as (b & -> & ->).
      rewrite Hv1, Hv2. now apply Hdates.
    + now rewrite (absent_field_dropped _ _ _ _ Hvalid Hfrom),
                  (absent_field_dropped _ _ _ _ Hvalid Hto).
  - intros [Hsent|(Hl & Hi & Hbefore)].
    + destruct (lookup (data request) "lodging") as [raw|] eqn:H1; [|congruence].
      destruct (sent_field_kept _ _ _ (field "lodging" BooleanField false false) raw Hvalid)
        as (v & Hc & Hv); [cbn; tauto | reflexivity | exact H1 |].
      cbn [name kind field] in *. apply clean_bool in Hc as [flag ->].
      rewrite Hv. intros ->. destruct (Hlodging Hv) as (info & -> & Hinfo). eauto.
    + now rewrite (absent_field_dropped _ _ _ _ Hvalid Hl),
                  (absent_field_dropped _ _ _ _ Hvalid Hi).
Qed.

(** X5 on the sample store: Alice moves both dates of request 2, which has
    lodging in a hotel, and sends nothing about the lodging. *)
Lemma edit_keeps_rules_of_fields_sent_together_witness :
  let request :=
    Sample.http PATCH Sample.alice
                [("from_date", VDate 121%Z); ("to_date", VDate 126%Z)] in
  let r := Sample.trip 2 (Some 11) (Some 12) 120%Z 125%Z true (Some "Hotel") "reverted" in
  let saved :=
    Sample.trip 2 (Some 11) (Some 12) 121%Z 126%Z true (Some "Hotel") "reverted" in
  (Request_get 2 Sample.store = Some r
   /\ snd (edit_request_employee request 2 Sample.store)
      = Response (JRequest saved) HTTP_200_OK)
  /\ dates_in_order saved
  /\ lodging_is_described saved.
Proof.
  split; [split; reflexivity|].
  destruct (edit_keeps_rules_of_fields_sent_together
              (Sample.http PATCH Sample.alice
                           [("from_date", VDate 121%Z); ("to_date", VDate 126%Z)])
              2 Sample.store
              (Sample.trip 2 (Some 11) (Some 12) 120%Z 125%Z true (Some "Hotel")
                           "reverted")
              (Sample.trip 2 (Some 11) (Some 12) 121%Z 126%Z true (Some "Hotel")
                           "reverted")
              eq_refl eq_refl) as [Hdates Hlodging].
  split.
  - apply Hdates. left. split; discriminate.
  - apply Hlodging. right. split; [reflexivity|]. split; [reflexivity|].
    intros _. exists "Hotel". split; [reflexivity | discriminate].
Defined.

(** ** Deleting, reading, closing and submitting a request *)

Ltac saved_row Hget :=
  match goal with
  | |- find _ (map (fun row => if _ then ?saved else row) _) = _ =>
      exact (Request_get_save _ _ _ saved Hget (Request_get_id _ _ _ Hget))
  end.



(** A deleted row is gone, and the others are as they were. *)
Lemma Request_get_delete request_id s r :
  Request.id r = request_id ->
  Request_get request_id (Request_delete r s) = None.
Proof.
  unfold Request_get, Request_delete, set_requests. cbn [requests].
  intros <-. induction (requests s) as [|x rows IH]; [reflexivity|].
  cbn [filter]. destruct (Request.id x =? Request.id r)%nat eqn:Hx; cbn [negb].
  - exact IH.
  - cbn [find]. now rewrite Hx.
Qed.

Lemma Request_get_delete_other request_id s r :
  request_id <> Request.id r ->
  Request_get request_id (Request_delete r s) = Request_get request_id s.
Proof.
  unfold Request_get, Request_delete, set_requests. cbn [requests].
  intros Hne. induction (requests s) as [|x rows IH]; [reflexivity|].
  cbn [filter find]. destruct (Request.id x =? Request.id r)%nat eqn:Hx; cbn [negb].
  - apply Nat.eqb_eq in Hx. rewrite Hx.
    destruct (Nat.eqb_spec (Request.id r) request_id) as [He|_];
      [now elim Hne | exact IH].
  - cbn [find]. destruct (Request.id x =? request_id)%nat; [reflexivity | exact IH].
Qed.

(** X6.  DELETE on the employee action endpoint removes the request when the
    caller made it, whatever its status, and touches nothing else: every
    other request is as it was and no mail is sent.  A request of somebody
    else is refused and stays. *)
Theorem delete_removes_the_callers_own_request_only
        (request : HttpRequest) (request_id : nat) (s : Store)
        (employee : Employee.t) (r : Request.t) :
  method request = DELETE ->
  Employee_get_by_user (user request) s = Some employee ->
  Employee.is_manager employee = false ->
  Request_get request_id s = Some r ->
  let result := action_request_employee request request_id s in
  (made_by employee r = true ->
   snd result = Response (JDeleted "deleted request" request_id) HTTP_200_OK
   /\ Request_get request_id (fst result) = None
   /\ (forall other, other <> request_id ->
                     Request_get other (fst result) = Request_get other s)
   /\ outbox (fst result) = outbox s)
  /\ (made_by employee r = false ->
      fst result = s /\ is_refusal (snd result) = true).
Proof.
  intros Hm He Hrole Hget result. subst result.
  unfold action_request_employee. enter Hm.
  unfold IsAuthenticated, IsEmployee. cbn [forallb].
  rewrite (profile_is_authenticated _ _ _ He), He, Hrole. cbn [negb andb].
  unfold run, bind, get_or, leave_if, leave, pure, modify. rewrite Hget, He.
  unfold made_by, is_not.
  destruct (Request.employee r) as [pk|]; cbn [negb].
  - destruct (pk =? Employee.id employee)%nat; cbn [negb fst snd].
    + split; [intros _|discriminate]. split; [reflexivity|].
      split; [apply Request_get_delete, (Request_get_id _ _ _ Hget)|].
      split; [|reflexivity]. intros other Hother.
      apply Request_get_delete_other. now rewrite (Request_get_id _ _ _ Hget).
    + split; [discriminate|]. intros _. split; reflexivity.
  - split; [discriminate|]. intros _. split; reflexivity.
Qed.

(** X6 on the sample store: Alice deletes request 1, which her manager has
    before him. *)
Lemma delete_removes_the_callers_own_request_only_witness :
  let request := Sample.http DELETE Sample.alice [] in
  let r := Sample.trip 1 (Some 11) (Some 12) 110%Z 112%Z false None "submitted" in
  let result := action_request_employee request 1 Sample.store in
  (Employee_get_by_user (user request) Sample.store = Some Sample.alice_e
   /\ Request_get 1 Sample.store = Some r
   /\ made_by Sample.alice_e r = true)
  /\ snd result = Response (JDeleted "deleted request" 1) HTTP_200_OK
  /\ Request_get 1 (fst result) = None
  /\ (forall other, other <> 1 ->
                    Request_get other (fst result) = Request_get other Sample.store)
  /\ outbox (fst result) = outbox Sample.store.
Proof.
  split; [repeat split|].
  destruct (delete_removes_the_callers_own_request_only
              (Sample.http DELETE Sample.alice []) 1 Sample.store Sample.alice_e
              (Sample.trip 1 (Some 11) (Some 12) 110%Z 112%Z false None "submitted")
              eq_refl eq_refl eq_refl eq_refl) as [Hown _].
  exact (Hown eq_refl).
Defined.

(** X7.  The view of one request asks for authentication only: every
    authenticated caller, whatever the role and whoever made the request,
    is given the request with that key when there is one, and the not-found
    message otherwise.  The store is left as it was. *)
Theorem any_authenticated_user_reads_any_request
        (request : HttpRequest) (request_id : nat) (s : Store) :
  method request = GET ->
  is_authenticated (user request) = true ->
  view_request_employee request request_id s
  = (s, match Request_get request_id s with
        | Some r => Response (JRequest r) HTTP_200_OK
        | None => Response (JMessage "error" "Request not found") HTTP_404_NOT_FOUND
        end).
Proof.
  intros Hm Hu. unfold view_request_employee. enter Hm.
  unfold IsAuthenticated. cbn [forallb]. rewrite Hu. cbn [andb].
  unfold run, bind, get_or, pure. now destruct (Request_get request_id s).
Qed.

(** X7 on the sample store: Carol, to whom nobody reports, reads request 1 of
    Alice. *)
Lemma any_authenticated_user_reads_any_request_witness :
  let request := Sample.http GET Sample.carol [] in
  view_request_employee request 1 Sample.store
  = (Sample.store,
     Response (JRequest (Sample.trip 1 (Some 11) (Some 12) 110%Z 112%Z false None
                                     "submitted"))
              HTTP_200_OK).
Proof.
  exact (any_authenticated_user_reads_any_request
           (Sample.http GET Sample.carol []) 1 Sample.store eq_refl eq_refl).
Defined.

(** What a nullable text column makes of a value. *)
Lemma clean_text max_length raw v :
  clean (CharField max_length true true) raw = inr v ->
  (raw = VNone /\ v = VNone)
  \/ exists t, (raw = VStr t \/ exists n, raw = VRef n /\ t = str_of_nat n)
               /\ v = VStr (strip t)
               /\ (len (strip t) <= max_length)%nat.
Proof.
  assert (Htext : forall t,
             (if strip t =? ""
              then inr (VStr "")
              else if (len (strip t) <=? max_length)%nat
                   then inr (VStr (strip t))
                   else inl ("Ensure this field has no more than "
                             ++ str_of_nat max_length ++ " characters."))
             = @inr string Value v ->
             v = VStr (strip t) /\ (len (strip t) <= max_length)%nat).
  { intros t H. destruct (String.eqb_spec (strip t) "") as [Hblank|_].
    - injection H as <-. rewrite Hblank. cbn. split; [reflexivity | lia].
    - destruct (Nat.leb_spec (len (strip t)) max_length); [|discriminate].
      injection H as <-. auto. }
  destruct raw as [|t| | |n]; cbn; try discriminate.
  - intros [= <-]. now left.
  - intros H. right. exists t. split; [now left | now apply Htext].
  - intros H. right. exists (str_of_nat n).
    split; [right; now exists n | now apply Htext].
Qed.

(** X8.  An admin closes an approved request: with the action [close] and a
    note that fits the column, the request becomes closed, the note is
    stored as the message of the admin, the date of approval stays, and one
    mail goes to the employee who made the request. *)
Theorem admin_closes_approved_request
        (request : HttpRequest) (request_id : nat) (s : Store) (u : User.t)
        (r : Request.t) (pk : nat) (employee : Employee.t) (note : Value) :
  method request = POST ->
  user request = Some u ->
  User.is_superuser u = true ->
  Request_get request_id s = Some r ->
  Request.status_of_request r = "approved" ->
  Request.employee r = Some pk ->
  Employee_get pk s = Some employee ->
  get (data request) "action" = VStr "close" ->
  clean (CharField 300 true true) (get (data request) "note") = inr note ->
  let result := close_request_admin request request_id s in
  exists r',
    snd result = Response (JAction "Request status updated" (VStr "close")) HTTP_200_OK
    /\ Request_get request_id (fst result) = Some r'
    /\ Request.status_of_request r' = "closed"
    /\ Request.message_from_admin r' = text_of note
    /\ Request.date_of_approval r' = Request.date_of_approval r
    /\ outbox (fst result)
       = (outbox s ++ [closing_mail (get (data request) "note") employee])%list.
Proof.
  intros Hm Hu Hsuper Hget Hst Hemp Hrow Hact Hnote result. subst result.
  unfold close_request_admin. enter Hm.
  unfold IsAuthenticated, IsAdmin. cbn [forallb]. rewrite Hu, Hsuper.
  cbn [is_authenticated andb].
  unfold run, bind, get_or, leave_if, leave, pure, modify, deref.
  rewrite Hget, Hst, Hact, Hemp. cbn [String.eqb Ascii.eqb Bool.eqb is_true negb is_str value_eqb].
  unfold get_or. rewrite Hrow.
  destruct (clean_text _ _ _ Hnote)
    as [[Hraw ->]|(t & [Hraw|(n & Hraw & ->)] & -> & Hlen)];
    rewrite Hraw.
  - cbn. eexists. split; [reflexivity|]. split; [saved_row Hget | repeat split].
  - unfold is_valid, to_internal_value. cbn.
    destruct (strip t =? "") eqn:Hblank.
    + apply String.eqb_eq in Hblank. rewrite Hblank. cbn.
      eexists. split; [reflexivity|]. split; [saved_row Hget | repeat split].
    + apply Nat.leb_le in Hlen. rewrite Hlen. cbn.
      eexists. split; [reflexivity|]. split; [saved_row Hget | repeat split].
  - unfold is_valid, to_internal_value. cbn.
    destruct (strip (str_of_nat n) =? "") eqn:Hblank.
    + apply String.eqb_eq in Hblank. rewrite Hblank. cbn.
      eexists. split; [reflexivity|]. split; [saved_row Hget | repeat split].
    + apply Nat.leb_le in Hlen. rewrite Hlen. cbn.
      eexists. split; [reflexivity|]. split; [saved_row Hget | repeat split].
Qed.

(** X8 on the larger store: the admin closes request 5. *)
Lemma admin_closes_approved_request_witness :
  let request :=
    Sample.http POST Sample.root [("action", VStr "close"); ("note", VStr "Done")] in
  let r := Sample.trip 5 (Some 11) (Some 12) 150%Z 152%Z false None "approved" in
  let result := close_request_admin request 5 Demo.store in
  (Request_get 5 Demo.store = Some r
   /\ Employee_get 11 Demo.store = Some Sample.alice_e)
  /\ exists r',
      snd result
      = Response (JAction "Request status updated" (VStr "close")) HTTP_200_OK
      /\ Request_get 5 (fst result) = Some r'
      /\ Request.status_of_request r' = "closed"
      /\ Request.message_from_admin r' = text_of (VStr "Done")
      /\ Request.date_of_approval r' = Request.date_of_approval r
      /\ outbox (fst result)
         = (outbox Demo.store
            ++ [closing_mail (get (data request) "note") Sample.alice_e])%list.
Proof.
  split; [split; reflexivity|].
  apply (admin_closes_approved_request
           (Sample.http POST Sample.root
                        [("action", VStr "close"); ("note", VStr "Done")])
           5 Demo.store Sample.root
           (Sample.trip 5 (Some 11) (Some 12) 150%Z 152%Z false None "approved")
           11 Sample.alice_e (VStr "Done"));
    reflexivity.
Defined.

(** The employees do not change when a request is saved or a mail is sent. *)
Lemma Employee_get_after_save pk r s :
  Employee_get pk (Request_save r s) = Employee_get pk s.
Proof. reflexivity. Qed.

Lemma Request_get_after_mail request_id m s :
  Request_get request_id (send_mail m s) = Request_get request_id s.
Proof. reflexivity. Qed.

(** X9.  The owner submits a request that waits for submission or was
    reverted: the request becomes submitted, it is marked as resubmitted
    exactly when it was reverted (or was marked before), the mark of the
    manager and the date of the revert stay, and one mail goes to the
    manager of the request. *)
Theorem owner_submits_request
        (request : HttpRequest) (request_id : nat) (s : Store)
        (employee manager : Employee.t) (r : Request.t) (m : nat) :
  method request = POST ->
  Employee_get_by_user (user request) s = Some employee ->
  Employee.is_manager employee = false ->
  Request_get request_id s = Some r ->
  Request.employee r = Some (Employee.id employee) ->
  str_in (Request.status_of_request r) ["to_submit"; "reverted"] = true ->
  get (data request) "action" = VStr "submit" ->
  Request.manager r = Some m ->
  Employee_get m s = Some manager ->
  let result := action_request_employee request request_id s in
  exists r' mail,
    snd result = Response (JAction "status updated" (VStr "submit")) HTTP_200_OK
    /\ Request_get request_id (fst result) = Some r'
    /\ Request.status_of_request r' = "submitted"
    /\ Request.is_resubmitted r'
       = (Request.status_of_request r =? "reverted") || Request.is_resubmitted r
    /\ Request.resubmission_request r' = Request.resubmission_request r
    /\ Request.date_of_revert r' = Request.date_of_revert r
    /\ outbox (fst result) = (outbox s ++ [mail])%list
    /\ recipient_list mail = [User.email (Employee.user manager)].
Proof.
  intros Hm He Hrole Hget Hown Hst Hact Hmgr Hrow result. subst result.
  unfold action_request_employee. enter Hm.
  unfold IsAuthenticated, IsEmployee. cbn [forallb].
  rewrite (profile_is_authenticated _ _ _ He), He, Hrole. cbn [negb andb].
  unfold run, bind, get_or, leave_if, leave, pure, modify. rewrite Hget, He.
  unfold is_not. rewrite Hown, Nat.eqb_refl, Hact, Hst.
  cbn [negb is_str value_eqb String.eqb Ascii.eqb Bool.eqb].
  assert (is_valid true [("status_of_request", VStr "submitted")]
          = inr [("status_of_request", VStr "submitted")]) as Hvalid by reflexivity.
  cbn [str_in existsb] in Hst.
  destruct (Request.status_of_request r =? "reverted") eqn:Hrev.
  - cbn [Request.set_is_resubmitted Request.status_of_request Request.manager].
    rewrite Hrev. unfold deref, get_or.
    cbn [Request.set_is_resubmitted Request.status_of_request Request.manager].
    rewrite Hmgr, Employee_get_after_save, Hrow, Hvalid. cbn [fst snd save_update merge app].
    eexists. eexists. split; [reflexivity|]. split.
    + rewrite Request_get_after_mail.
      apply Request_get_save with (r := Request.set_is_resubmitted true r);
        [|exact (Request_get_id _ _ _ Hget)].
      apply Request_get_save with (r := r);
        [exact Hget | exact (Request_get_id _ _ _ Hget)].
    + cbn. repeat split.
  - rewrite Hrev. unfold deref, get_or. rewrite Hmgr, Hrow, Hvalid.
    cbn [fst snd save_update merge app].
    eexists. eexists. split; [reflexivity|]. split.
    + rewrite Request_get_after_mail.
      apply Request_get_save with (r := r);
        [exact Hget | exact (Request_get_id _ _ _ Hget)].
    + cbn. repeat split.
Qed.

(** X9 on the sample store: Alice submits request 2 again, which Bob had
    reverted. *)
Lemma owner_submits_request_witness :
  let request := Sample.http POST Sample.alice [("action", VStr "submit")] in
  let r := Sample.trip 2 (Some 11) (Some 12) 120%Z 125%Z true (Some "Hotel") "reverted" in
  let result := action_request_employee request 2 Sample.store in
  (Employee_get_by_user (user request) Sample.store = Some Sample.alice_e
   /\ Request_get 2 Sample.store = Some r
   /\ Employee_get 12 Sample.store = Some Sample.bob_e)
  /\ exists r' mail,
      snd result = Response (JAction "status updated" (VStr "submit")) HTTP_200_OK
      /\ Request_get 2 (fst result) = Some r'
      /\ Request.status_of_request r' = "submitted"
      /\ Request.is_resubmitted r'
         = (Request.status_of_request r =? "reverted") || Request.is_resubmitted r
      /\ Request.resubmission_request r' = Request.resubmission_request r
      /\ Request.date_of_revert r' = Request.date_of_revert r
      /\ outbox (fst result) = (outbox Sample.store ++ [mail])%list
      /\ recipient_list mail = [User.email (Employee.user Sample.bob_e)].
Proof.
  split; [repeat split|].
  apply (owner_submits_request
           (Sample.http POST Sample.alice [("action", VStr "submit")])
           2 Sample.store Sample.alice_e Sample.bob_e
           (Sample.trip 2 (Some 11) (Some 12) 120%Z 125%Z true (Some "Hotel")
                        "reverted")
           12);
    reflexivity.
Defined.

(** ** The permissions, seen from the caller *)

(** X10.  The endpoints of the employees and those of the managers never serve
    the same caller: a caller whose profile is that of a manager is refused
    by the form, the edit, the action and the listing of the employees, and
    a caller whose profile is not is refused by the action and the listing
    of the managers; the refusal comes before the method or the request is
    looked at, and the store is left as it was. *)
Theorem manager_and_employee_endpoints_exclude_each_other
        (request : HttpRequest) (request_id : nat) (s : Store) (caller : Employee.t) :
  Employee_get_by_user (user request) s = Some caller ->
  (Employee.is_manager caller = true ->
   listing_requests_employee request s = (s, forbidden)
   /\ emp_request_form request s = (s, forbidden)
   /\ edit_request_employee request request_id s = (s, forbidden)
   /\ action_request_employee request request_id s = (s, forbidden))
  /\ (Employee.is_manager caller = false ->
      listing_requests_manager request s = (s, forbidden)
      /\ action_request_manager request request_id s = (s, forbidden)).
Proof.
  intros Hc. pose proof (profile_is_authenticated _ _ _ Hc) as Hu.
  unfold listing_requests_employee, emp_request_form, edit_request_employee,
    action_request_employee, listing_requests_manager, action_request_manager,
    api_view, IsAuthenticated, IsEmployee, IsManager.
  cbn [forallb]. rewrite Hu, Hc. cbn [negb andb].
  split; intros ->; cbn [negb andb]; repeat split.
Qed.

(** X10 on the sample store: Bob, a manager, and Alice, who is none. *)
Lemma manager_and_employee_endpoints_exclude_each_other_witness :
  let bob := Sample.http POST Sample.bob Sample.form in
  let alice := Sample.http POST Sample.alice [("action", VStr "approve")] in
  (Employee_get_by_user (user bob) Sample.store = Some Sample.bob_e
   /\ Employee_get_by_user (user alice) Sample.store = Some Sample.alice_e)
  /\ emp_request_form bob Sample.store = (Sample.store, forbidden)
  /\ action_request_manager alice 1 Sample.store = (Sample.store, forbidden).
Proof.
  split; [split; reflexivity|].
  destruct (manager_and_employee_endpoints_exclude_each_other
              (Sample.http POST Sample.bob Sample.form) 1 Sample.store
              Sample.bob_e eq_refl) as [Hbob _].
  destruct (manager_and_employee_endpoints_exclude_each_other
              (Sample.http POST Sample.alice [("action", VStr "approve")]) 1
              Sample.store Sample.alice_e eq_refl) as [_ Halice].
  split; [apply (Hbob eq_refl) | apply (Halice eq_refl)].
Defined.

(** X11.  No endpoint of the requests serves an anonymous caller: each of the
    nine answers that the caller is not authenticated, whatever the method
    and the payload, and leaves the store as it was. *)
Theorem anonymous_caller_is_turned_away
        (request : HttpRequest) (request_id : nat) (s : Store) :
  user request = None ->
  listing_requests_admin request s = (s, Raised NotAuthenticated)
  /\ view_request_employee request request_id s = (s, Raised NotAuthenticated)
  /\ close_request_admin request request_id s = (s, Raised NotAuthenticated)
  /\ listing_requests_manager request s = (s, Raised NotAuthenticated)
  /\ action_request_manager request request_id s = (s, Raised NotAuthenticated)
  /\ listing_requests_employee request s = (s, Raised NotAuthenticated)
  /\ edit_request_employee request request_id s = (s, Raised NotAuthenticated)
  /\ action_request_employee request request_id s = (s, Raised NotAuthenticated)
  /\ emp_request_form request s = (s, Raised NotAuthenticated).
Proof.
  intros Hu.
  unfold listing_requests_admin, view_request_employee, close_request_admin,
    listing_requests_manager, action_request_manager, listing_requests_employee,
    edit_request_employee, action_request_employee, emp_request_form,
    api_view, IsAuthenticated.
  cbn [forallb]. rewrite Hu. cbn [is_authenticated andb]. repeat split.
Qed.

(** X11 on the sample store. *)
Lemma anonymous_caller_is_turned_away_witness :
  view_request_employee (Demo.anonymous GET []) 1 Sample.store
  = (Sample.store, Raised NotAuthenticated)
  /\ emp_request_form (Demo.anonymous POST Sample.form) Sample.store
     = (Sample.store, Raised NotAuthenticated).
Proof.
  split.
  - apply (anonymous_caller_is_turned_away (Demo.anonymous GET []) 1 Sample.store).
    reflexivity.
  - apply (anonymous_caller_is_turned_away
             (Demo.anonymous POST Sample.form) 1 Sample.store).
    reflexivity.
Defined.

(** X12.  Reading never writes: the three listings and the view of one request
    leave the store as it was, whoever calls them, with whatever method and
    parameters, and whether they answer with rows, with a message or with an
    error. *)
Theorem reading_leaves_the_store_alone
        (l : Listing) (request : HttpRequest) (request_id : nat) (s : Store) :
  fst (listing l request s) = s
  /\ fst (view_request_employee request request_id s) = s.
Proof.
  split.
  - destruct l; cbn [listing].
    + unfold listing_requests_admin, api_view.
      destruct (forallb _ _); [|destruct (is_authenticated _); reflexivity].
      destruct (existsb _ _); [|reflexivity].
      destruct (method_eqb _ _); [|reflexivity].
      rewrite run_bind. unfold get_or at 1.
      destruct (Admin_get_by_user _ _); [|reflexivity].
      rewrite run_bind. unfold reads at 1. rewrite run_bind.
      pose proof (filter_and_sort_incl (query_params request) (requests s) s) as H.
      destruct (filter_and_sort _ _ s) as [s' [o|rows]]; destruct H as [-> H];
        [reflexivity|].
      apply respond_rows_returned.
    + unfold listing_requests_manager, api_view.
      destruct (forallb _ _); [|destruct (is_authenticated _); reflexivity].
      destruct (existsb _ _); [|reflexivity].
      destruct (method_eqb _ _); [|reflexivity].
      rewrite run_bind. unfold get_or at 1.
      destruct (Employee_get_by_user _ _) as [manager|]; [|reflexivity].
      rewrite run_bind. unfold reads at 1. rewrite run_bind.
      match goal with
      | |- context [filter_and_sort ?q ?rows s] =>
          pose proof (filter_and_sort_incl q rows s) as H;
          destruct (filter_and_sort q rows s) as [s' [o|rows']]
      end; destruct H as [-> H]; [reflexivity|].
      apply respond_rows_returned.
    + unfold listing_requests_employee, api_view.
      destruct (forallb _ _); [|destruct (is_authenticated _); reflexivity].
      destruct (existsb _ _); [|reflexivity].
      destruct (method_eqb _ _); [|reflexivity].
      rewrite run_bind. unfold get_or at 1.
      destruct (Employee_get_by_user _ _) as [employee|]; [|reflexivity].
      rewrite run_bind. unfold leave_if at 1.
      destruct (Employee.is_manager employee); [reflexivity|].
      unfold pure at 1. rewrite run_bind. unfold reads at 1.
      apply respond_rows_returned.
  - unfold view_request_employee, api_view.
    destruct (forallb _ _); [|destruct (is_authenticated _); reflexivity].
    destruct (existsb _ _); [|reflexivity].
    destruct (method_eqb _ _); [|reflexivity].
    unfold run, bind, get_or, pure. now destruct (Request_get request_id s).
Qed.

(** ** What an action writes *)

(** Saving a request neither adds nor removes a row. *)
Lemma ids_after_save r s :
  map Request.id (requests (Request_save r s)) = map Request.id (requests s).
Proof.
  unfold Request_save, set_requests. cbn [requests]. rewrite map_map.
  apply map_ext_in. intros row _.
  destruct (Nat.eqb_spec (Request.id row) (Request.id r)); congruence.
Qed.

Lemma frame_untouched s o :
  succeeded o = false -> writes_requests_and_mail_only s (s, o).
Proof.
  intros H. unfold writes_requests_and_mail_only. cbn [fst snd]. rewrite H.
  repeat split. exists []. now rewrite app_nil_r.
Qed.

Lemma frame_saved s r o :
  succeeded o = false -> writes_requests_and_mail_only s (Request_save r s, o).
Proof.
  intros H. unfold writes_requests_and_mail_only. cbn [fst snd]. rewrite H.
  repeat split; [apply ids_after_save|]. exists []. now rewrite app_nil_r.
Qed.

Lemma frame_done s s1 r vd m body :
  admins s1 = admins s -> employees s1 = employees s ->
  next_request_id s1 = next_request_id s ->
  map Request.id (requests s1) = map Request.id (requests s) ->
  outbox s1 = outbox s ->
  writes_requests_and_mail_only
    s (send_mail m (snd (save_update r vd [] s1)), Response body HTTP_200_OK).
Proof.
  intros Ha He Hn Hr Ho. unfold writes_requests_and_mail_only.
  cbn [fst snd save_update succeeded].
  repeat split; cbn [send_mail admins employees next_request_id requests outbox
                       Request_save set_requests]; auto.
  - fold (Request_save (assign r (merge vd [])) s1).
    change (map Request.id (requests (Request_save (assign r (merge vd [])) s1))
            = map Request.id (requests s)).
    now rewrite ids_after_save.
  - exists [m]. now rewrite Ho.
Qed.

Ltac stop := first [apply frame_untouched; reflexivity | apply frame_saved; reflexivity].



(** X13.  A POST to an action endpoint (approve, reject, revert, submit, close)
    writes rows of requests and mail only: the admins, the employees and the
    next key stay, no request is added or removed, and the outbox grows by
    one mail exactly when the action answers with success, and by none
    otherwise. *)
Theorem action_writes_requests_and_mail_only
        (a : Lifecycle) (request : HttpRequest) (request_id : nat) (s : Store) :
  method request = POST ->
  writes_requests_and_mail_only s (endpoint a request request_id s).
Proof.
  intros Hm.
  assert (Hmanager :
            writes_requests_and_mail_only s (action_request_manager request request_id s)).
  { unfold action_request_manager, api_view.
    destruct (forallb _ _); [|destruct (is_authenticated _); stop].
    destruct (existsb _ _); [|stop].
    destruct (method_eqb _ _); [|stop].
    rewrite run_bind. unfold get_or at 1.
    destruct (Request_get request_id s) as [r|]; [|stop].
    destruct (_ =? "submitted"); [|stop].
    rewrite run_bind. unfold leave_if at 1.
    destruct (_ || _); [stop|]. unfold pure at 1.
    rewrite run_bind.
    destruct (is_str _ "approve"); [|destruct (is_str _ "reject");
                                      [|destruct (is_str _ "revert"); [|stop]]].
    all: unfold pure at 1; rewrite run_bind; unfold deref.
    all: cbn [Request.set_resubmission_request Request.employee].
    all: destruct (Request.employee r) as [pk|]; [|stop].
    all: unfold get_or at 1; destruct (Employee_get pk s) as [employee|]; [|stop].
    all: rewrite run_bind; unfold reads at 1.
    all: match goal with
         | |- context [is_valid true ?d] => destruct (is_valid true d) as [errors|vd]
         end; [stop|].
    all: unfold run, bind, modify, pure; apply frame_done; reflexivity. }
  assert (Hclose :
            writes_requests_and_mail_only s (close_request_admin request request_id s)).
  { unfold close_request_admin, api_view.
    destruct (forallb _ _); [|destruct (is_authenticated _); stop].
    destruct (existsb _ _); [|stop].
    destruct (method_eqb _ _); [|stop].
    rewrite run_bind. unfold get_or at 1.
    destruct (Request_get request_id s) as [r|]; [|stop].
    destruct (_ =? "approved"); [|stop].
    rewrite run_bind. unfold leave_if at 1.
    destruct (negb _); [stop|]. unfold pure at 1.
    rewrite run_bind.
    destruct (is_str _ "close"); [|stop].
    unfold pure at 1. rewrite run_bind. unfold deref.
    destruct (Request.employee r) as [pk|]; [|stop].
    unfold get_or at 1. destruct (Employee_get pk s) as [employee|]; [|stop].
    match goal with
    | |- context [is_valid true ?d] => destruct (is_valid true d) as [errors|vd]
    end; [stop|].
    unfold run, bind, modify, pure. apply frame_done; reflexivity. }
  assert (Hsubmit :
            writes_requests_and_mail_only s (action_request_employee request request_id s)).
  { unfold action_request_employee, api_view.
    destruct (forallb _ _); [|destruct (is_authenticated _); stop].
    destruct (existsb _ _); [|stop].
    rewrite Hm. cbn [method_eqb].
    { rewrite run_bind. unfold get_or at 1.
      destruct (Request_get request_id s) as [r|]; [|stop].
      rewrite run_bind. unfold get_or at 1.
      destruct (Employee_get_by_user _ _) as [employee|]; [|stop].
      rewrite run_bind. unfold leave_if at 1.
      destruct (Request.employee r) as [pk|]; [|stop]. unfold pure at 1.
      rewrite run_bind. unfold leave_if at 1.
      destruct (is_not _ _); [stop|]. unfold pure at 1.
      rewrite run_bind. unfold leave_if at 1.
      destruct (negb (is_str _ _)); [stop|]. unfold pure at 1.
      rewrite run_bind. unfold leave_if at 1.
      destruct (negb (str_in _ _)); [stop|]. unfold pure at 1.
      rewrite run_bind.
      destruct (_ =? "reverted") eqn:Hrev.
      + unfold bind at 1, modify at 1, pure at 1.
        rewrite run_bind.
        cbn [Request.set_is_resubmitted Request.status_of_request Request.manager].
        rewrite Hrev. unfold pure at 1. rewrite run_bind. unfold deref.
        destruct (Request.manager r) as [m|]; [|stop].
        unfold get_or at 1. rewrite Employee_get_after_save.
        destruct (Employee_get m s) as [manager|]; [|stop].
        destruct (is_valid true _) as [errors|vd]; [stop|].
        unfold run, bind, modify, pure. apply frame_done; try reflexivity.
        apply ids_after_save.
      + unfold pure at 1. rewrite run_bind. rewrite Hrev.
        unfold pure at 1. rewrite run_bind. unfold deref.
        destruct (Request.manager r) as [m|]; [|stop].
        unfold get_or at 1. destruct (Employee_get m s) as [manager|]; [|stop].
        destruct (is_valid true _) as [errors|vd]; [stop|].
        unfold run, bind, modify, pure. apply frame_done; reflexivity. }
  }
  destruct a; cbn [endpoint]; assumption.
Qed.

(** X13 on the sample store: Carol rejects request 1. *)
Lemma action_writes_requests_and_mail_only_witness :
  let request :=
    Sample.http POST Sample.carol
                [("action", VStr "reject"); ("note", VStr "over budget")] in
  method request = POST
  /\ writes_requests_and_mail_only Sample.store
                                   (endpoint Reject request 1 Sample.store).
Proof.
  split; [reflexivity|].
  apply (action_writes_requests_and_mail_only
           Reject
           (Sample.http POST Sample.carol
                        [("action", VStr "reject"); ("note", VStr "over budget")])
           1 Sample.store).
  reflexivity.
Defined.

Lemma nothing_done s o : declines_without_writing s (s, o).
Proof. intros _. reflexivity. Qed.

Lemma all_done s s' body :
  declines_without_writing s (s', Response body HTTP_200_OK).
Proof. intros H. discriminate H. Qed.

Ltac halt := apply nothing_done.



(** X14.  A decision of a manager or an admin (approve, reject, revert,
    close) that is declined leaves no trace.  When the endpoint answers with
    a response other than success, be it a refusal, a not-found message or
    the errors of validation, or when the decorators refuse the caller or
    the method, the store is as it was: every test of the two views comes
    before their first write.  Nothing is said of an exception that escapes
    the view; the views save the request before they hand the mail over, so
    an error of the mail backend would come after the write. *)
Theorem declined_decision_changes_nothing
        (a : Lifecycle) (request : HttpRequest) (request_id : nat) (s : Store) :
  a <> Submit ->
  declined (snd (endpoint a request request_id s)) = true ->
  fst (endpoint a request request_id s) = s.
Proof.
  intros Ha.
  assert (Hmanager :
            declines_without_writing s (action_request_manager request request_id s)).
  { unfold action_request_manager, api_view.
    destruct (forallb _ _); [|destruct (is_authenticated _); halt].
    destruct (existsb _ _); [|halt].
    destruct (method_eqb _ _); [|halt].
    rewrite run_bind. unfold get_or at 1.
    destruct (Request_get request_id s) as [r|]; [|halt].
    destruct (_ =? "submitted"); [|halt].
    rewrite run_bind. unfold leave_if at 1.
    destruct (_ || _); [halt|]. unfold pure at 1.
    rewrite run_bind.
    destruct (is_str _ "approve"); [|destruct (is_str _ "reject");
                                      [|destruct (is_str _ "revert"); [|halt]]].
    all: unfold pure at 1; rewrite run_bind; unfold deref.
    all: cbn [Request.set_resubmission_request Request.employee].
    all: destruct (Request.employee r) as [pk|]; [|halt].
    all: unfold get_or at 1; destruct (Employee_get pk s) as [employee|]; [|halt].
    all: rewrite run_bind; unfold reads at 1.
    all: match goal with
         | |- context [is_valid true ?d] => destruct (is_valid true d) as [errors|vd]
         end; [halt|].
    all: unfold run, bind, modify, pure; apply all_done. }
  assert (Hclose :
            declines_without_writing s (close_request_admin request request_id s)).
  { unfold close_request_admin, api_view.
    destruct (forallb _ _); [|destruct (is_authenticated _); halt].
    destruct (existsb _ _); [|halt].
    destruct (method_eqb _ _); [|halt].
    rewrite run_bind. unfold get_or at 1.
    destruct (Request_get request_id s) as [r|]; [|halt].
    destruct (_ =? "approved"); [|halt].
    rewrite run_bind. unfold leave_if at 1.
    destruct (negb _); [halt|]. unfold pure at 1.
    rewrite run_bind.
    destruct (is_str _ "close"); [|halt].
    unfold pure at 1. rewrite run_bind. unfold deref.
    destruct (Request.employee r) as [pk|]; [|halt].
    unfold get_or at 1. destruct (Employee_get pk s) as [employee|]; [|halt].
    match goal with
    | |- context [is_valid true ?d] => destruct (is_valid true d) as [errors|vd]
    end; [halt|].
    unfold run, bind, modify, pure. apply all_done. }
  destruct a; cbn [endpoint]; try assumption. now elim Ha.
Qed.

(** X14 on the sample store: Bob approves request 2, which is not
    submitted, and is answered with status 400. *)
Lemma declined_decision_changes_nothing_witness :
  let request := Sample.http POST Sample.bob [("action", VStr "approve")] in
  (Approve <> Submit
   /\ snd (endpoint Approve request 2 Sample.store)
      = Response (JMessage "error" "Cannot Proceed with the action!")
                 HTTP_400_BAD_REQUEST
   /\ declined (snd (endpoint Approve request 2 Sample.store)) = true)
  /\ fst (endpoint Approve request 2 Sample.store) = Sample.store.
Proof.
  split; [split; [discriminate | split; reflexivity]|].
  apply (declined_decision_changes_nothing
           Approve (Sample.http POST Sample.bob [("action", VStr "approve")])
           2 Sample.store);
    [discriminate | reflexivity].
Defined.

(** X15.  Submission is not all or nothing.  When the owner submits a reverted
    request that has no manager, the view first saves the request as
    resubmitted and then fails on the missing manager: the caller gets an
    exception, the request is still reverted, it is marked as resubmitted all
    the same, and no mail is sent. *)
Theorem resubmission_without_manager_fails_after_writing
        (request : HttpRequest) (request_id : nat) (s : Store)
        (employee : Employee.t) (r : Request.t) :
  method request = POST ->
  Employee_get_by_user (user request) s = Some employee ->
  Employee.is_manager employee = false ->
  Request_get request_id s = Some r ->
  Request.employee r = Some (Employee.id employee) ->
  Request.status_of_request r = "reverted" ->
  get (data request) "action" = VStr "submit" ->
  Request.manager r = None ->
  let result := action_request_employee request request_id s in
  snd result = Unhandled (AttributeError "'NoneType' object has no attribute 'user'")
  /\ Request_get request_id (fst result)
     = Some (Request.set_is_resubmitted true r)
  /\ outbox (fst result) = outbox s.
Proof.
  intros Hm He Hrole Hget Hown Hst Hact Hmgr result. subst result.
  unfold action_request_employee. enter Hm.
  unfold IsAuthenticated, IsEmployee. cbn [forallb].
  rewrite (profile_is_authenticated _ _ _ He), He, Hrole. cbn [negb andb].
  unfold run, bind, get_or, leave_if, leave, pure, modify. rewrite Hget, He.
  unfold is_not. rewrite Hown, Nat.eqb_refl, Hact, Hst.
  cbn [negb is_str value_eqb String.eqb Ascii.eqb Bool.eqb str_in existsb orb].
  cbn [Request.set_is_resubmitted Request.status_of_request Request.manager].
  rewrite Hst. cbn [String.eqb Ascii.eqb Bool.eqb]. unfold deref.
  cbn [Request.set_is_resubmitted Request.manager]. rewrite Hmgr.
  unfold leave. cbn [fst snd]. split; [reflexivity|]. split; [|reflexivity].
  apply Request_get_save with (r := r);
    [exact Hget | exact (Request_get_id _ _ _ Hget)].
Qed.

(** X15 on the larger store: Alice submits request 6 again. *)
Lemma resubmission_without_manager_fails_after_writing_witness :
  let request := Sample.http POST Sample.alice [("action", VStr "submit")] in
  let r := Sample.trip 6 (Some 11) None 160%Z 161%Z false None "reverted" in
  let result := action_request_employee request 6 Demo.store in
  (Employee_get_by_user (user request) Demo.store = Some Sample.alice_e
   /\ Request_get 6 Demo.store = Some r)
  /\ snd result
     = Unhandled (AttributeError "'NoneType' object has no attribute 'user'")
  /\ Request_get 6 (fst result) = Some (Request.set_is_resubmitted true r)
  /\ outbox (fst result) = outbox Demo.store.
Proof.
  split; [split; reflexivity|].
  apply (resubmission_without_manager_fails_after_writing
           (Sample.http POST Sample.alice [("action", VStr "submit")])
           6 Demo.store Sample.alice_e
           (Sample.trip 6 (Some 11) None 160%Z 161%Z false None "reverted"));
    reflexivity.
Defined.

(** ** The order of a listing *)

Lemma given_some v x : given v = Some x -> v = Some x /\ x <> "".
Proof.
  unfold given. destruct v as [t|]; [|discriminate].
  destruct (String.eqb_spec t ""); [discriminate|]. now intros [= <-].
Qed.

Lemma filter_and_sort_unknown_field q sort rows s :
  str_in (lstrip "-" sort) valid_sort_options = false ->
  filter_and_sort
    {| Query.status := Query.status q; Query.sort_by := Some sort;
       Query.start_date := Query.start_date q; Query.end_date := Query.end_date q;
       Query.search_name := Query.search_name q;
       Query.purpose_of_travel := Query.purpose_of_travel q |} rows s
  = filter_and_sort
      {| Query.status := Query.status q; Query.sort_by := None;
         Query.start_date := Query.start_date q; Query.end_date := Query.end_date q;
         Query.search_name := Query.search_name q;
         Query.purpose_of_travel := Query.purpose_of_travel q |} rows s.
Proof.
  intros Hunknown. unfold filter_and_sort, bind. cbn [Query.status Query.sort_by
    Query.start_date Query.end_date Query.search_name].
  destruct (filter_date_range _ _ _ s) as [s' [o|dated]]; [reflexivity|].
  cbn [reads given]. destruct (sort =? ""); [reflexivity|]. now rewrite Hunknown.
Qed.

(** X16.  A sort field that is none of the two sort options, the date of the
    request and the start date, is ignored: the listing answers as it does
    without the parameter, and reports no error. *)
Theorem unknown_sort_field_is_ignored
        (l : Listing) (request : HttpRequest) (s : Store) (sort : string) :
  str_in (lstrip "-" sort) valid_sort_options = false ->
  listing l (with_sort_by (Some sort) request) s
  = listing l (with_sort_by None request) s.
Proof.
  intros Hunknown.
  destruct l; cbn [listing];
    unfold listing_requests_admin, listing_requests_manager,
      listing_requests_employee, api_view, IsAuthenticated, IsAdmin, IsManager,
      IsEmployee; cbn [forallb with_sort_by user method query_params];
    try reflexivity.
  - destruct (_ && _); [|reflexivity]. destruct (existsb _ _); [|reflexivity].
    destruct (method_eqb _ _); [|reflexivity].
    unfold run, bind, get_or, reads.
    destruct (Admin_get_by_user _ _); [|reflexivity].
    now rewrite filter_and_sort_unknown_field.
  - destruct (_ && _); [|reflexivity]. destruct (existsb _ _); [|reflexivity].
    destruct (method_eqb _ _); [|reflexivity].
    unfold run, bind, get_or, reads.
    destruct (Employee_get_by_user _ _); [|reflexivity].
    now rewrite filter_and_sort_unknown_field.
Qed.

(** X16 on the sample store: the admin sorts by destination. *)
Lemma unknown_sort_field_is_ignored_witness :
  let request := Sample.query Sample.root Query.empty in
  str_in (lstrip "-" "-to_where") valid_sort_options = false
  /\ listing AdminListing (with_sort_by (Some "-to_where") request) Sample.store
     = listing AdminListing (with_sort_by None request) Sample.store.
Proof.
  split; [reflexivity|].
  apply (unknown_sort_field_is_ignored
           AdminListing (Sample.query Sample.root Query.empty) Sample.store
           "-to_where").
  reflexivity.
Defined.

Lemma insert_by_sorted before (R : Request.t -> Request.t -> Prop) key r rows :
  (forall x y, before (key x) (key y) = true -> R x y) ->
  (forall x y, before (key x) (key y) = false -> R y x) ->
  Sorted R rows -> Sorted R (insert_by before key r rows).
Proof.
  intros Hyes Hno.
  induction rows as [|x rows IH]; intros Hs; cbn [insert_by].
  - repeat constructor.
  - inversion Hs as [|? ? Hrest Hhd]; subst.
    destruct (before (key x) (key r)) eqn:Hb.
    + constructor; [now apply IH|].
      destruct rows as [|y rows]; cbn [insert_by]; [constructor; auto|].
      destruct (before (key y) (key r));
        constructor; [now inversion Hhd | auto].
    + constructor; [exact Hs|]. constructor. auto.
Qed.

Lemma order_by_sorted descending key rows :
  Sorted (ordered descending key) (order_by descending key rows).
Proof.
  unfold order_by. induction rows as [|x rows IH]; cbn [fold_right].
  - constructor.
  - apply insert_by_sorted; [| |exact IH]; intros a b H; unfold ordered;
      destruct descending; first [apply Z.ltb_lt in H | apply Z.ltb_ge in H]; lia.
Qed.

Lemma filter_and_sort_sorted q rows s sort :
  given (Query.sort_by q) = Some sort ->
  str_in (lstrip "-" sort) valid_sort_options = true ->
  match filter_and_sort q rows s with
  | (_, inr rows') =>
      Sorted (ordered (startswith "-" sort) (sort_key (lstrip "-" sort))) rows'
  | (_, inl _) => True
  end.
Proof.
  intros Hsort Hvalid. unfold filter_and_sort, bind.
  destruct (filter_date_range _ _ _ s) as [s' [o|dated]]; [exact I|].
  cbn [reads pure]. rewrite Hsort, Hvalid. apply order_by_sorted.
Qed.

(** X17.  The listing of the admin and that of the manager come in the order
    asked for: with one of the two sort options as sort field, the rows
    returned are sorted by that column, ascending, or descending when the
    field is given with a leading minus sign.  (The listing of the employee
    does not read the parameter.) *)
Theorem listing_is_sorted_as_asked
        (l : Listing) (request : HttpRequest) (s : Store) (sort : string) :
  given (Query.sort_by (query_params request)) = Some sort ->
  str_in (lstrip "-" sort) valid_sort_options = true ->
  l <> EmployeeListing ->
  Sorted (ordered (startswith "-" sort) (sort_key (lstrip "-" sort)))
         (returned (snd (listing l request s))).
Proof.
  intros Hsort Hvalid Hl.
  destruct l; cbn [listing]; [| |now elim Hl].
  - unfold listing_requests_admin, api_view.
    destruct (forallb _ _); [|destruct (is_authenticated _); constructor].
    destruct (existsb _ _); [|constructor].
    destruct (method_eqb _ _); [|constructor].
    rewrite run_bind. unfold get_or at 1.
    destruct (Admin_get_by_user _ _); [|constructor].
    rewrite run_bind. unfold reads at 1. rewrite run_bind.
    pose proof (filter_and_sort_sorted (query_params request) (requests s) s sort
                  Hsort Hvalid) as H.
    pose proof (filter_and_sort_incl (query_params request) (requests s) s) as Hi.
    destruct (filter_and_sort _ _ s) as [s' [o|rows]]; destruct Hi as [-> Hi].
    + cbn [snd]. rewrite Hi. constructor.
    + destruct (respond_rows_returned "No requests found" rows s) as [_ ->].
      exact H.
  - unfold listing_requests_manager, api_view.
    destruct (forallb _ _); [|destruct (is_authenticated _); constructor].
    destruct (existsb _ _); [|constructor].
    destruct (method_eqb _ _); [|constructor].
    rewrite run_bind. unfold get_or at 1.
    destruct (Employee_get_by_user _ _) as [manager|]; [|constructor].
    rewrite run_bind. unfold reads at 1. rewrite run_bind.
    match goal with
    | |- context [filter_and_sort ?q ?rows s] =>
        pose proof (filter_and_sort_sorted q rows s sort Hsort Hvalid) as H;
        pose proof (filter_and_sort_incl q rows s) as Hi;
        destruct (filter_and_sort q rows s) as [s' [o|rows']]
    end; destruct Hi as [-> Hi].
    + cbn [snd]. rewrite Hi. constructor.
    + destruct (respond_rows_returned "No requests found" rows' s) as [_ ->].
      exact H.
Qed.

(** X17 on the sample store: the admin asks for the latest departure
    first. *)
Lemma listing_is_sorted_as_asked_witness :
  let request :=
    Sample.query Sample.root
      {| Query.status := None; Query.sort_by := Some "-from_date";
         Query.start_date := None; Query.end_date := None;
         Query.search_name := None; Query.purpose_of_travel := None |} in
  (given (Query.sort_by (query_params request)) = Some "-from_date"
   /\ map Request.id (returned (snd (listing AdminListing request Sample.store)))
      = [4; 3; 2; 1])
  /\ Sorted (ordered true Request.from_date)
            (returned (snd (listing AdminListing request Sample.store))).
Proof.
  split; [split; reflexivity|].
  apply (listing_is_sorted_as_asked
           AdminListing
           (Sample.query Sample.root
              {| Query.status := None; Query.sort_by := Some "-from_date";
                 Query.start_date := None; Query.end_date := None;
                 Query.search_name := None; Query.purpose_of_travel := None |})
           Sample.store "-from_date");
    [reflexivity | reflexivity | discriminate].
Defined.

(** ** The logins *)

Lemma find_last {A} (f : A -> bool) (l : list A) (x : A) :
  find f l = None -> f x = true -> find f (l ++ [x]) = Some x.
Proof.
  induction l as [|y l IH]; cbn [find app]; intros Hnone Hx.
  - now rewrite Hx.
  - destruct (f y); [discriminate | now apply IH].
Qed.

Section LoginFacts.

Variable authenticate : Value -> Value -> option User.t.
Variable generate_key : Tokens -> string.

(** A second [get_or_create] finds the token of the first. *)
Lemma get_or_create_again u tokens :
  Token_get_or_create generate_key u
                      (snd (Token_get_or_create generate_key u tokens))
  = (fst (Token_get_or_create generate_key u tokens),
     snd (Token_get_or_create generate_key u tokens)).
Proof.
  unfold Token_get_or_create.
  destruct (find _ tokens) as [t|] eqn:Hfind; cbn [fst snd].
  - now rewrite Hfind.
  - rewrite (find_last _ _ _ Hfind); [reflexivity|]. apply Nat.eqb_refl.
Qed.

(** The token is in the table afterwards, and the table grew by that entry
    at most. *)
Lemma get_or_create_stores u tokens :
  In (User.id u, fst (Token_get_or_create generate_key u tokens))
     (snd (Token_get_or_create generate_key u tokens))
  /\ (snd (Token_get_or_create generate_key u tokens) = tokens
      \/ snd (Token_get_or_create generate_key u tokens)
         = (tokens
            ++ [(User.id u, fst (Token_get_or_create generate_key u tokens))])%list).
Proof.
  unfold Token_get_or_create.
  destruct (find _ tokens) as [t|] eqn:Hfind; cbn [fst snd].
  - split; [|now left]. apply find_some in Hfind as [Hin Hid].
    apply Nat.eqb_eq in Hid. rewrite <- Hid. now destruct t.
  - split; [|now right]. apply in_or_app. right. now left.
Qed.

(** The two ways a login can end. *)
Lemma login_cases p request s tokens :
  (fst (login authenticate generate_key p request s tokens) = tokens
   /\ token_of (snd (login authenticate generate_key p request s tokens)) = None)
  \/ exists user,
      method request = POST
      /\ is_true (get (data request) "username")
          && is_true (get (data request) "password") = true
      /\ authenticate (get (data request) "username") (get (data request) "password")
         = Some user
      /\ admitted p user s
      /\ login authenticate generate_key p request s tokens
         = (snd (Token_get_or_create generate_key user tokens),
            Directory (DToken (fst (Token_get_or_create generate_key user tokens)))
                      HTTP_200_OK).
Proof.
  destruct p; cbn [login admitted];
    [unfold employee_login | unfold manager_login | unfold admin_login];
    (destruct (method request) eqn:Hm; cbn [method_eqb negb]; try (now left));
    (destruct (is_true _ && is_true _) eqn:Hf; cbn [negb]; [|now left]);
    (destruct (authenticate _ _) as [user|] eqn:Hauth; [|now left]).
  - destruct (Employee_get_by_user _ _) as [employee|] eqn:Hprofile; [|now left].
    destruct (Employee.is_manager employee) eqn:Hrole; [now left|].
    destruct (User.is_superuser user) eqn:Hs; [now left|].
    right. exists user. cbn [negb andb].
    destruct (Token_get_or_create generate_key user tokens).
    repeat split; try assumption. exists employee. auto.
  - destruct (Employee_get_by_user _ _) as [employee|] eqn:Hprofile; [|now left].
    destruct (Employee.is_manager employee) eqn:Hrole; [|now left].
    right. exists user.
    destruct (Token_get_or_create generate_key user tokens).
    repeat split; try assumption. exists employee. auto.
  - destruct (User.is_superuser user) eqn:Hs; [|now left].
    right. exists user.
    destruct (Token_get_or_create generate_key user tokens).
    repeat split; assumption.
Qed.

(** A user with the role of the portal and the right credentials is let in. *)
Lemma login_admits p request s tokens user :
  method request = POST ->
  is_true (get (data request) "username")
  && is_true (get (data request) "password") = true ->
  authenticate (get (data request) "username") (get (data request) "password")
  = Some user ->
  admitted p user s ->
  login authenticate generate_key p request s tokens
  = (snd (Token_get_or_create generate_key user tokens),
     Directory (DToken (fst (Token_get_or_create generate_key user tokens)))
               HTTP_200_OK).
Proof.
  intros Hm Hf Hauth Hrole.
  destruct p; cbn [login admitted] in *;
    [unfold employee_login | unfold manager_login | unfold admin_login];
    rewrite Hm, Hf, Hauth; cbn [method_eqb negb].
  - destruct Hrole as (employee & -> & -> & ->). cbn [negb andb].
    now destruct (Token_get_or_create generate_key user tokens).
  - destruct Hrole as (employee & -> & ->).
    now destruct (Token_get_or_create generate_key user tokens).
  - rewrite Hrole. now destruct (Token_get_or_create generate_key user tokens).
Qed.

(** X18.  The portal of the employees is kept apart from the other two:
    credentials that get a token from the employee login get none from the
    manager login and none from the admin login, on the same store. *)
Theorem employee_portal_excludes_the_others
        (request request' : HttpRequest) (s : Store) (tokens tokens' : Tokens)
        (key : string) :
  get (data request') "username" = get (data request) "username" ->
  get (data request') "password" = get (data request) "password" ->
  token_of (snd (employee_login authenticate generate_key request s tokens))
  = Some key ->
  token_of (snd (manager_login authenticate generate_key request' s tokens')) = None
  /\ token_of (snd (admin_login authenticate generate_key request' s tokens')) = None.
Proof.
  intros Hu Hp Hkey.
  destruct (login_cases EmployeePortal request s tokens)
    as [[_ Hnone]|(user & _ & _ & Hauth & (employee & Hprofile & Hrole & Hsuper) & _)];
    [cbn [login] in Hnone; congruence|].
  split.
  - destruct (login_cases ManagerPortal request' s tokens')
      as [[_ Hnone]|(user' & _ & _ & Hauth' & (employee' & Hprofile' & Hrole') & _)];
      [exact Hnone|].
    rewrite Hu, Hp in Hauth'. congruence.
  - destruct (login_cases AdminPortal request' s tokens')
      as [[_ Hnone]|(user' & _ & _ & Hauth' & Hsuper' & _)]; [exact Hnone|].
    rewrite Hu, Hp in Hauth'. cbn [admitted] in Hsuper'. congruence.
Qed.

(** X19.  Logging in again, at any of the three portals, gives the same
    token and adds none to the table. *)
Theorem second_login_returns_the_same_token
        (p : Portal) (request : HttpRequest) (s : Store) (tokens : Tokens)
        (key : string) :
  token_of (snd (login authenticate generate_key p request s tokens)) = Some key ->
  login authenticate generate_key p request s
        (fst (login authenticate generate_key p request s tokens))
  = (fst (login authenticate generate_key p request s tokens),
     Directory (DToken key) HTTP_200_OK).
Proof.
  intros Hkey.
  destruct (login_cases p request s tokens)
    as [[_ Hnone]|(user & Hm & Hf & Hauth & Hrole & Hrun)]; [congruence|].
  rewrite Hrun in Hkey. cbn [snd token_of] in Hkey. injection Hkey as <-.
  rewrite (login_admits p request s _ user Hm Hf Hauth Hrole).
  rewrite Hrun. cbn [fst]. now rewrite get_or_create_again.
Qed.

(** X20.  A token goes to the user whose credentials were checked and who
    has the role of the portal: it is stored under that user, and the table
    grows by that entry at most.  A login that gives no token stores
    nothing. *)
Theorem token_goes_to_the_authenticated_user_of_the_portal
        (p : Portal) (request : HttpRequest) (s : Store) (tokens : Tokens) :
  match token_of (snd (login authenticate generate_key p request s tokens)) with
  | Some key =>
      exists user,
        authenticate (get (data request) "username") (get (data request) "password")
        = Some user
        /\ admitted p user s
        /\ In (User.id user, key)
              (fst (login authenticate generate_key p request s tokens))
        /\ (fst (login authenticate generate_key p request s tokens) = tokens
            \/ fst (login authenticate generate_key p request s tokens)
               = (tokens ++ [(User.id user, key)])%list)
  | None => fst (login authenticate generate_key p request s tokens) = tokens
  end.
Proof.
  destruct (login_cases p request s tokens)
    as [[Hsame ->]|(user & Hm & Hf & Hauth & Hrole & ->)]; [exact Hsame|].
  cbn [fst snd token_of]. exists user.
  destruct (get_or_create_stores user tokens) as [Hin Hgrow]. auto.
Qed.

End LoginFacts.

(** X18 on the sample store: Alice, an employee who is no manager, at the
    three portals. *)
Lemma employee_portal_excludes_the_others_witness :
  let request := Demo.anonymous POST (Demo.credentials "alice") in
  token_of (snd (employee_login Demo.authenticate Demo.generate_key request
                                Sample.store []))
  = Some "key0"
  /\ token_of (snd (manager_login Demo.authenticate Demo.generate_key request
                                  Sample.store []))
     = None
  /\ token_of (snd (admin_login Demo.authenticate Demo.generate_key request
                                Sample.store []))
     = None.
Proof.
  split; [reflexivity|].
  apply (employee_portal_excludes_the_others
           Demo.authenticate Demo.generate_key
           (Demo.anonymous POST (Demo.credentials "alice"))
           (Demo.anonymous POST (Demo.credentials "alice"))
           Sample.store [] [] "key0");
    reflexivity.
Defined.

(** X19 on the sample store: Bob logs in twice at the portal of the
    managers. *)
Lemma second_login_returns_the_same_token_witness :
  let request := Demo.anonymous POST (Demo.credentials "bob") in
  let first :=
    login Demo.authenticate Demo.generate_key ManagerPortal request Sample.store
          [(1, "key0")] in
  first = ([(1, "key0"); (2, "key1")], Directory (DToken "key1") HTTP_200_OK)
  /\ login Demo.authenticate Demo.generate_key ManagerPortal request Sample.store
           (fst first)
     = (fst first, Directory (DToken "key1") HTTP_200_OK).
Proof.
  split; [reflexivity|].
  apply (second_login_returns_the_same_token
           Demo.authenticate Demo.generate_key ManagerPortal
           (Demo.anonymous POST (Demo.credentials "bob")) Sample.store
           [(1, "key0")] "key1").
  reflexivity.
Defined.

(** ** The employee directory *)

(** Enter a decorated directory view whose method is known. *)

Ltac enter_directory H :=
  unfold api_view_directory; rewrite H; cbn [existsb method_eqb negb orb].



(** X21.  The details of the caller never write and never fail with an
    exception, whoever calls and with whatever method; and an employee who
    has no manager is answered with the key, the name and the text
    [No Manager] in the place of the name of the manager. *)
Theorem employee_details_handle_a_missing_manager
        (request : HttpRequest) (s : Store) :
  fst (get_logged_in_employee_details request s) = s
  /\ crashed (snd (get_logged_in_employee_details request s)) = false
  /\ forall employee,
      method request = GET ->
      Employee_get_by_user (user request) s = Some employee ->
      Employee.manager employee = None ->
      snd (get_logged_in_employee_details request s)
      = Directory (DDetails (Employee.id employee)
                            (display_name (Employee.user employee)) "No Manager")
                  HTTP_200_OK.
Proof.
  unfold get_logged_in_employee_details, api_view_directory.
  destruct (forallb _ _) eqn:Hgate.
  - destruct (existsb _ _) eqn:Hmethod.
    + unfold finish, and_then, found_or, go_on.
      destruct (Employee_get_by_user (user request) s) as [employee|] eqn:He.
      * destruct (Employee.manager employee) as [pk|] eqn:Hmgr.
        -- destruct (Employee_get pk s); repeat split; intros e _ [= <-]; congruence.
        -- repeat split. intros e _ [= <-] _. reflexivity.
      * repeat split. discriminate.
    + repeat split. intros e Hm. rewrite Hm in Hmethod. discriminate.
  - assert (is_authenticated (user request) = false) as Hanon.
    { unfold IsAuthenticated in Hgate. cbn [forallb] in Hgate.
      now rewrite andb_true_r in Hgate. }
    rewrite Hanon. repeat split. intros e _ He.
    destruct (user request); [discriminate Hanon | discriminate He].
Qed.

(** X21 on the sample store: Dave, who has no manager. *)
Lemma employee_details_handle_a_missing_manager_witness :
  get_logged_in_employee_details (Sample.http GET Sample.dave []) Sample.store
  = (Sample.store, Directory (DDetails 15 "dave Doe" "No Manager") HTTP_200_OK).
Proof.
  destruct (employee_details_handle_a_missing_manager
              (Sample.http GET Sample.dave []) Sample.store) as (Hstore & _ & Hreply).
  apply injective_projections; cbn [fst snd].
  - exact Hstore.
  - exact (Hreply Sample.dave_e eq_refl eq_refl eq_refl).
Defined.

(** X22.  The listing of the employees always succeeds for an admin: it
    answers with success and the employees whose first or last name contains
    the text searched for, in any case of letters, or with all of them when
    no text is given; when none matches the answer is an empty list, not a
    not-found message as for the requests.  The store is left as it was. *)
Theorem employee_listing_succeeds_even_when_empty
        (request : HttpRequest) (s : Store) (u : User.t) :
  method request = GET ->
  user request = Some u ->
  User.is_superuser u = true ->
  exists rows,
    listing_employees_admin request s = (s, Directory (DEmployees rows) HTTP_200_OK)
    /\ forall e,
        In e rows <->
        In e (employees s)
        /\ match given (Query.search_name (query_params request)) with
           | Some name => employee_name_matches name e = true
           | None => True
           end.
Proof.
  intros Hm Hu Hsuper. unfold listing_employees_admin. enter_directory Hm.
  unfold IsAuthenticated, IsAdmin. cbn [forallb]. rewrite Hu, Hsuper.
  cbn [is_authenticated andb]. unfold finish, and_then, look, go_on.
  eexists. split; [reflexivity|]. intros e.
  destruct (given _) as [name|].
  - apply filter_In.
  - tauto.
Qed.

(** X22 on the sample store: nobody is called Zed. *)
Lemma employee_listing_succeeds_even_when_empty_witness :
  let request :=
    Sample.query Sample.root
      {| Query.status := None; Query.sort_by := None;
         Query.start_date := None; Query.end_date := None;
         Query.search_name := Some "Zed"; Query.purpose_of_travel := None |} in
  listing_employees_admin request Sample.store
  = (Sample.store, Directory (DEmployees []) HTTP_200_OK)
  /\ exists rows,
      listing_employees_admin request Sample.store
      = (Sample.store, Directory (DEmployees rows) HTTP_200_OK)
      /\ forall e,
          In e rows <->
          In e (employees Sample.store)
          /\ match given (Query.search_name (query_params request)) with
             | Some name => employee_name_matches name e = true
             | None => True
             end.
Proof.
  split; [reflexivity|].
  apply (employee_listing_succeeds_even_when_empty
           (Sample.query Sample.root
              {| Query.status := None; Query.sort_by := None;
                 Query.start_date := None; Query.end_date := None;
                 Query.search_name := Some "Zed"; Query.purpose_of_travel := None |})
           Sample.store Sample.root);
    reflexivity.
Defined.

(** *** Deleting an employee *)

Lemma set_null_clears deleted fk : set_null deleted fk <> Some deleted.
Proof.
  unfold set_null. destruct fk as [pk|]; [|discriminate].
  destruct (Nat.eqb_spec pk deleted); [discriminate | congruence].
Qed.

Lemma set_null_keeps_clear deleted pk fk :
  fk <> Some pk -> set_null deleted fk <> Some pk.
Proof.
  unfold set_null. destruct fk as [x|]; [|discriminate].
  destruct (x =? deleted)%nat; [discriminate | auto].
Qed.

Lemma Employee_delete_unreferences e s : unreferenced (Employee.id e) (Employee_delete e s).
Proof.
  split.
  - intros r Hr. cbn [Employee_delete requests] in Hr.
    apply in_map_iff in Hr as (r0 & <- & _). cbn. split; apply set_null_clears.
  - intros x Hx. cbn [Employee_delete employees] in Hx.
    apply in_map_iff in Hx as (x0 & <- & _). cbn. apply set_null_clears.
Qed.

Lemma Employee_delete_keeps_unreferenced pk e s :
  unreferenced pk s -> unreferenced pk (Employee_delete e s).
Proof.
  intros [Hr He]. split.
  - intros r Hin. cbn [Employee_delete requests] in Hin.
    apply in_map_iff in Hin as (r0 & <- & Hin). destruct (Hr r0 Hin).
    cbn. split; now apply set_null_keeps_clear.
  - intros x Hin. cbn [Employee_delete employees] in Hin.
    apply in_map_iff in Hin as (x0 & <- & Hin). apply filter_In in Hin as [Hin _].
    cbn. apply set_null_keeps_clear. now apply He.
Qed.

Lemma Employee_delete_keeps_requests e s :
  map Request.id (requests (Employee_delete e s)) = map Request.id (requests s)
  /\ map without_parties (requests (Employee_delete e s))
     = map without_parties (requests s).
Proof.
  cbn [Employee_delete requests]. rewrite !map_map. split; now apply map_ext.
Qed.

Lemma find_none_map_filter {A} (p keep : A -> bool) (f : A -> A) (l : list A) :
  (forall x, p (f x) = p x) ->
  find p l = None -> find p (map f (filter keep l)) = None.
Proof.
  intros Hf. induction l as [|x l IH]; [reflexivity|]. cbn [find filter].
  destruct (p x) eqn:Hp; [discriminate|]. intros Hnone.
  destruct (keep x); cbn [map find]; [rewrite Hf, Hp|]; now apply IH.
Qed.

Lemma Employee_delete_keeps_absent pk e s :
  Employee_get pk s = None -> Employee_get pk (Employee_delete e s) = None.
Proof.
  unfold Employee_get. cbn [Employee_delete employees].
  apply find_none_map_filter. reflexivity.
Qed.

Lemma Employee_delete_removes e s :
  Employee_get (Employee.id e) (Employee_delete e s) = None.
Proof.
  unfold Employee_get. cbn [Employee_delete employees].
  induction (employees s) as [|x rows IH]; [reflexivity|]. cbn [filter].
  destruct (Employee.id x =? Employee.id e)%nat eqn:Hx; cbn [negb map find];
    [exact IH|]. cbn [Employee_set_manager Employee.id]. now rewrite Hx.
Qed.

(** What holds after [employee.delete()] holds after any further cascade. *)
Lemma cascade_keeps pk doomed s :
  let s' := fold_left (fun acc e => Employee_delete e acc) doomed s in
  (unreferenced pk s -> unreferenced pk s')
  /\ (Employee_get pk s = None -> Employee_get pk s' = None)
  /\ map Request.id (requests s') = map Request.id (requests s)
  /\ map without_parties (requests s') = map without_parties (requests s).
Proof.
  revert s. induction doomed as [|e doomed IH]; intros s; cbn [fold_left].
  - auto.
  - destruct (IH (Employee_delete e s)) as (H1 & H2 & H3 & H4).
    destruct (Employee_delete_keeps_requests e s) as [H5 H6].
    split; [|split; [|split]].
    + intros H. now apply H1, Employee_delete_keeps_unreferenced.
    + intros H. now apply H2, Employee_delete_keeps_absent.
    + now rewrite H3.
    + now rewrite H4.
Qed.

(** A saved employee is the one read back under its key. *)
Lemma Employee_get_save_self pk e saved s :
  Employee_get pk s = Some e -> Employee.id saved = Employee.id e ->
  Employee_get pk (Employee_save saved s) = Some saved.
Proof.
  intros Hget Hid. pose proof (Employee_get_id _ _ _ Hget) as Hpk.
  assert (Hsaved : Employee.id saved = pk) by congruence.
  unfold Employee_get in *. cbn [Employee_save employees].
  rewrite Hsaved. clear Hid Hpk.
  induction (employees s) as [|row rows IH]; [discriminate|].
  cbn [map find] in *.
  destruct (Employee.id row =? pk)%nat eqn:Hrow.
  - now rewrite Hsaved, Nat.eqb_refl.
  - rewrite Hrow. now apply IH.
Qed.

(** Saving a user keeps every employee, with its manager. *)
Lemma Employee_get_User_save pk e u s :
  Employee_get pk s = Some e ->
  exists e', Employee_get pk (User_save u s) = Some e'
             /\ Employee.manager e' = Employee.manager e.
Proof.
  unfold Employee_get. cbn [User_save employees].
  induction (employees s) as [|row rows IH]; [discriminate|].
  cbn [map find]. intros Hget.
  destruct (User.id (Employee.user row) =? User.id u)%nat; cbn [Employee.id];
    destruct (Employee.id row =? pk)%nat; auto;
    injection Hget as <-; eexists; split; reflexivity.
Qed.

Ltac settle := repeat split; first [discriminate | assumption | reflexivity].


Section DirectoryFacts.

Variable UserSerializer : Store -> User.t -> Dict -> ValidationError + User.t.

(** X23.  An admin deletes an employee: the employee is gone and nothing in
    the store refers to it any more, neither a request as its employee or
    its manager nor another employee as its manager; no request is deleted
    with it, and every request keeps its key and all its fields but these
    two references; no mail is sent. *)
Theorem deleting_an_employee_orphans_and_keeps_requests
        (request : HttpRequest) (employee_id : nat) (s : Store)
        (u : User.t) (e : Employee.t) :
  method request = DELETE ->
  user request = Some u ->
  User.is_superuser u = true ->
  Employee_get employee_id s = Some e ->
  let result := view_employee_admin UserSerializer request employee_id s in
  snd result = Directory (DRemoved "Removed an Employee" employee_id) HTTP_200_OK
  /\ Employee_get employee_id (fst result) = None
  /\ unreferenced employee_id (fst result)
  /\ map Request.id (requests (fst result)) = map Request.id (requests s)
  /\ map without_parties (requests (fst result)) = map without_parties (requests s)
  /\ outbox (fst result) = outbox s.
Proof.
  intros Hm Hu Hsuper Hget result. subst result.
  unfold view_employee_admin. enter_directory Hm.
  unfold IsAuthenticated, IsAdmin. cbn [forallb]. rewrite Hu, Hsuper.
  cbn [is_authenticated andb]. unfold finish, and_then, found_or, write, go_on.
  rewrite Hget. cbn [method_eqb fst snd].
  pose proof (Employee_get_id _ _ _ Hget) as Hid.
  unfold User_delete.
  match goal with
  | |- context [fold_left ?f ?doomed ?s1] =>
      destruct (cascade_keeps employee_id doomed s1) as (H1 & H2 & H3 & H4);
      set (s' := fold_left f doomed s1) in *
  end.
  destruct (Employee_delete_keeps_requests e s) as [H5 H6].
  split; [reflexivity|]. split; [|split; [|split; [|split]]].
  - unfold Employee_get. cbn [employees]. apply H2. rewrite <- Hid.
    apply Employee_delete_removes.
  - destruct H1 as [Hr He]; [rewrite <- Hid; apply Employee_delete_unreferences|].
    split; [exact Hr | exact He].
  - cbn [requests]. now rewrite H3.
  - cbn [requests]. now rewrite H4.
  - cbn [outbox]. subst s'. clear.
    match goal with
    | |- outbox (fold_left _ ?doomed ?s1) = _ =>
        generalize doomed; intros l; change (outbox s) with (outbox s1);
        generalize s1
    end.
    induction l as [|x l IH]; intros s0; cbn [fold_left]; [reflexivity|].
    now rewrite IH.
Qed.

(** The steps of a PATCH, once the employee is found. *)
Lemma patch_cases (request : HttpRequest) (employee_id : nat) (s : Store)
      (u : User.t) (e : Employee.t) :
  method request = PATCH ->
  user request = Some u ->
  User.is_superuser u = true ->
  Employee_get employee_id s = Some e ->
  let result := view_employee_admin UserSerializer request employee_id s in
  let employee_data := pick employee_fields (data request) in
  let user_data := pick user_fields (data request) in
  (result = (s, Uncaught "ValueError")
   /\ exists v, lookup (data request) "manager_id" = Some v /\ read_pk v = NotAPk)
  \/ (result = (s, Plain (Response (JMessage "error" "Manager not found")
                                   HTTP_400_BAD_REQUEST))
      /\ exists v pk, lookup (data request) "manager_id" = Some v
                      /\ read_pk v = Pk pk /\ Employee_get pk s = None)
  \/ exists e1 d1,
      ((lookup (data request) "manager_id" = None /\ e1 = e /\ d1 = employee_data)
       \/ (exists v, lookup (data request) "manager_id" = Some v
                     /\ read_pk v = NoPk /\ e1 = e
                     /\ d1 = assoc_set "manager_id" VNone employee_data)
       \/ (exists v pk m, lookup (data request) "manager_id" = Some v
                          /\ read_pk v = Pk pk /\ Employee_get pk s = Some m
                          /\ e1 = Employee_set_manager (Some pk) e
                          /\ d1 = employee_data))
      /\ ((exists errors, d1 <> [] /\ EmployeeSerializer.is_valid d1 = inl errors
                          /\ result = (s, Plain (Response (JErrors errors)
                                                          HTTP_400_BAD_REQUEST)))
          \/ exists s1,
              ((d1 = [] /\ s1 = s)
               \/ (exists vd, d1 <> [] /\ EmployeeSerializer.is_valid d1 = inr vd
                              /\ s1 = Employee_save (EmployeeSerializer.assign e1 vd) s))
              /\ ((user_data = [] /\ result = (s1, updated))
                  \/ (exists errors,
                         user_data <> []
                         /\ UserSerializer s1 (Employee.user e) user_data = inl errors
                         /\ result = (s1, Plain (Response (JErrors errors)
                                                          HTTP_400_BAD_REQUEST)))
                  \/ (exists saved,
                         user_data <> []
                         /\ UserSerializer s1 (Employee.user e) user_data = inr saved
                         /\ result = (User_save saved s1, updated)))).
Proof.
  intros Hm Hu Hsuper Hget result employee_data user_data. subst result.
  unfold view_employee_admin. enter_directory Hm.
  unfold IsAuthenticated, IsAdmin. cbn [forallb]. rewrite Hu, Hsuper.
  cbn [is_authenticated andb].
  unfold finish, and_then, found_or, write, look, go_on, reply.
  rewrite Hget. fold employee_data. fold user_data.
  destruct (lookup (data request) "manager_id") as [v|] eqn:Hkey.
  - destruct (read_pk v) as [|pk|] eqn:Hpk.
    + right; right.
      exists e, (assoc_set "manager_id" VNone employee_data).
      split; [right; left; exists v; auto|].
      assert (Hne : assoc_set "manager_id" VNone employee_data <> []).
      { destruct employee_data as [|[k x] rest]; cbn; [discriminate|].
        destruct (k =? "manager_id"); discriminate. }
      destruct (assoc_set "manager_id" VNone employee_data) as [|kv d1] eqn:Hd1;
        [congruence|]. cbn [is_empty negb].
      destruct (EmployeeSerializer.is_valid (kv :: d1)) as [errors|vd] eqn:Hvalid.
      * left. exists errors. auto.
      * right. exists (Employee_save (EmployeeSerializer.assign e vd) s).
        split; [right; exists vd; auto|].
        destruct user_data as [|kv' ud]; cbn [is_empty negb]; [left; auto|].
        destruct (UserSerializer _ _ _) as [errors|saved] eqn:Huser.
        -- right; left. exists errors. settle.
        -- right; right. exists saved. settle.
    + destruct (Employee_get pk s) as [m|] eqn:Hmgr.
      * right; right.
        pose proof (Employee_get_id _ _ _ Hmgr) as Hmid. rewrite Hmid.
        exists (Employee_set_manager (Some pk) e), employee_data.
        split; [right; right; exists v, pk, m; auto|].
        destruct employee_data as [|kv d1] eqn:Hd1; cbn [is_empty negb].
        -- right. exists s. split; [left; auto|].
           destruct user_data as [|kv' ud]; cbn [is_empty negb]; [left; auto|].
           destruct (UserSerializer _ _ _) as [errors|saved] eqn:Huser.
           ++ right; left. exists errors. settle.
           ++ right; right. exists saved. settle.
        -- destruct (EmployeeSerializer.is_valid (kv :: d1)) as [errors|vd] eqn:Hvalid.
           ++ left. exists errors. settle.
           ++ right.
              exists (Employee_save
                        (EmployeeSerializer.assign (Employee_set_manager (Some pk) e) vd) s).
              split; [right; exists vd; settle|].
              destruct user_data as [|kv' ud]; cbn [is_empty negb]; [left; auto|].
              destruct (UserSerializer _ _ _) as [errors|saved] eqn:Huser.
              ** right; left. exists errors. settle.
              ** right; right. exists saved. settle.
      * right; left. split; [reflexivity|]. exists v, pk. auto.
    + left. split; [reflexivity|]. exists v. auto.
  - right; right. exists e, employee_data. split; [left; auto|].
    destruct employee_data as [|kv d1] eqn:Hd1; cbn [is_empty negb].
    + right. exists s. split; [left; auto|].
      destruct user_data as [|kv' ud]; cbn [is_empty negb]; [left; auto|].
      destruct (UserSerializer _ _ _) as [errors|saved] eqn:Huser.
      * right; left. exists errors. settle.
      * right; right. exists saved. settle.
    + destruct (EmployeeSerializer.is_valid (kv :: d1)) as [errors|vd] eqn:Hvalid.
      * left. exists errors. settle.
      * right. exists (Employee_save (EmployeeSerializer.assign e vd) s).
        split; [right; exists vd; settle|].
        destruct user_data as [|kv' ud]; cbn [is_empty negb]; [left; auto|].
        destruct (UserSerializer _ _ _) as [errors|saved] eqn:Huser.
        -- right; left. exists errors. settle.
        -- right; right. exists saved. settle.
Qed.

(** X24.  A PATCH of an employee keeps the employee, and leaves its manager
    as it was or sets it to an employee that exists and that [manager_id]
    names.  So a [manager_id] that is null, empty or zero does not take the
    manager away, and no PATCH leaves a manager that does not exist. *)
Theorem patch_keeps_the_manager_or_sets_an_existing_one
        (request : HttpRequest) (employee_id : nat) (s : Store)
        (u : User.t) (e : Employee.t) :
  method request = PATCH ->
  user request = Some u ->
  User.is_superuser u = true ->
  Employee_get employee_id s = Some e ->
  exists e',
    Employee_get employee_id
                 (fst (view_employee_admin UserSerializer request employee_id s))
    = Some e'
    /\ (Employee.manager e' = Employee.manager e
        \/ exists v pk,
            lookup (data request) "manager_id" = Some v
            /\ read_pk v = Pk pk
            /\ Employee_get pk s <> None
            /\ Employee.manager e' = Some pk).
Proof.
  intros Hm Hu Hsuper Hget.
  destruct (patch_cases request employee_id s u e Hm Hu Hsuper Hget)
    as [[-> _]|[[-> _]|(e1 & d1 & Hfirst & Hrest)]];
    [exists e; auto | exists e; auto |].
  assert (Hid : Employee.id e1 = Employee.id e).
  { destruct Hfirst as [(_ & -> & _)|[(v & _ & _ & -> & _)|(v & pk & m & _ & _ & _ & -> & _)]];
      reflexivity. }
  assert (He1 : Employee.manager e1 = Employee.manager e
                \/ exists v pk,
                    lookup (data request) "manager_id" = Some v
                    /\ read_pk v = Pk pk
                    /\ Employee_get pk s <> None
                    /\ Employee.manager e1 = Some pk).
  { destruct Hfirst as [(_ & -> & _)|[(v & _ & _ & -> & _)|(v & pk & m & Hv & Hpk & Hmgr & -> & _)]];
      [auto | auto |].
    right. exists v, pk. repeat split; [assumption | assumption | congruence]. }
  destruct Hrest as [(errors & _ & _ & ->)|(s1 & Hs1 & Hlast)]; [exists e; auto|].
  assert (exists e', Employee_get employee_id s1 = Some e'
                     /\ (Employee.manager e' = Employee.manager e
                         \/ Employee.manager e' = Employee.manager e1))
    as (e' & Hget1 & He').
  { destruct Hs1 as [[_ ->]|(vd & _ & _ & ->)]; [exists e; auto|].
    exists (EmployeeSerializer.assign e1 vd). split; [|right; reflexivity].
    now apply Employee_get_save_self with (e := e). }
  assert (Hdone : Employee.manager e' = Employee.manager e
                  \/ exists v pk,
                      lookup (data request) "manager_id" = Some v
                      /\ read_pk v = Pk pk
                      /\ Employee_get pk s <> None
                      /\ Employee.manager e' = Some pk).
  { destruct He' as [He'|He']; [auto|].
    destruct He1 as [He1|(v & pk & Hv & Hpk & Hmgr & He1)]; [left; congruence|].
    right. exists v, pk. repeat split; [assumption | assumption | assumption | congruence]. }
  destruct Hlast as [[_ ->]|[(errors & _ & _ & ->)|(saved & _ & _ & ->)]];
    [exists e'; auto | exists e'; auto |].
  cbn [fst].
  destruct (Employee_get_User_save employee_id e' saved s1 Hget1) as (e2 & Hget2 & He2).
  exists e2. split; [exact Hget2|].
  destruct Hdone as [Hdone|(v & pk & Hv & Hpk & Hmgr & Hdone)]; [left; congruence|].
  right. exists v, pk. repeat split; [assumption | assumption | assumption | congruence].
Qed.

(** X25.  A PATCH that sends [manager_id] alone goes through for every
    employee that exists, and makes it the manager: the view does not ask
    that the manager be a manager by role, nor that it be another employee
    than the one it is given to. *)
Theorem patch_names_any_employee_as_manager
        (request : HttpRequest) (employee_id : nat) (s : Store)
        (u : User.t) (e m : Employee.t) (v : Value) (pk : nat) :
  method request = PATCH ->
  user request = Some u ->
  User.is_superuser u = true ->
  Employee_get employee_id s = Some e ->
  data request = [("manager_id", v)] ->
  read_pk v = Pk pk ->
  Employee_get pk s = Some m ->
  snd (view_employee_admin UserSerializer request employee_id s) = updated
  /\ Employee_get employee_id
                  (fst (view_employee_admin UserSerializer request employee_id s))
     = Some (Employee_set_manager (Some pk) e).
Proof.
  intros Hm Hu Hsuper Hget Hdata Hpk Hmgr.
  destruct (patch_cases request employee_id s u e Hm Hu Hsuper Hget)
    as [[_ (v' & Hv & Hbad)]|[[_ (v' & pk' & Hv & Hpk' & Hnone)]
                             |(e1 & d1 & Hfirst & Hrest)]];
    rewrite Hdata in *; cbn in Hv || idtac.
  - injection Hv as <-. congruence.
  - injection Hv as <-. congruence.
  - cbn in Hfirst, Hrest.
    destruct Hfirst as [(Hv & _)|[(v' & Hv & Hno & _)|(v' & pk' & m' & Hv & Hpk' & _ & -> & ->)]];
      [discriminate Hv | injection Hv as <-; congruence |].
    injection Hv as <-. assert (pk' = pk) as -> by congruence.
    destruct Hrest as [(errors & _ & Hvalid & _)|(s1 & Hs1 & Hlast)];
      [discriminate Hvalid|].
    destruct Hs1 as [[Hnil _]|(vd & _ & Hvalid & ->)]; [discriminate Hnil|].
    injection Hvalid as <-.
    destruct Hlast as [[_ ->]|[(errors & Hne & _)|(saved & Hne & _)]];
      [|now contradiction Hne | now contradiction Hne].
    split; [reflexivity|]. cbn [fst].
    now apply Employee_get_save_self with (e := e).
Qed.

(** X26.  A PATCH is not all or nothing.  The fields of the employee are
    saved before those of the user are looked at: when the user serializer
    refuses its part, the caller gets the errors with status 400, and the
    fields of the employee that were sent with it are stored all the same. *)
Theorem patch_saves_the_employee_part_when_the_user_part_is_refused
        (request : HttpRequest) (employee_id : nat) (s : Store)
        (u : User.t) (e : Employee.t) (vd : Dict) (errors : ValidationError) :
  method request = PATCH ->
  user request = Some u ->
  User.is_superuser u = true ->
  Employee_get employee_id s = Some e ->
  lookup (data request) "manager_id" = None ->
  pick employee_fields (data request) <> [] ->
  EmployeeSerializer.is_valid (pick employee_fields (data request)) = inr vd ->
  pick user_fields (data request) <> [] ->
  UserSerializer (Employee_save (EmployeeSerializer.assign e vd) s)
                 (Employee.user e) (pick user_fields (data request))
  = inl errors ->
  snd (view_employee_admin UserSerializer request employee_id s)
  = Plain (Response (JErrors errors) HTTP_400_BAD_REQUEST)
  /\ Employee_get employee_id
                  (fst (view_employee_admin UserSerializer request employee_id s))
     = Some (EmployeeSerializer.assign e vd).
Proof.
  intros Hm Hu Hsuper Hget Hkey Hne Hvalid Hune Hrefused.
  destruct (patch_cases request employee_id s u e Hm Hu Hsuper Hget)
    as [[_ (v' & Hv & _)]|[[_ (v' & pk' & Hv & _)]|(e1 & d1 & Hfirst & Hrest)]];
    [congruence | congruence |].
  destruct Hfirst as [(_ & -> & ->)|[(v' & Hv & _)|(v' & pk' & m' & Hv & _)]];
    [| congruence | congruence].
  destruct Hrest as [(errors' & _ & Hbad & _)|(s1 & Hs1 & Hlast)]; [congruence|].
  destruct Hs1 as [[Hnil _]|(vd' & _ & Hvalid' & ->)]; [congruence|].
  assert (vd' = vd) as -> by congruence.
  destruct Hlast as [[Hnil _]|[(errors' & _ & Hrefused' & ->)|(saved & _ & Hsaved & _)]];
    [congruence | | congruence].
  assert (errors' = errors) as -> by congruence.
  split; [reflexivity|]. cbn [fst].
  now apply Employee_get_save_self with (e := e).
Qed.

End DirectoryFacts.

(** X23 on the sample store: the admin deletes Bob, the manager of Alice. *)
Lemma deleting_an_employee_orphans_and_keeps_requests_witness :
  let request := Sample.http DELETE Sample.root [] in
  let result := view_employee_admin Demo.UserSerializer request 12 Sample.store in
  Employee_get 12 Sample.store = Some Sample.bob_e
  /\ snd result = Directory (DRemoved "Removed an Employee" 12) HTTP_200_OK
  /\ Employee_get 12 (fst result) = None
  /\ unreferenced 12 (fst result)
  /\ map Request.id (requests (fst result)) = map Request.id (requests Sample.store)
  /\ map without_parties (requests (fst result))
     = map without_parties (requests Sample.store)
  /\ outbox (fst result) = outbox Sample.store.
Proof.
  split; [reflexivity|].
  apply (deleting_an_employee_orphans_and_keeps_requests
           Demo.UserSerializer (Sample.http DELETE Sample.root []) 12 Sample.store
           Sample.root Sample.bob_e);
    reflexivity.
Defined.

(** X24 on the sample store: the admin sends a null [manager_id] for Alice,
    who keeps Bob. *)
Lemma patch_keeps_the_manager_or_sets_an_existing_one_witness :
  let request := Sample.http PATCH Sample.root [("manager_id", VNone)] in
  Employee_get 11 Sample.store = Some Sample.alice_e
  /\ Employee_get 11 (fst (view_employee_admin Demo.UserSerializer request 11
                                               Sample.store))
     = Some Sample.alice_e
  /\ exists e',
      Employee_get 11 (fst (view_employee_admin Demo.UserSerializer request 11
                                                Sample.store))
      = Some e'
      /\ (Employee.manager e' = Employee.manager Sample.alice_e
          \/ exists v pk,
              lookup (data request) "manager_id" = Some v
              /\ read_pk v = Pk pk
              /\ Employee_get pk Sample.store <> None
              /\ Employee.manager e' = Some pk).
Proof.
  split; [reflexivity|]. split; [reflexivity|].
  apply (patch_keeps_the_manager_or_sets_an_existing_one
           Demo.UserSerializer
           (Sample.http PATCH Sample.root [("manager_id", VNone)]) 11 Sample.store
           Sample.root Sample.alice_e);
    reflexivity.
Defined.

(** X25 on the sample store: the admin makes Dave, who is no manager, his own
    manager. *)
Lemma patch_names_any_employee_as_manager_witness :
  let request := Sample.http PATCH Sample.root [("manager_id", VRef 15)] in
  let result := view_employee_admin Demo.UserSerializer request 15 Sample.store in
  (Employee_get 15 Sample.store = Some Sample.dave_e
   /\ Employee.is_manager Sample.dave_e = false)
  /\ snd result = updated
  /\ Employee_get 15 (fst result)
     = Some (Employee_set_manager (Some 15) Sample.dave_e).
Proof.
  split; [split; reflexivity|].
  apply (patch_names_any_employee_as_manager
           Demo.UserSerializer
           (Sample.http PATCH Sample.root [("manager_id", VRef 15)]) 15
           Sample.store Sample.root Sample.dave_e Sample.dave_e (VRef 15) 15);
    reflexivity.
Defined.

(** X26 on the sample store: the admin promotes Alice and blanks her
    username in one PATCH; the username is refused, the promotion stays. *)
Lemma patch_saves_the_employee_part_when_the_user_part_is_refused_witness :
  let request :=
    Sample.http PATCH Sample.root
                [("is_manager", VBool true); ("username", VStr "")] in
  let result := view_employee_admin Demo.UserSerializer request 11 Sample.store in
  (Employee_get 11 Sample.store = Some Sample.alice_e
   /\ EmployeeSerializer.is_valid (pick employee_fields (data request))
      = inr [("is_manager", VBool true)])
  /\ snd result
     = Plain (Response (JErrors [("username", "This field may not be blank.")])
                       HTTP_400_BAD_REQUEST)
  /\ Employee_get 11 (fst result)
     = Some (EmployeeSerializer.assign Sample.alice_e [("is_manager", VBool true)])
  /\ option_map Employee.is_manager (Employee_get 11 (fst result)) = Some true.
Proof.
  split; [split; reflexivity|].
  destruct (patch_saves_the_employee_part_when_the_user_part_is_refused
              Demo.UserSerializer
              (Sample.http PATCH Sample.root
                           [("is_manager", VBool true); ("username", VStr "")])
              11 Sample.store Sample.root Sample.alice_e
              [("is_manager", VBool true)]
              [("username", "This field may not be blank.")]
              eq_refl eq_refl eq_refl eq_refl eq_refl) as [Hreply Hsaved];
    [discriminate | reflexivity | discriminate | reflexivity |].
  split; [exact Hreply|]. split; [exact Hsaved|].
  rewrite Hsaved. reflexivity.
Defined.
